(** * aiokef: a shallow embedding of the KEF speaker control module

    Source: [custom_components/kef/aiokef.py].

    The module talks to a KEF wireless speaker over TCP with a small
    binary protocol.  This development embeds

    - the module-level tables ([INPUT_SOURCES], [INPUT_SOURCES_RESPONSE],
      [COMMANDS]) and the frame splitter [_parse_response];
    - the communicator ([open_connection], [_send_message],
      [send_message]) and the speaker operations of [AsyncKefSpeaker],
      as programs of a state-and-exception monad over an explicit world.

    Conventions.
    - A Python [bytes] value is a [list Z] of numbers in [0, 256).
    - A Python [float] is a binary64 [spec_float]; [int(x)] truncates.
    - Coroutines are run sequentially: every [await] is a monadic bind.
      The world records what was written to the socket and every sleep.
      What the peer does (accept or refuse a connection, answer a read or
      let it time out) is given by an environment that sees the whole
      history, so a scripted peer and a simulated speaker are both
      instances of it.
    - The idle watchdog ([_disconnect_if_passive]) is a concurrent task
      and is not interleaved with the operations: the connection flag
      only changes in [open_connection].  What the watchdog does to a
      read that is waiting for its reply is part of what the environment
      answers; [read_race] spells it out.
    - The only unbounded loop is the [while] of [open_connection] (a
      [BlockingIOError] resets its counter); it is run with fuel and
      yields [Diverge] when the fuel is spent. *)

From Stdlib Require Import ZArith String Ascii List Bool Lia.
From Stdlib Require Import SpecFloat.
From stdpp Require Import base option list gmap.

Import ListNotations.
Local Open Scope string_scope.
Local Open Scope list_scope.
Local Open Scope Z_scope.

(** ** Python helpers used by the module *)

Module Py.

(** [s.startswith(p)], returning the rest of [s] after [p]. *)
Fixpoint strip_prefix (p s : string) : option string :=
  match p, s with
  | EmptyString, _ => Some s
  | String a p', String b s' =>
      if Ascii.eqb a b then strip_prefix p' s' else None
  | String _ _, EmptyString => None
  end.

(** [s.replace(old, new)] for a non-empty [old]: non-overlapping
    occurrences, left to right.  The scan restarts after each
    replaced occurrence, so it is driven by fuel = length of [s]. *)
Fixpoint replace_fuel (fuel : nat) (old new s : string) : string :=
  match fuel with
  | O => s
  | S fuel' =>
      match strip_prefix old s with
      | Some rest => String.append new (replace_fuel fuel' old new rest)
      | None =>
          match s with
          | EmptyString => EmptyString
          | String c s' => String c (replace_fuel fuel' old new s')
          end
      end
  end.

Definition replace (old new s : string) : string :=
  match old with
  | EmptyString => s (* not used by the module *)
  | _ => replace_fuel (String.length s) old new s
  end.

(** [enumerate(l)] *)
Fixpoint enumerate_from {A} (i : Z) (l : list A) : list (Z * A) :=
  match l with
  | [] => []
  | x :: l' => (i, x) :: enumerate_from (i + 1) l'
  end.
Definition enumerate {A} (l : list A) : list (Z * A) := enumerate_from 0 l.

(** [d[k]] / [k in d] on a dict kept as an insertion-ordered list of
    items without duplicate keys. *)
Fixpoint dict_get {K V} `{EqDecision K} (k : K) (d : list (K * V)) : option V :=
  match d with
  | [] => None
  | (k', v) :: d' => if decide (k = k') then Some v else dict_get k d'
  end.

(** [bytes.split(sep)] for a one-byte separator: the pieces between
    the separators, empty pieces included. *)
Fixpoint split (sep : Z) (b : list Z) : list (list Z) :=
  match b with
  | [] => [[]]
  | x :: b' =>
      if Z.eqb x sep then [] :: split sep b'
      else match split sep b' with
           | [] => [[x]] (* unreachable: split never returns [] *)
           | p :: ps => (x :: p) :: ps
           end
  end.

(** [b[-2]] *)
Definition index_m2 (b : list Z) : option Z :=
  match rev b with
  | _ :: x :: _ => Some x
  | _ => None
  end.

Definition is_byte (n : Z) : bool := (0 <=? n) && (n <? 256).

End Py.

(** ** Module constants and tables *)

Definition _RESPONSE_OK : Z := 17.
Definition _MAX_ATTEMPT_TILL_SUCCESS : nat := 10.
Definition _MAX_SEND_MESSAGE_TRIES : nat := 5.
Definition _MAX_CONNECTION_RETRIES : nat := 10.

Definition INPUT_SOURCES_20_MINUTES_LR : list (string * Z) :=
  [ ("Bluetooth", 9);
    ("Bluetooth_paired", 15);
    ("Aux", 10);
    ("Opt", 11);
    ("Usb", 12);
    ("Wifi", 2) ].

(** [STANDBY_OPTIONS = [20, 60, None]] *)
Definition STANDBY_OPTIONS : list (option Z) := [Some 20; Some 60; None].

(** [{t: code + i * 16 for i, t in enumerate(STANDBY_OPTIONS)}] *)
Definition LR_mapping (code : Z) : list (option Z * Z) :=
  map (fun '(i, t) => (t, code + i * 16)) (Py.enumerate STANDBY_OPTIONS).

(** [INPUT_SOURCES[source] = {t: (LR, LR + 64) for t, LR in LR_mapping.items()}] *)
Definition INPUT_SOURCES : list (string * list (option Z * (Z * Z))) :=
  map (fun '(source, code) =>
         (source, map (fun '(t, LR) => (t, (LR, LR + 64))) (LR_mapping code)))
      INPUT_SOURCES_20_MINUTES_LR.

(** The two nested loops that fill [INPUT_SOURCES_RESPONSE]; a later
    assignment to the same code overwrites an earlier one. *)
Definition response_add_mapping (source : string)
    (acc : gmap Z (string * option Z * string))
    (item : option Z * (Z * Z)) : gmap Z (string * option Z * string) :=
  let '(t, (LR, RL)) := item in
  <[RL := (source, t, "R/L")]> (<[LR := (source, t, "L/R")]> acc).

Definition response_add_source
    (acc : gmap Z (string * option Z * string))
    (item : string * list (option Z * (Z * Z))) : gmap Z (string * option Z * string) :=
  let '(source, mapping) := item in
  let source := Py.replace "_paired" "" source in
  foldl (response_add_mapping source) acc mapping.

Definition INPUT_SOURCES_RESPONSE : gmap Z (string * option Z * string) :=
  foldl response_add_source ∅ INPUT_SOURCES.

Definition _SET_START : Z := 83.  (* ord("S") *)
Definition _SET_MID : Z := 129.
Definition _GET_MID : Z := 128.
Definition _GET_START : Z := 71.  (* ord("G") *)
Definition _SOURCE : Z := 48.     (* ord("0") *)
Definition _VOL : Z := 37.        (* ord("%") *)
Definition _R : Z := 82.          (* ord("R") *)

(** The exceptions the module can meet. *)
Inductive exn :=
| AssertionError
| ConnectionRefusedError
| ConnectionError
| TimeoutError
| UnboundLocalError
| PlainException      (* [raise Exception(...)] in [_parse_response] *)
| RetryError          (* tenacity, once the attempts are used up *)
| ValueError
| TypeError
| IndexError
| KeyError
| OverflowError.

(** The result of running a piece of the program: a value, an
    exception, or no result at all (the loop did not finish). *)
Inductive outcome (A : Type) :=
| Ok (a : A)
| Raise (e : exn)
| Diverge.
Arguments Ok {A} a.
Arguments Raise {A} e.
Arguments Diverge {A}.

(** [bytes([...])] raises [ValueError] unless every item is in
    [range(256)]. *)
Definition bytes (l : list Z) : outcome (list Z) :=
  if forallb Py.is_byte l then Ok l else Raise ValueError.

Module COMMANDS.
Definition set_volume (volume : Z) : outcome (list Z) :=
  bytes [_SET_START; _VOL; _SET_MID; volume].
Definition set_source (i : Z) : outcome (list Z) :=
  bytes [_SET_START; _SOURCE; _SET_MID; i].
Definition get_volume : list Z := [_GET_START; _VOL; _GET_MID].
Definition get_source : list Z := [_GET_START; _SOURCE; _GET_MID].
End COMMANDS.

Record State := mkState {
  source : string;
  is_on : bool;
  standby_time : option Z;
  orientation : string
}.

(** ** [_parse_response] *)

(** [[b"R" + i for i in reply.split(b"R") if i]] *)
Definition responses_of (reply : list Z) : list (list Z) :=
  map (cons _R)
      (List.filter (fun i => negb (Nat.eqb (length i) 0)) (Py.split _R reply)).

(** [next(r for r in responses if r[1] == which)] *)
Fixpoint next_matching (which : Z) (responses : list (list Z)) : outcome (list Z) :=
  match responses with
  | [] => Raise PlainException (* StopIteration, turned into Exception *)
  | r :: rest =>
      match r !! 1%nat with
      | None => Raise IndexError
      | Some x => if x =? which then Ok r else next_matching which rest
      end
  end.

Definition FULL_RESPONSE_OK : list Z := [82; 17; 255].

Definition list_Z_eqb (a b : list Z) : bool := bool_decide (a = b).

(** The result is [None] when the message is neither a query nor a
    set, as the Python function then falls off its end. *)
Definition _parse_response (message reply : list Z) : outcome (option (list Z)) :=
  let responses := responses_of reply in
  match message !! 0%nat with
  | None => Raise IndexError
  | Some m0 =>
      if m0 =? 71 then
        match message !! 1%nat with
        | None => Raise IndexError
        | Some which =>
            match next_matching which responses with
            | Ok r => Ok (Some r)
            | Raise e => Raise e
            | Diverge => Diverge
            end
        end
      else if m0 =? 83 then
        if existsb (list_Z_eqb FULL_RESPONSE_OK) responses
        then Ok (Some FULL_RESPONSE_OK)
        else Raise PlainException
      else Ok None
  end.

(** ** The world and the monad *)

Inductive event :=
| EConnect                 (* one [asyncio.open_connection] attempt *)
| EWrite (msg : list Z)    (* [writer.write(msg)] and [drain] *)
| ESleep (ms : Z)          (* [asyncio.sleep], in milliseconds *)
| EBackoff (attempt : nat) (* tenacity's wait after a failed attempt *).

Inductive conn_outcome :=
| ConnOk        (* the connection is opened within the timeout *)
| ConnRefused   (* ConnectionRefusedError *)
| ConnBlocking  (* BlockingIOError *)
| ConnDown      (* asyncio.TimeoutError or OSError *).

Inductive read_outcome :=
| ReadData (data : list Z)
| ReadTimeout.

(** The peer.  Both functions get the history so far, latest event
    first. *)
Record Env := mkEnv {
  env_connect : list event -> conn_outcome;
  env_read : list event -> read_outcome
}.

Record World := mkWorld {
  is_connected : bool;    (* [(_reader, _writer) != (None, None)] *)
  _is_online : bool;
  history : list event
}.

(** A fresh communicator, as [__init__] leaves it. *)
Definition init_world : World :=
  {| is_connected := false; _is_online := false; history := [] |}.

Definition M (A : Type) : Type := World -> outcome A * World.

Definition ret {A} (a : A) : M A := fun w => (Ok a, w).
Definition raise {A} (e : exn) : M A := fun w => (Raise e, w).
Definition diverge {A} : M A := fun w => (Diverge, w).

Definition bind {A B} (m : M A) (k : A -> M B) : M B :=
  fun w =>
    match m w with
    | (Ok a, w') => k a w'
    | (Raise e, w') => (Raise e, w')
    | (Diverge, w') => (Diverge, w')
    end.

Declare Scope kef_scope.
Delimit Scope kef_scope with kef.
Notation "'let*' x ':=' m 'in' k" := (bind m (fun x => k))
  (at level 10, x pattern, m at level 100, k at level 200) : kef_scope.
Notation "m ';;;' k" := (bind m (fun _ => k))
  (at level 100, k at level 200, right associativity) : kef_scope.
Local Open Scope kef_scope.

Definition lift {A} (o : outcome A) : M A := fun w => (o, w).

Definition log (e : event) : M unit :=
  fun w => (Ok tt, {| is_connected := is_connected w; _is_online := _is_online w;
                      history := e :: history w |}).

Definition sleep (ms : Z) : M unit := log (ESleep ms).

Definition set_connected (b : bool) : M unit :=
  fun w => (Ok tt, {| is_connected := b; _is_online := _is_online w;
                      history := history w |}).

Definition set_online (b : bool) : M unit :=
  fun w => (Ok tt, {| is_connected := is_connected w; _is_online := b;
                      history := history w |}).

Definition get_world : M World := fun w => (Ok w, w).

(** [assert c] *)
Definition py_assert (c : bool) : M unit :=
  if c then ret tt else raise AssertionError.

(** tenacity's [@retry(stop=stop_after_attempt(n), wait=...)]: run the
    body; when it raises, wait and run it again, until attempt [n] has
    failed, which raises [RetryError]. *)
Fixpoint retry_from {A} (n attempt : nat) (body : M A) : M A :=
  match n with
  | O => raise RetryError
  | S n' =>
      fun w =>
        match body w with
        | (Raise e, w') =>
            match n' with
            | O => (Raise RetryError, w')
            | S _ => (log (EBackoff attempt) ;;; retry_from n' (S attempt) body) w'
            end
        | r => r
        end
  end.

Definition retry {A} (n : nat) (body : M A) : M A := retry_from n 1 body.

(** ** [_AsyncCommunicator] *)

Section Communicator.

Variable env : Env.
Variable fuel : nat.

(** One pass through the [try] of the [while] loop. *)
Definition connect_attempt : M conn_outcome :=
  let* w := get_world in
  log EConnect ;;; ret (env_connect env (history w)).

Fixpoint open_connection_loop (fuel : nat) (retries : nat) : M unit :=
  match fuel with
  | O => diverge
  | S fuel' =>
      if (retries <? _MAX_CONNECTION_RETRIES)%nat then
        let* r := connect_attempt in
        match r with
        | ConnOk =>
            set_connected true ;;; set_online true ;;; ret tt
        | ConnRefused =>
            sleep 500 ;;; open_connection_loop fuel' (retries + 1)
        | ConnBlocking =>
            sleep 1000 ;;; open_connection_loop fuel' (0 + 1)
        | ConnDown =>
            set_online false ;;; raise ConnectionRefusedError
        end
      else
        set_online false ;;; raise ConnectionRefusedError
  end.

Definition open_connection : M unit :=
  let* w := get_world in
  if is_connected w then ret tt else open_connection_loop fuel 0.

(** [_send_message].  The local [data] is bound only when the read
    returns; [finally: return data] then runs in both cases, and
    reading an unbound local raises [UnboundLocalError]. *)
Definition _send_message (message : list Z) : M (list Z) :=
  let* w := get_world in
  py_assert (is_connected w) ;;;
  log (EWrite message) ;;;
  let* w := get_world in
  let data : option (list Z) :=
    match env_read env (history w) with
    | ReadData d => Some (take 100 d)   (* [reader.read(100)] *)
    | ReadTimeout => None               (* except: only logs *)
    end in
  match data with
  | Some d => ret d
  | None => raise UnboundLocalError
  end.

Definition send_message_once (msg : list Z) : M Z :=
  open_connection ;;;
  let* raw_reply := _send_message msg in
  let* parsed := lift (_parse_response msg raw_reply) in
  match parsed with
  | None => raise TypeError   (* [None[-2]] *)
  | Some r =>
      match Py.index_m2 r with
      | Some reply => ret reply
      | None => raise IndexError
      end
  end.

Definition send_message (msg : list Z) : M Z :=
  retry _MAX_SEND_MESSAGE_TRIES (send_message_once msg).

End Communicator.

(** ** Python numbers *)

Module F64.
Definition prec : Z := 53.
Definition emax : Z := 1024.

Definition add : spec_float -> spec_float -> spec_float := SFadd prec emax.
Definition mul : spec_float -> spec_float -> spec_float := SFmul prec emax.
Definition div : spec_float -> spec_float -> spec_float := SFdiv prec emax.
Definition neg : spec_float -> spec_float := SFopp.

(** [float(n)] *)
Definition of_int (n : Z) : spec_float := binary_normalize prec emax n 0 false.

(** [int(x)]: truncation towards zero. *)
Definition to_int (x : spec_float) : outcome Z :=
  match x with
  | S754_zero _ => Ok 0
  | S754_infinity _ => Raise OverflowError
  | S754_nan => Raise ValueError
  | S754_finite s m e => Ok (cond_Zopp s (Z.shiftl (Zpos m) e))
  end.

(** [min(a, b)] and [max(a, b)]: the first argument stays unless the
    second compares strictly below (above) it. *)
Definition min (a b : spec_float) : spec_float := if SFltb b a then b else a.
Definition max (a b : spec_float) : spec_float := if SFltb a b then b else a.

Definition zero : spec_float := S754_zero false.
Definition one : spec_float := of_int 1.
End F64.

Definition _VOLUME_SCALE : spec_float := F64.of_int 100.

(** [Union[float, int]] *)
Inductive number :=
| PInt (n : Z)
| PFloat (x : spec_float).

Definition to_float (v : number) : spec_float :=
  match v with
  | PInt n => F64.of_int n
  | PFloat x => x
  end.

(** [int(v)] *)
Definition py_int (v : number) : outcome Z :=
  match v with
  | PInt n => Ok n
  | PFloat x => F64.to_int x
  end.

(** ** [AsyncKefSpeaker] *)

(** The attributes of the speaker object that the operations read.  The
    attribute [standby_time] is [cfg_standby_time] here, as the decoded
    [State] has a field of that name. *)
Record Speaker := mkSpeaker {
  volume_step : spec_float;
  maximum_volume : spec_float;
  cfg_standby_time : option Z;
  inverse_speaker_mode : bool
}.

(** The check of [__init__]. *)
Definition new_speaker (volume_step maximum_volume : spec_float)
    (standby_time : option Z) (inverse_speaker_mode : bool) : outcome Speaker :=
  if bool_decide (standby_time ∈ STANDBY_OPTIONS)
  then Ok (mkSpeaker volume_step maximum_volume standby_time inverse_speaker_mode)
  else Raise ValueError.

(** [INPUT_SOURCES[source][self.standby_time][self.inverse_speaker_mode]] *)
Definition source_code (self : Speaker) (source : string) : outcome Z :=
  match Py.dict_get source INPUT_SOURCES with
  | None => Raise KeyError
  | Some mapping =>
      match Py.dict_get (cfg_standby_time self) mapping with
      | None => Raise KeyError
      | Some (LR, RL) => Ok (if inverse_speaker_mode self then RL else LR)
      end
  end.

(** The decoding step of [get_state], after the reply byte is read. *)
Definition decode_state (response : Z) : outcome State :=
  let is_on := response <=? 128 in
  let code := response mod 128 in
  match INPUT_SOURCES_RESPONSE !! code with
  | None => Raise ConnectionError
  | Some (source, standby_time, orientation) =>
      Ok (mkState source is_on standby_time orientation)
  end.

Section Speaker.

Variable env : Env.
Variable fuel : nat.
Variable self : Speaker.

Definition get_state : M State :=
  retry _MAX_ATTEMPT_TILL_SUCCESS
    (let* response := send_message env fuel COMMANDS.get_source in
     lift (decode_state response)).

Definition get_source : M string :=
  let* state := get_state in ret (source state).

(** The [for] loop of [set_source]. *)
Fixpoint poll_source (n : nat) (source : string) : M unit :=
  match n with
  | O => raise TimeoutError
  | S n' =>
      let* current_source := get_source in
      if String.eqb current_source source then ret tt
      else sleep 500 ;;; poll_source n' source
  end.

Definition set_source_once (source : string) (state : string) : M unit :=
  py_assert (bool_decide (is_Some (Py.dict_get source INPUT_SOURCES))) ;;;
  let* c := lift (source_code self source) in
  let i := c mod 128 in
  let i := if String.eqb state "off" then i + 128 else i in
  let* msg := lift (COMMANDS.set_source i) in
  let* response := send_message env fuel msg in
  (if negb (response =? _RESPONSE_OK) then raise ConnectionError else ret tt) ;;;
  poll_source _MAX_ATTEMPT_TILL_SUCCESS source.

Definition set_source (source : string) (state : string) : M unit :=
  retry _MAX_ATTEMPT_TILL_SUCCESS (set_source_once source state).

(** [send_message] returns a number, never [None], so the check
    [if volume is None] of the source never fires and is left out. *)
Definition get_volume_and_is_muted (scale : bool) : M (number * bool) :=
  retry _MAX_ATTEMPT_TILL_SUCCESS
    (let* volume := send_message env fuel COMMANDS.get_volume in
     let is_muted := 128 <=? volume in
     ret (if scale then PFloat (F64.div (F64.of_int volume) _VOLUME_SCALE)
          else PInt volume,
          is_muted)).

Definition _set_volume (volume : Z) : M unit :=
  retry _MAX_ATTEMPT_TILL_SUCCESS
    (let* msg := lift (COMMANDS.set_volume volume) in
     let* response := send_message env fuel msg in
     if negb (response =? _RESPONSE_OK) then raise ConnectionError else ret tt).

(** [None] stands for Python's [None]. *)
Definition get_volume : M (option number) :=
  let* (volume, is_muted) := get_volume_and_is_muted true in
  ret (if negb is_muted then Some volume else None).

Definition set_volume (value : spec_float) : M spec_float :=
  let volume := F64.max F64.zero (F64.min (maximum_volume self) value) in
  let* level := lift (F64.to_int (F64.mul volume _VOLUME_SCALE)) in
  _set_volume level ;;;
  ret volume.

Definition is_muted : M bool :=
  let* (_, is_muted) := get_volume_and_is_muted false in ret is_muted.

Definition mute : M unit :=
  let* (volume, _) := get_volume_and_is_muted false in
  let* v := lift (py_int volume) in
  _set_volume (v mod 128 + 128).

Definition unmute : M unit :=
  let* (volume, _) := get_volume_and_is_muted false in
  let* v := lift (py_int volume) in
  _set_volume (v mod 128).

Definition _change_volume (step : spec_float) : M spec_float :=
  let* volume := get_volume in
  let* muted := is_muted in
  (if muted then unmute else ret tt) ;;;
  match volume with
  | None => raise AssertionError      (* [assert volume is not None] *)
  | Some volume => set_volume (F64.add (to_float volume) step)
  end.

Definition increase_volume : M spec_float :=
  _change_volume (volume_step self).

Definition decrease_volume : M spec_float :=
  _change_volume (F64.neg (volume_step self)).

(** [try: ... except ConnectionRefusedError: assert ... finally:
    return self._comm._is_online].  A [return] in [finally] discards
    whatever exception is in flight. *)
Definition is_online : M bool :=
  fun w =>
    let after_try :=
      match open_connection env fuel w with
      | (Raise ConnectionRefusedError, w') =>
          py_assert (negb (_is_online w')) w'
      | r => r
      end in
    match after_try with
    | (Diverge, w') => (Diverge, w')
    | (_, w') => (Ok (_is_online w'), w')
    end.

(** The method [is_on] ([get_is_on] here: [is_on] is the field of
    [State]). *)
Definition get_is_on : M bool :=
  let* state := get_state in ret (is_on state).

(** The [for i in range(20)] loops of [turn_on] ([target] = true) and
    [turn_off] ([target] = false); when the range is used up the
    function falls off its end and returns [None]. *)
Fixpoint poll_power (n : nat) (target : bool) : M unit :=
  match n with
  | O => ret tt
  | S n' =>
      let* on := get_is_on in
      if Bool.eqb on target then ret tt
      else sleep 1000 ;;; poll_power n' target
  end.

(** [source or state.source] *)
Definition source_or (source : option string) (default : string) : string :=
  match source with
  | None => default
  | Some EmptyString => default
  | Some s => s
  end.

Definition turn_on (source_arg : option string) : M unit :=
  let* state := get_state in
  if is_on state then ret tt
  else
    set_source (source_or source_arg (source state)) "on" ;;;
    poll_power 20 true.

Definition turn_off : M unit :=
  let* state := get_state in
  if negb (is_on state) then ret tt
  else
    set_source (source state) "off" ;;;
    poll_power 20 false.

End Speaker.

(** ** Peers for the scenarios *)

Definition push (e : event) (w : World) : World :=
  {| is_connected := is_connected w; _is_online := _is_online w;
     history := e :: history w |}.

Definition is_write (e : event) : bool :=
  match e with EWrite _ => true | _ => false end.

Definition writes (h : list event) : nat := length (List.filter is_write h).

(** A peer that accepts every connection and answers the n-th write
    with the n-th entry of a script (a time-out once it is used up). *)
Definition scripted (replies : list read_outcome) : Env :=
  {| env_connect := fun _ => ConnOk;
     env_read := fun h => nth (writes h - 1) replies ReadTimeout |}.

(** A peer that refuses every connection, and a host that is down. *)
Definition refusing : Env :=
  {| env_connect := fun _ => ConnRefused; env_read := fun _ => ReadTimeout |}.
Definition host_down : Env :=
  {| env_connect := fun _ => ConnDown; env_read := fun _ => ReadTimeout |}.

(** A speaker whose answer to a query is a five-byte frame carrying the
    value where [send_message] reads it (index -2), and whose answer to
    a set is the acknowledgement. *)
Definition query_frame (field value : Z) : list Z := [82; field; 129; value; 0].

(** The byte a simulated speaker holds for [field] after the history
    [h] (latest event first): the last value set, else [init]. *)
Fixpoint stored (field init : Z) (h : list event) : Z :=
  match h with
  | [] => init
  | EWrite [s; f; m; v] :: h' =>
      if (s =? 83) && (f =? field) && (m =? 129) then v else stored field init h'
  | _ :: h' => stored field init h'
  end.

Definition answer (source0 volume0 : Z) (obeys : bool) (h : list event) : read_outcome :=
  match h with
  | EWrite (c :: f :: _) :: h' =>
      if c =? 83 then ReadData FULL_RESPONSE_OK
      else if c =? 71 then
        let init := if f =? 48 then source0 else volume0 in
        ReadData (query_frame f (if obeys then stored f init h' else init))
      else ReadTimeout
  | _ => ReadTimeout
  end.

(** [simulated s v]: a speaker that does what it is told at once.
    [stubborn s v]: one that acknowledges every set and stays as it is. *)
Definition simulated (source0 volume0 : Z) : Env :=
  {| env_connect := fun _ => ConnOk; env_read := answer source0 volume0 true |}.
Definition stubborn (source0 volume0 : Z) : Env :=
  {| env_connect := fun _ => ConnOk; env_read := answer source0 volume0 false |}.

(** A speaker that answers a query with the three bytes
    [R, field, value] and a set with the acknowledgement. *)
Definition three_byte_speaker (value : Z) : Env :=
  {| env_connect := fun _ => ConnOk;
     env_read := fun h =>
       match h with
       | EWrite (c :: f :: _) :: _ =>
           if c =? 83 then ReadData FULL_RESPONSE_OK
           else ReadData [82; f; value]
       | _ => ReadTimeout
       end |}.

(** The default configuration but for the stand-by time:
    [AsyncKefSpeaker(host, standby_time=20)]. *)
Definition speaker_20_LR : Speaker :=
  {| volume_step := F64.div (F64.of_int 5) (F64.of_int 100);
     maximum_volume := F64.one;
     cfg_standby_time := Some 20;
     inverse_speaker_mode := false |}.

(** What it means for a raw reply to hold the acknowledgement frame, and
    to be a single frame answering a query with [value] at index -2. *)
Definition ack_reply (d : list Z) : Prop :=
  (length d <= 100)%nat /\
  exists pre post, d = pre ++ FULL_RESPONSE_OK ++ post /\
                   (post = [] \/ exists q, post = 82 :: q).

Definition query_reply (field value : Z) (d : list Z) : Prop :=
  (length d <= 100)%nat /\
  exists body, d = 82 :: field :: body /\
               field <> 82 /\ Forall (fun b => b <> 82) body /\
               Py.index_m2 d = Some value.

(** Events that are not a set command on the wire. *)
Definition not_a_set (e : event) : Prop :=
  forall m, e = EWrite m -> m !! 0%nat <> Some 83.

Definition one_second_sleeps (evs : list event) : nat :=
  length (List.filter (fun e => match e with ESleep 1000 => true | _ => false end) evs).

(** [m] only adds events satisfying [P] to the history. *)
Definition emits {A} (P : event -> Prop) (m : M A) : Prop :=
  forall w r w', m w = (r, w') ->
    exists evs, history w' = evs ++ history w /\ Forall P evs.

(** ** Further source functions and notions for their properties *)

(** [_disconnect]: closes the writer and forgets reader and writer when
    there is a connection; [_is_online] is left as it is. *)
Definition _disconnect : M unit :=
  let* w := get_world in
  if is_connected w then set_connected false else ret tt.

(** A frame as the speaker sends it: the marker [R], then at least one
    byte, none of them the marker. *)
Definition frame_ok (r : list Z) : Prop :=
  exists b body, r = 82 :: b :: body /\ Forall (fun x => x <> 82) (b :: body).

(** [r[1] == which], for a frame of at least two bytes. *)
Definition second_is (which : Z) (r : list Z) : bool :=
  match r !! 1%nat with
  | Some x => x =? which
  | None => false
  end.

(** The flags of the communicator agree: an open connection was
    reported as online. *)
Definition flags_agree (w : World) : Prop :=
  is_connected w = true -> _is_online w = true.

(** A peer whose every connection attempt ends in [BlockingIOError],
    and one that accepts the connection and never answers. *)
Definition blocking : Env :=
  {| env_connect := fun _ => ConnBlocking; env_read := fun _ => ReadTimeout |}.
Definition silent : Env :=
  {| env_connect := fun _ => ConnOk; env_read := fun _ => ReadTimeout |}.

(** A peer that refuses the first [k] attempts of a fresh communicator
    and accepts the next one. *)
Definition accepts_after (k : nat) : Env :=
  {| env_connect := fun h => if (length h <? 2 * k)%nat then ConnRefused else ConnOk;
     env_read := fun _ => ReadTimeout |}.

Definition connects (evs : list event) : nat :=
  length (List.filter (fun e => match e with EConnect => true | _ => false end) evs).

(** The source names that the table of replies holds. *)
Definition decoded_names : list string := ["Bluetooth"; "Aux"; "Opt"; "Usb"; "Wifi"].

(** ** The read of [_send_message] beside the idle watchdog

    [asyncio.wait_for(read_task, timeout=_TIMEOUT)] ends in one of three
    ways: the reply of the peer arrives, the connection is closed under
    the read, which then returns [b""], or the two seconds pass and
    [TimeoutError] is raised.  The connection is closed by
    [_disconnect_if_passive], the task that [__init__] creates on the
    loop [ioloop or asyncio.get_event_loop()]: on every pass it compares
    [time.time() - _last_time_stamp] with [_KEEP_ALIVE], disconnects
    when more time has passed, and sleeps half a second.

    That task runs only while its loop runs, and a coroutine of the
    speaker runs on the loop that awaits it.  When the two differ (a
    speaker built before [asyncio.run(...)] is called, or built with an
    [ioloop] other than the running one) no watchdog runs beside the
    read.  Times are in milliseconds. *)

Definition _TIMEOUT : Z := 2000.
Definition _KEEP_ALIVE : Z := 1000.

(** [time_is_up], at a pass of the watchdog at time [t]. *)
Definition time_is_up (t last_time_stamp : Z) : bool :=
  _KEEP_ALIVE <? t - last_time_stamp.

(** The passes of [_disconnect_if_passive] at [wake], [wake + 500], ...:
    the time of the first one that disconnects. *)
Fixpoint watchdog_closes (passes : nat) (wake last_time_stamp : Z) : option Z :=
  match passes with
  | O => None
  | S passes' =>
      if time_is_up wake last_time_stamp then Some wake
      else watchdog_closes passes' (wake + 500) last_time_stamp
  end.

Record Timing := mkTiming {
  t_now : Z;                      (* when the read starts *)
  t_last_time_stamp : Z;          (* [self._last_time_stamp] *)
  t_watchdog : option Z;          (* the next pass of the watchdog on the
                                     loop of the read; [None]: its task
                                     is not run by that loop *)
  t_reply : option (Z * list Z)   (* when the reply arrives, and the reply;
                                     [None]: the peer stays silent *)
}.

(** What the read of [_send_message] ends with. *)
Definition read_race (t : Timing) : read_outcome :=
  let deadline := t_now t + _TIMEOUT in
  let closed :=
    match t_watchdog t with
    | Some wake => watchdog_closes 5 wake (t_last_time_stamp t)
    | None => None
    end in
  let closed_before (time : Z) : bool :=
    match closed with
    | Some c => c <? time
    | None => false
    end in
  match t_reply t with
  | Some (arrival, data) =>
      if (arrival <? deadline) && negb (closed_before arrival) then ReadData data
      else if closed_before deadline then ReadData []
      else ReadTimeout
  | None =>
      if closed_before deadline then ReadData [] else ReadTimeout
  end.

(** A peer that accepts the connection and whose every read ends as
    the timing [t] has it. *)
Definition timed_peer (t : Timing) : Env :=
  {| env_connect := fun _ => ConnOk; env_read := fun _ => read_race t |}.

(** * Lemmas *)

(** ** The monad *)

Lemma bind_ok {A B} (m : M A) (k : A -> M B) w a w' :
  m w = (Ok a, w') -> bind m k w = k a w'.
Proof. unfold bind. intros ->. reflexivity. Qed.

Lemma bind_raise {A B} (m : M A) (k : A -> M B) w e w' :
  m w = (Raise e, w') -> bind m k w = (Raise e, w').
Proof. unfold bind. intros ->. reflexivity. Qed.

Lemma bind_inv_ok {A B} (m : M A) (k : A -> M B) w b w' :
  bind m k w = (Ok b, w') ->
  exists a w1, m w = (Ok a, w1) /\ k a w1 = (Ok b, w').
Proof.
  unfold bind. destruct (m w) as [[a | e |] w1]; intros H; try discriminate.
  exists a, w1. split; [reflexivity | exact H].
Qed.

Lemma retry_from_ok {A} n attempt (body : M A) w a w' :
  body w = (Ok a, w') -> retry_from (S n) attempt body w = (Ok a, w').
Proof. simpl. intros ->. reflexivity. Qed.

(** A retried body that returns did so in one of its attempts. *)
Lemma retry_from_inv_ok {A} n attempt (body : M A) w a w' :
  retry_from n attempt body w = (Ok a, w') ->
  exists w1, body w1 = (Ok a, w').
Proof.
  revert attempt w. induction n as [| n IH]; intros attempt w; simpl.
  - discriminate.
  - destruct (body w) as [[x | e |] w1] eqn:E; intros H.
    + inversion H; subst. exists w. exact E.
    + destruct n; [discriminate |]. apply IH in H. exact H.
    + discriminate.
Qed.

(** When every attempt raises, wherever it starts, the retried body ends
    in [RetryError]. *)
Lemma retry_from_all_raise {A} n attempt (body : M A) w :
  (forall w1, exists e w2, body w1 = (Raise e, w2)) ->
  exists w', retry_from n attempt body w = (Raise RetryError, w').
Proof.
  intros Hb. revert attempt w. induction n as [| n IH]; intros attempt w; simpl.
  - eexists. reflexivity.
  - destruct (Hb w) as (e & w2 & ->). destruct n.
    + eexists. reflexivity.
    + unfold bind, log. simpl. apply IH.
Qed.

(** ** Splitting a reply into frames *)

Lemma split_no_sep sep b :
  Forall (fun x => x <> sep) b -> Py.split sep b = [b].
Proof.
  induction 1 as [| x b Hx _ IH]; simpl.
  - reflexivity.
  - rewrite IH. destruct (Z.eqb_spec x sep); [contradiction | reflexivity].
Qed.

Lemma split_cons_tail sep x l p :
  In p (List.tl (Py.split sep l)) -> In p (List.tl (Py.split sep (x :: l))).
Proof.
  simpl. destruct (x =? sep).
  - simpl. destruct (Py.split sep l); simpl; [contradiction | auto].
  - destruct (Py.split sep l); simpl; auto.
Qed.

Lemma split_ack_tail pre post :
  post = [] \/ (exists q, post = 82 :: q) ->
  In [17; 255] (List.tl (Py.split 82 (pre ++ FULL_RESPONSE_OK ++ post))).
Proof.
  intros Hpost. induction pre as [| x pre IH].
  - simpl. destruct Hpost as [-> | [q ->]]; simpl.
    + left. reflexivity.
    + destruct (Py.split 82 q); simpl; left; reflexivity.
  - change ((x :: pre) ++ FULL_RESPONSE_OK ++ post)
      with (x :: (pre ++ FULL_RESPONSE_OK ++ post)).
    apply split_cons_tail. exact IH.
Qed.

Lemma responses_of_ack d :
  ack_reply d -> In FULL_RESPONSE_OK (responses_of d).
Proof.
  intros (_ & pre & post & -> & Hpost).
  unfold responses_of, _R. change FULL_RESPONSE_OK with (82 :: [17; 255]) at 1.
  apply in_map. apply filter_In. split; [| reflexivity].
  pose proof (split_ack_tail pre post Hpost) as H.
  destruct (Py.split 82 (pre ++ FULL_RESPONSE_OK ++ post)); simpl in H;
    [contradiction | apply in_cons; exact H].
Qed.

Lemma responses_of_query field value d :
  query_reply field value d -> responses_of d = [d].
Proof.
  intros (_ & body & -> & Hf & Hb & _).
  unfold responses_of, _R. simpl.
  destruct (Z.eqb_spec field 82) as [? | _]; [contradiction |].
  rewrite (split_no_sep 82 body Hb). reflexivity.
Qed.

(** A set command is acknowledged by a reply that holds the frame. *)
Lemma parse_set_ack msg d :
  msg !! 0%nat = Some 83 -> ack_reply d ->
  _parse_response msg d = Ok (Some FULL_RESPONSE_OK).
Proof.
  intros Hm Hd. unfold _parse_response. rewrite Hm. simpl.
  assert (existsb (list_Z_eqb FULL_RESPONSE_OK) (responses_of d) = true) as ->.
  { apply existsb_exists. exists FULL_RESPONSE_OK.
    split; [apply responses_of_ack; exact Hd |].
    unfold list_Z_eqb. apply bool_decide_eq_true. reflexivity. }
  reflexivity.
Qed.

Lemma parse_query field value d :
  query_reply field value d ->
  _parse_response [71; field; 128] d = Ok (Some d).
Proof.
  intros Hd. unfold _parse_response.
  rewrite (responses_of_query _ _ _ Hd).
  destruct Hd as (_ & body & -> & _). simpl.
  rewrite Z.eqb_refl. reflexivity.
Qed.

(** ** The communicator *)

Section CommunicatorFacts.

Variable env : Env.

Lemma open_connection_connected fuel w :
  is_connected w = true -> open_connection env fuel w = (Ok tt, w).
Proof. intros H. unfold open_connection, bind, get_world. rewrite H. reflexivity. Qed.

Lemma open_connection_loop_ok fuel retries w w' :
  open_connection_loop env fuel retries w = (Ok tt, w') ->
  is_connected w' = true /\ _is_online w' = true.
Proof.
  revert retries w. induction fuel as [| fuel IH]; intros retries w; simpl.
  - discriminate.
  - destruct (retries <? _MAX_CONNECTION_RETRIES)%nat.
    + unfold bind, connect_attempt, bind, get_world, log, ret; simpl.
      destruct (env_connect env (history w)); simpl.
      * intros H. inversion H; subst. simpl. auto.
      * apply IH.
      * apply IH.
      * discriminate.
    + discriminate.
Qed.

Lemma open_connection_ok fuel w w' :
  open_connection env fuel w = (Ok tt, w') -> is_connected w' = true.
Proof.
  unfold open_connection, bind, get_world.
  destruct (is_connected w) eqn:E.
  - intros H. inversion H; subst. exact E.
  - intros H. apply open_connection_loop_ok in H. tauto.
Qed.

(** The first attempt of a closed communicator decides when the peer
    accepts or the host is down. *)
Lemma open_connection_accept fuel w :
  is_connected w = false -> env_connect env (history w) = ConnOk ->
  open_connection env (S fuel) w =
    (Ok tt, {| is_connected := true; _is_online := true;
               history := EConnect :: history w |}).
Proof.
  intros Hc He. unfold open_connection, bind, get_world. rewrite Hc. simpl.
  unfold bind, connect_attempt, bind, get_world, log, ret. simpl. rewrite He.
  reflexivity.
Qed.

Lemma open_connection_down fuel w :
  is_connected w = false -> env_connect env (history w) = ConnDown ->
  open_connection env (S fuel) w =
    (Raise ConnectionRefusedError,
     {| is_connected := false; _is_online := false;
        history := EConnect :: history w |}).
Proof.
  intros Hc He. unfold open_connection, bind, get_world. rewrite Hc. simpl.
  unfold bind, connect_attempt, bind, get_world, log, ret. simpl. rewrite He.
  simpl. rewrite Hc. reflexivity.
Qed.

(** When every attempt is refused the loop gives up after the
    attempts that are left, however much fuel there is beyond them. *)
Lemma open_connection_loop_refused n :
  forall fuel retries w,
    (forall h, env_connect env h = ConnRefused) ->
    (retries + n = _MAX_CONNECTION_RETRIES)%nat ->
    (n < fuel)%nat ->
    is_connected w = false ->
    exists w', open_connection_loop env fuel retries w
               = (Raise ConnectionRefusedError, w')
               /\ is_connected w' = false /\ _is_online w' = false.
Proof.
  induction n as [| n IH]; intros fuel retries w Hr Hn Hf Hc.
  - destruct fuel as [| fuel]; [lia |]. simpl.
    destruct (Nat.ltb_spec retries _MAX_CONNECTION_RETRIES) as [Hlt | _]; [lia |].
    eexists. split; [reflexivity |]. simpl. auto.
  - destruct fuel as [| fuel]; [lia |]. simpl.
    destruct (Nat.ltb_spec retries _MAX_CONNECTION_RETRIES) as [_ | Hge]; [| lia].
    unfold bind at 1. unfold connect_attempt, bind, get_world, log, ret. simpl.
    rewrite Hr. simpl.
    apply IH; [exact Hr | lia | lia | exact Hc].
Qed.

Lemma _send_message_data msg w d :
  is_connected w = true ->
  env_read env (EWrite msg :: history w) = ReadData d ->
  _send_message env msg w = (Ok (take 100 d), push (EWrite msg) w).
Proof.
  intros Hc Hr. unfold _send_message, bind, get_world, py_assert, log.
  rewrite Hc. simpl. rewrite Hr. reflexivity.
Qed.

Lemma _send_message_timeout msg w :
  is_connected w = true ->
  env_read env (EWrite msg :: history w) = ReadTimeout ->
  _send_message env msg w = (Raise UnboundLocalError, push (EWrite msg) w).
Proof.
  intros Hc Hr. unfold _send_message, bind, get_world, py_assert, log.
  rewrite Hc. simpl. rewrite Hr. reflexivity.
Qed.

Lemma send_message_set_ack fuel msg w w1 d :
  open_connection env fuel w = (Ok tt, w1) ->
  msg !! 0%nat = Some 83 ->
  env_read env (EWrite msg :: history w1) = ReadData d ->
  ack_reply d ->
  send_message env fuel msg w = (Ok _RESPONSE_OK, push (EWrite msg) w1).
Proof.
  intros Ho Hm Hr Hd. unfold send_message, retry.
  apply retry_from_ok. unfold send_message_once.
  rewrite (bind_ok _ _ _ _ _ Ho).
  rewrite (bind_ok _ _ _ _ _
             (_send_message_data msg w1 d (open_connection_ok _ _ _ Ho) Hr)).
  rewrite take_ge by (destruct Hd as [Hl _]; exact Hl).
  unfold bind, lift. rewrite (parse_set_ack _ _ Hm Hd). reflexivity.
Qed.

Lemma send_message_query fuel field value w w1 d :
  open_connection env fuel w = (Ok tt, w1) ->
  env_read env (EWrite [71; field; 128] :: history w1) = ReadData d ->
  query_reply field value d ->
  send_message env fuel [71; field; 128] w
    = (Ok value, push (EWrite [71; field; 128]) w1).
Proof.
  intros Ho Hr Hd. unfold send_message, retry.
  apply retry_from_ok. unfold send_message_once.
  rewrite (bind_ok _ _ _ _ _ Ho).
  rewrite (bind_ok _ _ _ _ _
             (_send_message_data _ w1 d (open_connection_ok _ _ _ Ho) Hr)).
  rewrite take_ge by (destruct Hd as [Hl _]; exact Hl).
  unfold bind, lift. rewrite (parse_query _ _ _ Hd).
  destruct Hd as (_ & _ & _ & _ & _ & ->). reflexivity.
Qed.

End CommunicatorFacts.

(** ** The speaker operations on a peer that answers *)

Section SpeakerFacts.

Variable env : Env.
Variable fuel : nat.

Lemma push_connected e w : is_connected w = true -> is_connected (push e w) = true.
Proof. intros H. exact H. Qed.

Lemma get_state_query w w1 value d st :
  open_connection env fuel w = (Ok tt, w1) ->
  env_read env (EWrite COMMANDS.get_source :: history w1) = ReadData d ->
  query_reply 48 value d ->
  decode_state value = Ok st ->
  get_state env fuel w = (Ok st, push (EWrite COMMANDS.get_source) w1).
Proof.
  intros Ho Hr Hd Hs. unfold get_state, retry. apply retry_from_ok.
  rewrite (bind_ok _ _ _ _ _ (send_message_query env fuel 48 value w w1 d Ho Hr Hd)).
  unfold lift. rewrite Hs. reflexivity.
Qed.

Lemma get_volume_and_is_muted_query scale w w1 v d :
  open_connection env fuel w = (Ok tt, w1) ->
  env_read env (EWrite COMMANDS.get_volume :: history w1) = ReadData d ->
  query_reply 37 v d ->
  get_volume_and_is_muted env fuel scale w
    = (Ok (if scale then PFloat (F64.div (F64.of_int v) _VOLUME_SCALE)
           else PInt v,
           128 <=? v),
       push (EWrite COMMANDS.get_volume) w1).
Proof.
  intros Ho Hr Hd. unfold get_volume_and_is_muted, retry. apply retry_from_ok.
  rewrite (bind_ok _ _ _ _ _ (send_message_query env fuel 37 v w w1 d Ho Hr Hd)).
  reflexivity.
Qed.

Lemma set_volume_command x :
  Py.is_byte x = true -> COMMANDS.set_volume x = Ok [83; 37; 129; x].
Proof. intros H. unfold COMMANDS.set_volume, bytes. simpl. rewrite H. reflexivity. Qed.

Lemma _set_volume_ack x w w1 a :
  Py.is_byte x = true ->
  open_connection env fuel w = (Ok tt, w1) ->
  env_read env (EWrite [83; 37; 129; x] :: history w1) = ReadData a ->
  ack_reply a ->
  _set_volume env fuel x w = (Ok tt, push (EWrite [83; 37; 129; x]) w1).
Proof.
  intros Hx Ho Hr Ha. unfold _set_volume, retry. apply retry_from_ok.
  unfold bind at 1. unfold lift. rewrite (set_volume_command x Hx).
  rewrite (bind_ok _ _ _ _ _
             (send_message_set_ack env fuel [83; 37; 129; x] w w1 a Ho eq_refl Hr Ha)).
  reflexivity.
Qed.

End SpeakerFacts.

Lemma query_frame_reply field value :
  field <> 82 -> value <> 82 -> query_reply field value (query_frame field value).
Proof.
  intros Hf Hv. split; [simpl; lia |].
  exists [129; value; 0]. repeat split; try assumption.
  repeat constructor; try assumption; discriminate.
Qed.

Lemma full_response_is_ack : ack_reply FULL_RESPONSE_OK.
Proof.
  split; [simpl; lia |]. exists [], []. split; [reflexivity | left; reflexivity].
Qed.

(** * The claims *)

(** ** C1: the source code table and its inverse *)

Lemma dict_get_sources S base :
  Py.dict_get S INPUT_SOURCES_20_MINUTES_LR = Some base ->
  S = "Bluetooth" \/ S = "Bluetooth_paired" \/ S = "Aux" \/ S = "Opt"
  \/ S = "Usb" \/ S = "Wifi".
Proof.
  unfold INPUT_SOURCES_20_MINUTES_LR. simpl.
  repeat (case_decide; [tauto |]). discriminate.
Qed.

(** C1. For every source S of the table, every stand-by policy P (at
    index idx of [20, 60, None]) and both orientations, the code that
    [set_source] looks up is base + 16 * idx (+ 64 for R/L), and
    [get_state] decodes that code to (S, on, P, orientation) when S is
    one of Bluetooth, Aux, Opt, Usb, Wifi, and to source Bluetooth with
    the same P and orientation when S is Bluetooth_paired. *)
Theorem C1_source_code_round_trip
    (S : string) (P : option Z) (inv : bool) (base : Z) (idx : nat)
    (step maxv : spec_float) :
  Py.dict_get S INPUT_SOURCES_20_MINUTES_LR = Some base ->
  STANDBY_OPTIONS !! idx = Some P ->
  let self := mkSpeaker step maxv P inv in
  let code := base + 16 * Z.of_nat idx + (if inv then 64 else 0) in
  let O := if inv then "R/L" else "L/R" in
  source_code self S = Ok code /\
  (S ∈ ["Bluetooth"; "Aux"; "Opt"; "Usb"; "Wifi"] ->
   decode_state code = Ok (mkState S true P O)) /\
  (S = "Bluetooth_paired" ->
   decode_state code = Ok (mkState "Bluetooth" true P O)).
Proof.
  intros HS HP.
  assert (idx = 0 \/ idx = 1 \/ idx = 2)%nat as Hidx.
  { destruct idx as [| [| [| ?]]]; simpl in HP; try discriminate; lia. }
  pose proof (dict_get_sources S base HS) as Hsrc.
  destruct Hsrc as [-> | [-> | [-> | [-> | [-> | ->]]]]];
    vm_compute in HS; injection HS as <-;
    destruct Hidx as [-> | [-> | ->]];
    vm_compute in HP; injection HP as <-;
    destruct inv;
    (split; [vm_compute; reflexivity |]);
    (split; [intros Hin | intros Heq]);
    try (vm_compute; reflexivity);
    try discriminate Heq;
    exfalso;
    repeat (apply elem_of_cons in Hin as [Hin | Hin]; [discriminate Hin |]);
    apply elem_of_nil in Hin; exact Hin.
Qed.

Lemma C1_source_code_round_trip_witness :
  Py.dict_get "Aux" INPUT_SOURCES_20_MINUTES_LR = Some 10 /\
  STANDBY_OPTIONS !! 1%nat = Some (Some 60) /\
  source_code (mkSpeaker F64.zero F64.one (Some 60) true) "Aux" = Ok 90 /\
  decode_state 90 = Ok (mkState "Aux" true (Some 60) "R/L").
Proof.
  pose proof (C1_source_code_round_trip "Aux" (Some 60) true 10 1 F64.zero F64.one
                eq_refl eq_refl) as (H1 & H2 & _).
  split; [reflexivity |]. split; [reflexivity |]. split; [exact H1 |].
  apply H2. apply elem_of_cons. right. apply elem_of_cons. left. reflexivity.
Defined.

(** ** C9: a read that times out in [_send_message] *)

(** When the watchdog runs on the loop of the read (its next pass is
    at most half a second away, and the time stamp is not in the
    future), the read never times out: the watchdog disconnects within
    a second and a half, before the two seconds of [_TIMEOUT]. *)
Lemma watchdog_preempts_timeout (t : Timing) (wake : Z) :
  t_watchdog t = Some wake ->
  t_last_time_stamp t <= t_now t ->
  t_now t <= wake <= t_now t + 500 ->
  read_race t <> ReadTimeout
  /\ (t_reply t = None -> read_race t = ReadData []).
Proof.
  intros Hw Hl Hk. unfold read_race. rewrite Hw.
  unfold watchdog_closes, time_is_up, _KEEP_ALIVE, _TIMEOUT.
  assert (forall c, c < t_now t + 2000 -> (c <? t_now t + 2000) = true) as Hlt
    by (intros c Hc; apply Z.ltb_lt; exact Hc).
  repeat match goal with
         | |- context [1000 <? ?x] => destruct (Z.ltb_spec 1000 x)
         end; try lia;
    (split; [| intros ->; rewrite Hlt by lia; reflexivity]);
    (destruct (t_reply t) as [[arrival data] |];
     [destruct ((arrival <? t_now t + 2000) && negb _); [discriminate |] |];
     rewrite Hlt by lia; discriminate).
Qed.

(** With the watchdog beside it, [_send_message] to a silent peer
    returns the empty data of the connection that was closed.  (The
    world keeps its connection flag: that the watchdog clears it is
    not followed here.) *)
Example silent_peer_beside_watchdog :
  _send_message (timed_peer (mkTiming 0 0 (Some 300) None)) COMMANDS.get_volume
                (mkWorld true true [])
  = (Ok [], mkWorld true true [EWrite COMMANDS.get_volume]).
Proof. reflexivity. Qed.

(** C9. A speaker object whose watchdog is not run by the loop that
    awaits [_send_message], and a peer that stays silent: the read
    times out after [_TIMEOUT], the [except] clause only logs, and
    [finally: return data] reads a local that was never bound, so
    [_send_message] raises [UnboundLocalError] after writing the
    message.  It does not return empty data. *)
Theorem C9_read_timeout_raises
    (now last_time_stamp : Z) (message : list Z) (online : bool) (h : list event) :
  let t := mkTiming now last_time_stamp None None in
  read_race t = ReadTimeout
  /\ _send_message (timed_peer t) message (mkWorld true online h)
     = (Raise UnboundLocalError, mkWorld true online (EWrite message :: h)).
Proof. split; reflexivity. Qed.

(** ** C10: [is_online] *)

(** Whatever the peer does, [is_online] raises nothing: the [return]
    in its [finally] replaces any exception by the flag. *)
Lemma is_online_never_raises env fuel w e w' :
  is_online env fuel w <> (Raise e, w').
Proof.
  unfold is_online.
  destruct (open_connection env fuel w) as [[[] | [] |] w1]; simpl;
    try discriminate.
  unfold py_assert. destruct (_is_online w1); simpl; discriminate.
Qed.

(** C10. On a closed communicator, with fuel for the ten attempts:
    when every attempt is refused, or the host is down, [is_online]
    returns False, and when the attempt succeeds it returns True; in
    each case it returns, without an exception. *)
Theorem C10_is_online (env : Env) (fuel : nat) (w : World) :
  is_connected w = false ->
  (_MAX_CONNECTION_RETRIES < fuel)%nat ->
  (forall h, env_connect env h = ConnRefused)
  \/ env_connect env (history w) = ConnDown
  \/ env_connect env (history w) = ConnOk ->
  exists w',
    is_online env fuel w
    = (Ok match env_connect env (history w) with ConnOk => true | _ => false end,
       w').
Proof.
  intros Hc Hf Henv. unfold is_online.
  destruct fuel as [| fuel']; [unfold _MAX_CONNECTION_RETRIES in Hf; lia |].
  destruct Henv as [Href | [Hdown | Hok]].
  - destruct (open_connection_loop_refused env _MAX_CONNECTION_RETRIES
                (S fuel') 0 w Href eq_refl Hf Hc) as (w' & Hl & Hc' & Ho').
    assert (open_connection env (S fuel') w = (Raise ConnectionRefusedError, w')) as ->.
    { unfold open_connection, bind, get_world. rewrite Hc. exact Hl. }
    unfold py_assert. rewrite Ho'. simpl. rewrite Ho', (Href (history w)).
    exists w'. reflexivity.
  - rewrite (open_connection_down env fuel' w Hc Hdown), Hdown. simpl.
    eexists. reflexivity.
  - rewrite (open_connection_accept env fuel' w Hc Hok), Hok. simpl.
    eexists. reflexivity.
Qed.

Lemma C10_is_online_witness :
  is_connected init_world = false /\
  (_MAX_CONNECTION_RETRIES < 11)%nat /\
  exists w', is_online refusing 11 init_world = (Ok false, w').
Proof.
  split; [reflexivity |].
  split; [unfold _MAX_CONNECTION_RETRIES; lia |].
  apply (C10_is_online refusing 11 init_world).
  - reflexivity.
  - unfold _MAX_CONNECTION_RETRIES. lia.
  - left. intros h. reflexivity.
Defined.

(** ** C4: what [get_volume_and_is_muted] returns *)

(** C4. For the raw byte 178 (level 50, muted) the pair returned is
    (178, True), and (1.78, True) when scaled: the mute flag is
    [v >= 128], but the level still carries the +128 offset, where
    178 mod 128 = 50. *)
Theorem C4_muted_level_keeps_offset :
  let peer := scripted [ReadData (query_frame 37 178)] in
  fst (get_volume_and_is_muted peer 1 false init_world) = Ok (PInt 178, true) /\
  fst (get_volume_and_is_muted peer 1 true init_world)
    = Ok (PFloat (F64.div (F64.of_int 178) (F64.of_int 100)), true) /\
  178 mod 128 = 50 /\
  SFltb F64.one (F64.div (F64.of_int 178) (F64.of_int 100)) = true.
Proof. vm_compute. repeat split. Qed.

(** ** C5: [mute] and [unmute] *)

(** For the byte v that the volume query returns, [mute] writes back
    v mod 128 + 128 and [unmute] writes back v mod 128 (and succeed
    once that is acknowledged).  The byte b written has the level of v
    (b mod 128 = v mod 128) and the requested mute flag, and muting
    (unmuting) a speaker whose query returns b writes b again.  The
    byte returned is the one at index -2 of the frame that
    [_parse_response] selects; [query_reply] asks that the raw reply
    is cut nowhere, so for the byte 82 it only admits a frame without
    a value. *)
Lemma mute_unmute_write_back
    (env : Env) (fuel : nat) (w w1 : World) (v : Z) (d a : list Z)
    (muting : bool) :
  let b := if muting then v mod 128 + 128 else v mod 128 in
  open_connection env fuel w = (Ok tt, w1) ->
  env_read env (EWrite COMMANDS.get_volume :: history w1) = ReadData d ->
  query_reply 37 v d ->
  env_read env (EWrite [83; 37; 129; b] :: EWrite COMMANDS.get_volume :: history w1)
    = ReadData a ->
  ack_reply a ->
  (if muting then mute env fuel w else unmute env fuel w)
    = (Ok tt, push (EWrite [83; 37; 129; b]) (push (EWrite COMMANDS.get_volume) w1))
  /\ b mod 128 = v mod 128
  /\ (128 <=? b) = muting
  /\ (if muting then b mod 128 + 128 else b mod 128) = b.
Proof.
  intros b Ho Hd Hq Ha Hack.
  pose proof (Z.mod_pos_bound v 128 ltac:(lia)) as Hv.
  assert (Py.is_byte b = true) as Hb.
  { unfold Py.is_byte, b. destruct muting; apply andb_true_intro; split;
      first [apply Z.leb_le | apply Z.ltb_lt]; lia. }
  pose proof (get_volume_and_is_muted_query env fuel false w w1 v d Ho Hd Hq) as Hget.
  set (w2 := push (EWrite COMMANDS.get_volume) w1) in *.
  assert (open_connection env fuel w2 = (Ok tt, w2)) as Ho2.
  { apply open_connection_connected. apply (open_connection_ok env fuel w w1 Ho). }
  pose proof (_set_volume_ack env fuel b w2 w2 a Hb Ho2 Ha Hack) as Hset.
  split.
  - destruct muting; unfold mute, unmute; rewrite (bind_ok _ _ _ _ _ Hget);
      simpl; unfold bind at 1; simpl; exact Hset.
  - assert ((v mod 128 + 128) mod 128 = v mod 128) as Hm
      by (symmetry; apply (Z.mod_unique_pos _ 128 1); lia).
    unfold b. destruct muting.
    + rewrite Hm. repeat split; try reflexivity. apply Z.leb_le. lia.
    + rewrite Z.mod_mod by lia. repeat split; try reflexivity.
      apply Z.leb_gt. lia.
Qed.

Lemma mute_unmute_write_back_simulated :
  open_connection (simulated 10 50) 1 init_world
    = (Ok tt, mkWorld true true [EConnect]) /\
  query_reply 37 50 (query_frame 37 50) /\
  ack_reply FULL_RESPONSE_OK /\
  mute (simulated 10 50) 1 init_world
    = (Ok tt, mkWorld true true
                [EWrite [83; 37; 129; 178]; EWrite [71; 37; 128]; EConnect]).
Proof.
  split; [reflexivity |].
  split; [apply query_frame_reply; discriminate |].
  split; [apply full_response_is_ack |].
  apply (mute_unmute_write_back (simulated 10 50) 1 init_world
           (mkWorld true true [EConnect]) 50 (query_frame 37 50)
           FULL_RESPONSE_OK true).
  - reflexivity.
  - reflexivity.
  - apply query_frame_reply; discriminate.
  - reflexivity.
  - apply full_response_is_ack.
Defined.

(** Muting twice on the simulated speaker: the second call reads back
    178 and writes 178 again. *)
Example mute_twice_simulated :
  (mute (simulated 10 50) 1 ;;; mute (simulated 10 50) 1) init_world
  = (Ok tt, mkWorld true true
              [EWrite [83; 37; 129; 178]; EWrite [71; 37; 128];
               EWrite [83; 37; 129; 178]; EWrite [71; 37; 128]; EConnect]).
Proof. reflexivity. Qed.

(** C5. A speaker at level 82, not muted, answering the volume query
    with the frame R % 0x81 0x52 0x00.  The value byte 82 is the
    marker R, so [_parse_response] cuts the frame in front of it and
    the byte read at index -2 is 37.  [mute] then writes 165 (level 37,
    muted) where 82 mod 128 + 128 = 210 was due, and [unmute] writes 37
    where 82 was due: the level of the speaker changes from 82 to 37.
    After [mute] the speaker is at 165, and a second [mute] reads and
    writes 165 again. *)
Theorem C5_mute_at_marker_byte :
  _parse_response COMMANDS.get_volume (query_frame 37 82) = Ok (Some [82; 37; 129])
  /\ fst (get_volume_and_is_muted (simulated 10 82) 1 false init_world)
     = Ok (PInt 37, false)
  /\ mute (simulated 10 82) 1 init_world
     = (Ok tt, mkWorld true true
                 [EWrite [83; 37; 129; 165]; EWrite [71; 37; 128]; EConnect])
  /\ unmute (simulated 10 82) 1 init_world
     = (Ok tt, mkWorld true true
                 [EWrite [83; 37; 129; 37]; EWrite [71; 37; 128]; EConnect])
  /\ (mute (simulated 10 82) 1 ;;; mute (simulated 10 82) 1) init_world
     = (Ok tt, mkWorld true true
                 [EWrite [83; 37; 129; 165]; EWrite [71; 37; 128];
                  EWrite [83; 37; 129; 165]; EWrite [71; 37; 128]; EConnect])
  /\ 82 mod 128 + 128 = 210
  /\ 165 mod 128 = 37
  /\ 82 mod 128 = 82.
Proof. vm_compute. repeat split. Qed.

(** ** C7: [increase_volume] and [decrease_volume] on a muted speaker *)

(** C7. On a speaker that reports the raw volume byte 178 (level 50,
    muted), [increase_volume] and [decrease_volume] read the volume
    ([None], as the speaker is muted) and the mute flag, unmute the
    speaker (writing 50), and then fail the assertion
    [volume is not None]: no new level is set. *)
Theorem C7_change_volume_fails_when_muted :
  increase_volume (simulated 10 178) 1 speaker_20_LR init_world
  = (Raise AssertionError,
     mkWorld true true
       [EWrite [83; 37; 129; 50]; EWrite [71; 37; 128];
        EWrite [71; 37; 128]; EWrite [71; 37; 128]; EConnect])
  /\ fst (decrease_volume (simulated 10 178) 1 speaker_20_LR init_world)
     = Raise AssertionError.
Proof. vm_compute. split; reflexivity. Qed.

(** ** C8: [set_volume] *)

Lemma SFcompare_refl x : x <> S754_nan -> SFcompare x x = Some Eq.
Proof.
  destruct x as [s | s | | s m e]; intros H; simpl.
  - reflexivity.
  - destruct s; reflexivity.
  - contradiction.
  - rewrite Z.compare_refl, Pos.compare_cont_refl. destruct s; reflexivity.
Qed.

Lemma SFcompare_antisym x y :
  SFcompare y x = option_map CompOpp (SFcompare x y).
Proof.
  destruct x as [s1 | s1 | | s1 m1 e1], y as [s2 | s2 | | s2 m2 e2]; simpl;
    try reflexivity;
    try (destruct s1; reflexivity); try (destruct s2; reflexivity);
    try (destruct s1, s2; reflexivity).
  rewrite (Z.compare_antisym e1 e2).
  replace (PosDef.Pos.compare_cont Eq m2 m1)
    with (CompOpp (PosDef.Pos.compare_cont Eq m1 m2))
    by (rewrite (Pos.compare_cont_antisym m1 m2 Eq); reflexivity).
  destruct s1, s2; try reflexivity;
    destruct (e1 ?= e2) eqn:E; simpl; reflexivity.
Qed.

Lemma SFcompare_zero_eq s x :
  SFcompare (S754_zero s) x = Some Eq -> exists s', x = S754_zero s'.
Proof.
  destruct x as [s' | s' | | s' m e]; simpl; intros H; try discriminate.
  - exists s'. reflexivity.
  - destruct s'; discriminate.
  - destruct s'; discriminate.
Qed.

Lemma SFeqb_zero_right x s :
  SFcompare x (S754_zero s) = Some Eq -> exists s', x = S754_zero s'.
Proof.
  rewrite SFcompare_antisym. intros H.
  destruct (SFcompare (S754_zero s) x) as [[] |] eqn:E; try discriminate.
  apply SFcompare_zero_eq in E. exact E.
Qed.

(** The clamp of [set_volume] lands in [0, maximum] and leaves a value
    of that interval as it is. *)
Lemma clamp_in_range maxv value :
  SFleb F64.zero maxv = true ->
  let volume := F64.max F64.zero (F64.min maxv value) in
  SFleb F64.zero volume = true
  /\ SFleb volume maxv = true
  /\ (SFleb F64.zero value = true -> SFleb value maxv = true ->
      SFeqb volume value = true).
Proof.
  intros Hmax volume.
  assert (maxv <> S754_nan) as Hnan.
  { intros ->. discriminate Hmax. }
  pose proof (SFcompare_refl maxv Hnan) as Hrefl.
  pose proof (SFcompare_antisym value maxv) as Hanti.
  subst volume. unfold F64.max, F64.min, SFltb, SFleb, SFeqb in *.
  destruct (SFcompare value maxv) as [[] |] eqn:Evm; simpl in Hanti.
  - (* value == maxv *)
    destruct (SFcompare F64.zero maxv) as [[] |] eqn:Ezm; try discriminate.
    + rewrite Ezm. repeat split; try reflexivity. intros _ _.
      apply SFcompare_zero_eq in Ezm as [s' ->].
      apply SFeqb_zero_right in Evm as [s'' ->]. reflexivity.
    + rewrite Ezm, Hrefl, Hanti. repeat split; reflexivity.
  - (* value < maxv *)
    destruct (SFcompare F64.zero value) as [[] |] eqn:Ezv.
    + rewrite Hmax. split; [reflexivity |]. split; [reflexivity |]. intros _ _.
      rewrite Ezv. reflexivity.
    + rewrite Ezv, Evm. split; [reflexivity |]. split; [reflexivity |]. intros _ _.
      rewrite SFcompare_refl; [reflexivity |]. intros ->. discriminate Ezv.
    + rewrite Hmax. split; [reflexivity |]. split; [reflexivity |].
      intros H. discriminate H.
    + rewrite Hmax. split; [reflexivity |]. split; [reflexivity |].
      intros H. discriminate H.
  - (* value > maxv *)
    destruct (SFcompare F64.zero maxv) as [[] |] eqn:Ezm; try discriminate.
    + rewrite Ezm. split; [reflexivity |]. split; [reflexivity |].
      intros _ H. discriminate H.
    + rewrite Ezm, Hrefl. split; [reflexivity |]. split; [reflexivity |].
      intros _ H. discriminate H.
  - (* value is not a number *)
    destruct (SFcompare F64.zero maxv) as [[] |] eqn:Ezm; try discriminate.
    + rewrite Ezm. split; [reflexivity |]. split; [reflexivity |].
      intros _ H. discriminate H.
    + rewrite Ezm, Hrefl. split; [reflexivity |]. split; [reflexivity |].
      intros _ H. discriminate H.
Qed.

(** C8. With a maximum volume that is at least 0, [set_volume(value)]
    clamps [value] to [0, maximum_volume] (a value of that interval is
    kept), sends the set-volume command with the wire level
    [int(clamped * 100)] when that level is a byte, and, once the
    command is acknowledged, returns the clamped volume. *)
Theorem C8_set_volume_clamps
    (env : Env) (fuel : nat) (self : Speaker) (value : spec_float)
    (w w1 : World) (level : Z) (a : list Z) :
  let volume := F64.max F64.zero (F64.min (maximum_volume self) value) in
  SFleb F64.zero (maximum_volume self) = true ->
  F64.to_int (F64.mul volume _VOLUME_SCALE) = Ok level ->
  Py.is_byte level = true ->
  open_connection env fuel w = (Ok tt, w1) ->
  env_read env (EWrite [83; 37; 129; level] :: history w1) = ReadData a ->
  ack_reply a ->
  set_volume env fuel self value w
    = (Ok volume, push (EWrite [83; 37; 129; level]) w1)
  /\ SFleb F64.zero volume = true
  /\ SFleb volume (maximum_volume self) = true
  /\ (SFleb F64.zero value = true ->
      SFleb value (maximum_volume self) = true ->
      SFeqb volume value = true).
Proof.
  intros volume Hmax Hlevel Hbyte Ho Hr Ha.
  split; [| exact (clamp_in_range (maximum_volume self) value Hmax)].
  unfold set_volume. fold volume.
  unfold bind at 1. unfold lift. rewrite Hlevel.
  rewrite (bind_ok _ _ _ _ _ (_set_volume_ack env fuel level w w1 a Hbyte Ho Hr Ha)).
  reflexivity.
Qed.

(** [set_volume(1.5)] with [maximum_volume = 1.0]: the wire level is 100
    and the value returned is 1.0. *)
Lemma C8_set_volume_clamps_witness :
  let one_and_a_half := F64.div (F64.of_int 3) (F64.of_int 2) in
  SFleb F64.zero (maximum_volume speaker_20_LR) = true /\
  maximum_volume speaker_20_LR = F64.one /\
  F64.to_int (F64.mul F64.one _VOLUME_SCALE) = Ok 100 /\
  ack_reply FULL_RESPONSE_OK /\
  set_volume (scripted [ReadData FULL_RESPONSE_OK]) 1 speaker_20_LR
             one_and_a_half init_world
  = (Ok F64.one, mkWorld true true [EWrite [83; 37; 129; 100]; EConnect]).
Proof.
  intros x.
  split; [reflexivity |]. split; [reflexivity |]. split; [reflexivity |].
  split; [apply full_response_is_ack |].
  apply (C8_set_volume_clamps (scripted [ReadData FULL_RESPONSE_OK]) 1
           speaker_20_LR x init_world (mkWorld true true [EConnect]) 100
           FULL_RESPONSE_OK).
  - reflexivity.
  - reflexivity.
  - reflexivity.
  - reflexivity.
  - reflexivity.
  - apply full_response_is_ack.
Defined.

(** ** C2: setting and reading back the source Aux *)

Section SetSource.

Variable env : Env.
Variable fuel : nat.
Variable self : Speaker.

(** [set_source] up to its polling loop, on a peer that acknowledges. *)
Lemma set_source_once_ack source state c w w1 a :
  let i := if String.eqb state "off" then c mod 128 + 128 else c mod 128 in
  source_code self source = Ok c ->
  open_connection env fuel w = (Ok tt, w1) ->
  env_read env (EWrite [83; 48; 129; i] :: history w1) = ReadData a ->
  ack_reply a ->
  set_source_once env fuel self source state w
    = poll_source env fuel _MAX_ATTEMPT_TILL_SUCCESS source
        (push (EWrite [83; 48; 129; i]) w1).
Proof.
  intros i Hc Ho Hr Ha. unfold set_source_once.
  assert (bool_decide (is_Some (Py.dict_get source INPUT_SOURCES)) = true) as ->.
  { apply bool_decide_eq_true. unfold source_code in Hc.
    destruct (Py.dict_get source INPUT_SOURCES); [eauto | discriminate]. }
  unfold py_assert. unfold bind at 1. unfold ret at 1.
  unfold bind at 1. unfold lift at 1. rewrite Hc.
  fold i.
  assert (COMMANDS.set_source i = Ok [83; 48; 129; i]) as Hcmd.
  { pose proof (Z.mod_pos_bound c 128 ltac:(lia)) as Hb.
    unfold COMMANDS.set_source, bytes. simpl.
    assert (Py.is_byte i = true) as ->; [| reflexivity].
    unfold Py.is_byte, i. destruct (String.eqb state "off");
      apply andb_true_intro; split;
      first [apply Z.leb_le | apply Z.ltb_lt]; lia. }
  unfold bind at 1. unfold lift at 1. rewrite Hcmd.
  rewrite (bind_ok _ _ _ _ _
             (send_message_set_ack env fuel [83; 48; 129; i] w w1 a Ho eq_refl Hr Ha)).
  reflexivity.
Qed.

Lemma poll_source_found n source w w' :
  get_source env fuel w = (Ok source, w') ->
  poll_source env fuel (S n) source w = (Ok tt, w').
Proof.
  intros H. simpl. rewrite (bind_ok _ _ _ _ _ H).
  rewrite String.eqb_refl. reflexivity.
Qed.

Lemma get_source_query w w1 value d st :
  open_connection env fuel w = (Ok tt, w1) ->
  env_read env (EWrite COMMANDS.get_source :: history w1) = ReadData d ->
  query_reply 48 value d ->
  decode_state value = Ok st ->
  get_source env fuel w = (Ok (source st), push (EWrite COMMANDS.get_source) w1).
Proof.
  intros Ho Hr Hd Hs. unfold get_source.
  rewrite (bind_ok _ _ _ _ _ (get_state_query env fuel w w1 value d st Ho Hr Hd Hs)).
  reflexivity.
Qed.

End SetSource.

(** The three-byte reply of the scenario: its frame is found, the byte
    read at index -2 is the field byte 48, which is no source code, and
    [get_source] ends in an error. *)
Lemma C2_three_byte_reply_not_decoded :
  _parse_response COMMANDS.get_source [82; 48; 10] = Ok (Some [82; 48; 10]) /\
  Py.index_m2 [82; 48; 10] = Some 48 /\
  decode_state 48 = Raise ConnectionError /\
  fst (get_source (three_byte_speaker 10) 1 init_world) = Raise RetryError /\
  fst (get_source (three_byte_speaker 10) 1 init_world) <> Ok "Aux".
Proof. vm_compute. repeat split. discriminate. Qed.

(** C2 (amended). With standby_time=20 and inverse_speaker_mode=False,
    [set_source("Aux", state="on")] sends 0x53 0x30 0x81 0x0A, and a
    reply holding the frame 0x52 0x11 0xFF is accepted as the
    acknowledgement.  A following [get_source()] sends 0x47 0x30 0x80,
    and given a reply frame 0x52 0x30 ... whose byte at index -2 is
    0x0A it returns Aux, with is_on=True in the state. *)
Theorem C2_set_then_get_source
    (env : Env) (fuel : nat) (step maxv : spec_float)
    (w w1 : World) (a d1 d2 : list Z) :
  let self := mkSpeaker step maxv (Some 20) false in
  let set_msg := [83; 48; 129; 10] in
  let get_msg := [71; 48; 128] in
  let w2 := push (EWrite get_msg) (push (EWrite set_msg) w1) in
  open_connection env fuel w = (Ok tt, w1) ->
  env_read env (EWrite set_msg :: history w1) = ReadData a ->
  ack_reply a ->
  env_read env (EWrite get_msg :: EWrite set_msg :: history w1) = ReadData d1 ->
  query_reply 48 10 d1 ->
  env_read env (EWrite get_msg :: history w2) = ReadData d2 ->
  query_reply 48 10 d2 ->
  set_source env fuel self "Aux" "on" w = (Ok tt, w2)
  /\ get_source env fuel w2 = (Ok "Aux", push (EWrite get_msg) w2)
  /\ get_state env fuel w2
     = (Ok (mkState "Aux" true (Some 20) "L/R"), push (EWrite get_msg) w2).
Proof.
  intros self set_msg get_msg w2 Ho Ha Hack Hd1 Hq1 Hd2 Hq2.
  pose proof (open_connection_ok env fuel w w1 Ho) as Hc1.
  assert (forall w', is_connected w' = true ->
                     open_connection env fuel w' = (Ok tt, w')) as Hopen
    by (intros w'; apply open_connection_connected).
  assert (decode_state 10 = Ok (mkState "Aux" true (Some 20) "L/R")) as Hdec
    by (vm_compute; reflexivity).
  split; [| split].
  - unfold set_source, retry. apply retry_from_ok.
    rewrite (set_source_once_ack env fuel self "Aux" "on" 10 w w1 a
               eq_refl Ho Ha Hack).
    apply poll_source_found.
    apply (get_source_query env fuel (push (EWrite set_msg) w1)
             (push (EWrite set_msg) w1) 10 d1 _
             (Hopen (push (EWrite set_msg) w1) Hc1) Hd1 Hq1 Hdec).
  - apply (get_source_query env fuel w2 w2 10 d2 _ (Hopen w2 Hc1) Hd2 Hq2 Hdec).
  - apply (get_state_query env fuel w2 w2 10 d2 _ (Hopen w2 Hc1) Hd2 Hq2 Hdec).
Qed.

Lemma C2_set_then_get_source_witness :
  open_connection (simulated 9 30) 1 init_world
    = (Ok tt, mkWorld true true [EConnect]) /\
  ack_reply FULL_RESPONSE_OK /\
  query_reply 48 10 (query_frame 48 10) /\
  set_source (simulated 9 30) 1 speaker_20_LR "Aux" "on" init_world
    = (Ok tt, mkWorld true true
                [EWrite [71; 48; 128]; EWrite [83; 48; 129; 10]; EConnect]) /\
  get_source (simulated 9 30) 1
     (mkWorld true true [EWrite [71; 48; 128]; EWrite [83; 48; 129; 10]; EConnect])
    = (Ok "Aux", mkWorld true true
                   [EWrite [71; 48; 128]; EWrite [71; 48; 128];
                    EWrite [83; 48; 129; 10]; EConnect]).
Proof.
  split; [reflexivity |].
  split; [apply full_response_is_ack |].
  split; [apply query_frame_reply; discriminate |].
  pose proof (C2_set_then_get_source (simulated 9 30) 1
                (volume_step speaker_20_LR) (maximum_volume speaker_20_LR)
                init_world (mkWorld true true [EConnect])
                FULL_RESPONSE_OK (query_frame 48 10) (query_frame 48 10)
                eq_refl eq_refl full_response_is_ack
                eq_refl (query_frame_reply 48 10 ltac:(discriminate) ltac:(discriminate))
                eq_refl (query_frame_reply 48 10 ltac:(discriminate) ltac:(discriminate)))
    as (H1 & H2 & _).
  split; [exact H1 | exact H2].
Defined.

(** ** What an operation adds to the history *)

Section Emits.

Variable P : event -> Prop.

Lemma emits_pure {A} (m : M A) :
  (forall w, snd (m w) = w) -> emits P m.
Proof.
  intros H w r w' E. exists []. split; [| constructor].
  specialize (H w). rewrite E in H. simpl in H. subst w'. reflexivity.
Qed.

Lemma emits_ret {A} (a : A) : emits P (ret a).
Proof. apply emits_pure. reflexivity. Qed.

Lemma emits_raise {A} e : emits P (@raise A e).
Proof. apply emits_pure. reflexivity. Qed.

Lemma emits_lift {A} (o : outcome A) : emits P (lift o).
Proof. apply emits_pure. reflexivity. Qed.

Lemma emits_py_assert c : emits P (py_assert c).
Proof. apply emits_pure. intros w. destruct c; reflexivity. Qed.

Lemma emits_flag {A} (m : M A) :
  (forall w, history (snd (m w)) = history w) -> emits P m.
Proof.
  intros H w r w' E. exists []. split; [| constructor].
  specialize (H w). rewrite E in H. exact H.
Qed.

Lemma emits_log e : P e -> emits P (log e).
Proof.
  intros He w r w' E. unfold log in E. inversion E; subst. simpl.
  exists [e]. split; [reflexivity | repeat constructor; exact He].
Qed.

Lemma emits_bind {A B} (m : M A) (k : A -> M B) :
  emits P m -> (forall a, emits P (k a)) -> emits P (bind m k).
Proof.
  intros Hm Hk w r w' E. unfold bind in E.
  destruct (m w) as [[a | e |] w1] eqn:Em.
  - destruct (Hm _ _ _ Em) as (evs1 & H1 & F1).
    destruct (Hk a _ _ _ E) as (evs2 & H2 & F2).
    exists (evs2 ++ evs1). split.
    + rewrite H2, H1. apply app_assoc.
    + apply Forall_app. split; assumption.
  - inversion E; subst. apply (Hm _ _ _ Em).
  - inversion E; subst. apply (Hm _ _ _ Em).
Qed.

Lemma emits_retry_from {A} n attempt (body : M A) :
  (forall k, P (EBackoff k)) -> emits P body ->
  emits P (retry_from n attempt body).
Proof.
  intros Hb Hbody. revert attempt.
  induction n as [| n IH]; intros attempt; simpl.
  - apply emits_raise.
  - intros w r w' E.
    destruct (body w) as [[a | e |] w1] eqn:Eb.
    + inversion E; subst. apply (Hbody _ _ _ Eb).
    + destruct n.
      * inversion E; subst. apply (Hbody _ _ _ Eb).
      * destruct (Hbody _ _ _ Eb) as (evs1 & H1 & F1).
        assert (emits P (log (EBackoff attempt) ;;; retry_from (S n) (S attempt) body))
          as Hrest by (apply emits_bind; [apply emits_log, Hb | intros _; apply IH]).
        destruct (Hrest _ _ _ E) as (evs2 & H2 & F2).
        exists (evs2 ++ evs1). split.
        -- rewrite H2, H1. apply app_assoc.
        -- apply Forall_app. split; assumption.
    + inversion E; subst. apply (Hbody _ _ _ Eb).
Qed.

Variable env : Env.
Variable fuel : nat.

(** [P] holds of everything the transport adds on its own: connection
    attempts, the half-second pause after a refusal, the pause after
    a [BlockingIOError] if the peer ever causes one, and the waits
    between retries. *)
Hypothesis P_connect : P EConnect.
Hypothesis P_pause : P (ESleep 500).
Hypothesis P_blocking : forall h, env_connect env h = ConnBlocking -> P (ESleep 1000).
Hypothesis P_backoff : forall k, P (EBackoff k).

Lemma emits_open_connection_loop f retries :
  emits P (open_connection_loop env f retries).
Proof.
  revert retries. induction f as [| f IH]; intros retries; simpl.
  - apply emits_pure. reflexivity.
  - destruct (retries <? _MAX_CONNECTION_RETRIES)%nat.
    + intros w r w' E.
      unfold bind at 1 in E. unfold connect_attempt, bind, get_world, log, ret in E.
      simpl in E.
      destruct (env_connect env (history w)) eqn:Ec.
      * inversion E; subst. simpl. exists [EConnect].
        split; [reflexivity | repeat constructor; exact P_connect].
      * apply IH in E. destruct E as (evs & H & F). simpl in H.
        exists (evs ++ [ESleep 500; EConnect]). split.
        -- rewrite H. rewrite <- app_assoc. reflexivity.
        -- apply Forall_app. split; [exact F |].
           repeat constructor; assumption.
      * apply IH in E. destruct E as (evs & H & F). simpl in H.
        exists (evs ++ [ESleep 1000; EConnect]). split.
        -- rewrite H. rewrite <- app_assoc. reflexivity.
        -- apply Forall_app. split; [exact F |].
           repeat constructor; [exact (P_blocking _ Ec) | exact P_connect].
      * inversion E; subst. simpl. exists [EConnect].
        split; [reflexivity | repeat constructor; exact P_connect].
    + apply emits_flag. reflexivity.
Qed.

Lemma emits_open_connection : emits P (open_connection env fuel).
Proof.
  intros w r w' E. unfold open_connection, bind, get_world in E.
  destruct (is_connected w).
  - inversion E; subst. exists []. split; [reflexivity | constructor].
  - apply (emits_open_connection_loop _ _ _ _ _ E).
Qed.

Lemma emits__send_message msg : P (EWrite msg) -> emits P (_send_message env msg).
Proof.
  intros Hm. unfold _send_message.
  apply emits_bind; [apply emits_pure; reflexivity | intros w0].
  apply emits_bind; [apply emits_py_assert | intros _].
  apply emits_bind; [apply emits_log, Hm | intros _].
  apply emits_bind; [apply emits_pure; reflexivity | intros w1].
  destruct (env_read env (history w1)); [apply emits_ret | apply emits_raise].
Qed.

Lemma emits_send_message msg : P (EWrite msg) -> emits P (send_message env fuel msg).
Proof.
  intros Hm. unfold send_message, retry.
  apply emits_retry_from; [exact P_backoff |].
  unfold send_message_once.
  apply emits_bind; [apply emits_open_connection | intros _].
  apply emits_bind; [apply emits__send_message, Hm | intros raw].
  apply emits_bind; [apply emits_lift | intros [r |]]; [| apply emits_raise].
  destruct (Py.index_m2 r); [apply emits_ret | apply emits_raise].
Qed.

Hypothesis P_get_source : P (EWrite COMMANDS.get_source).

Lemma emits_get_state : emits P (get_state env fuel).
Proof.
  unfold get_state, retry. apply emits_retry_from; [exact P_backoff |].
  apply emits_bind; [apply emits_send_message, P_get_source | intros r].
  apply emits_lift.
Qed.

Lemma emits_get_source : emits P (get_source env fuel).
Proof.
  unfold get_source. apply emits_bind; [apply emits_get_state | intros st].
  apply emits_ret.
Qed.

Lemma emits_get_is_on : emits P (get_is_on env fuel).
Proof.
  unfold get_is_on. apply emits_bind; [apply emits_get_state | intros st].
  apply emits_ret.
Qed.

Hypothesis P_set_source : forall i, P (EWrite [83; 48; 129; i]).

Lemma emits_poll_source n source : emits P (poll_source env fuel n source).
Proof.
  induction n as [| n IH]; simpl.
  - apply emits_raise.
  - apply emits_bind; [apply emits_get_source | intros cur].
    destruct (String.eqb cur source); [apply emits_ret |].
    apply emits_bind; [apply emits_log, P_pause | intros _; exact IH].
Qed.

Lemma emits_set_source self source state :
  emits P (set_source env fuel self source state).
Proof.
  unfold set_source, retry. apply emits_retry_from; [exact P_backoff |].
  unfold set_source_once.
  apply emits_bind; [apply emits_py_assert | intros _].
  apply emits_bind; [apply emits_lift | intros c].
  cbv zeta.
  set (i := if String.eqb state "off" then c mod 128 + 128 else c mod 128).
  assert (emits P
            (let* response := send_message env fuel [83; 48; 129; i] in
             (if negb (response =? _RESPONSE_OK)
              then raise ConnectionError else ret tt) ;;;
             poll_source env fuel _MAX_ATTEMPT_TILL_SUCCESS source)) as Hk.
  { apply emits_bind; [apply emits_send_message, P_set_source | intros resp].
    apply emits_bind; [| intros _; apply emits_poll_source].
    destruct (negb (resp =? _RESPONSE_OK)); [apply emits_raise | apply emits_ret]. }
  intros w r w' E. unfold bind at 1 in E.
  unfold lift at 1, COMMANDS.set_source, bytes in E.
  destruct (forallb Py.is_byte [_SET_START; _SOURCE; _SET_MID; i]).
  - exact (Hk _ _ _ E).
  - inversion E; subst. exists []. split; [reflexivity | constructor].
Qed.

(** The polling loop of [turn_on] and [turn_off] adds at most one
    one-second sleep per round, when [P] excludes such sleeps. *)
Hypothesis P_not_1s : forall e, P e -> e <> ESleep 1000.

Lemma no_one_second_sleeps evs :
  Forall P evs -> one_second_sleeps evs = 0%nat.
Proof.
  unfold one_second_sleeps. induction 1 as [| e evs He _ IH]; simpl.
  - reflexivity.
  - destruct e as [| | ms |]; try exact IH.
    destruct (Z.eq_dec ms 1000) as [-> | Hne].
    + exfalso. exact (P_not_1s _ He eq_refl).
    + destruct ms as [| p | p]; try exact IH.
      repeat (destruct p as [p | p |]; try exact IH). contradiction.
Qed.

Lemma one_second_sleeps_app evs1 evs2 :
  one_second_sleeps (evs1 ++ evs2)
  = (one_second_sleeps evs1 + one_second_sleeps evs2)%nat.
Proof.
  unfold one_second_sleeps. rewrite List.filter_app, length_app. reflexivity.
Qed.

Lemma poll_power_sleeps n target w r w' :
  poll_power env fuel n target w = (r, w') ->
  exists evs, history w' = evs ++ history w
              /\ (one_second_sleeps evs <= n)%nat.
Proof.
  revert w. induction n as [| n IH]; intros w; simpl.
  - intros E. inversion E; subst. exists [].
    split; [reflexivity | unfold one_second_sleeps; simpl; lia].
  - unfold bind at 1.
    destruct (get_is_on env fuel w) as [[on | e |] w1] eqn:Eg; intros E.
    + destruct (emits_get_is_on _ _ _ Eg) as (evs1 & H1 & F1).
      pose proof (no_one_second_sleeps _ F1) as Z1.
      destruct (Bool.eqb on target).
      * inversion E; subst. exists evs1. split; [exact H1 | lia].
      * unfold bind at 1, sleep, log in E. apply IH in E.
        destruct E as (evs2 & H2 & B2). simpl in H2.
        exists (evs2 ++ ESleep 1000 :: evs1). split.
        -- rewrite H2, H1. rewrite <- app_assoc. reflexivity.
        -- rewrite one_second_sleeps_app.
           change (ESleep 1000 :: evs1) with ([ESleep 1000] ++ evs1).
           rewrite one_second_sleeps_app, Z1. simpl. lia.
    + inversion E; subst.
      destruct (emits_get_is_on _ _ _ Eg) as (evs1 & H1 & F1).
      exists evs1. split; [exact H1 |]. rewrite (no_one_second_sleeps _ F1). lia.
    + inversion E; subst.
      destruct (emits_get_is_on _ _ _ Eg) as (evs1 & H1 & F1).
      exists evs1. split; [exact H1 |]. rewrite (no_one_second_sleeps _ F1). lia.
Qed.

Lemma turn_sleeps {A} (m : M A) n target w r w' :
  emits P m ->
  (m ;;; poll_power env fuel n target) w = (r, w') ->
  exists evs, history w' = evs ++ history w
              /\ (one_second_sleeps evs <= n)%nat.
Proof.
  intros Hm E. unfold bind in E.
  destruct (m w) as [[a | e |] w1] eqn:Em;
    destruct (Hm _ _ _ Em) as (evs1 & H1 & F1);
    pose proof (no_one_second_sleeps _ F1) as Z1.
  - apply poll_power_sleeps in E. destruct E as (evs2 & H2 & B2).
    exists (evs2 ++ evs1). split.
    + rewrite H2, H1. apply app_assoc.
    + rewrite one_second_sleeps_app. lia.
  - inversion E; subst. exists evs1. split; [exact H1 | lia].
  - inversion E; subst. exists evs1. split; [exact H1 | lia].
Qed.

End Emits.

(** ** C6: [turn_on] and [turn_off] *)

(** On a speaker that is already on, [turn_on] still asks for the
    state: the query 0x47 0x30 0x80 goes over the wire.  On a speaker
    that acknowledges the command but stays off, [turn_on] polls twenty
    times, one second apart, and then returns normally. *)
Lemma C6_turn_on_queries_and_gives_up :
  turn_on (simulated 10 30) 1 speaker_20_LR None init_world
    = (Ok tt, mkWorld true true [EWrite [71; 48; 128]; EConnect])
  /\ history (snd (turn_on (simulated 10 30) 1 speaker_20_LR None init_world))
     <> history init_world
  /\ (let r := turn_on (stubborn 138 30) 1 speaker_20_LR None init_world in
      fst r = Ok tt
      /\ one_second_sleeps (history (snd r)) = 20%nat
      /\ fst (get_is_on (stubborn 138 30) 1 (snd r)) = Ok false
      /\ fst r <> Raise TimeoutError).
Proof. vm_compute. repeat split; discriminate. Qed.

Lemma not_1s_one_second_sleeps evs :
  Forall (fun e => e <> ESleep 1000) evs -> one_second_sleeps evs = 0%nat.
Proof. apply no_one_second_sleeps. intros e H. exact H. Qed.

(** A retried body that returns did so from a world that extends the
    one the retry started in. *)
Lemma retry_from_inv_ok_from {A} n attempt (body : M A) w a w' :
  emits (fun _ => True) body ->
  retry_from n attempt body w = (Ok a, w') ->
  exists w0 evs, body w0 = (Ok a, w') /\ history w0 = evs ++ history w.
Proof.
  intros Hb. revert attempt w. induction n as [| n IH]; intros attempt w; simpl.
  - discriminate.
  - destruct (body w) as [[x | e |] w1] eqn:E; intros H.
    + inversion H; subst. exists w, []. split; [exact E | reflexivity].
    + destruct n; [discriminate |].
      destruct (Hb _ _ _ E) as (evs1 & H1 & _).
      apply IH in H as (w0 & evs & Hw0 & Hh).
      exists w0, (evs ++ EBackoff attempt :: evs1). split; [exact Hw0 |].
      rewrite Hh. simpl. rewrite H1, <- app_assoc. reflexivity.
    + discriminate.
Qed.

Section StateQuery.

Variable env : Env.
Variable fuel : nat.

Lemma send_message_once_adds msg : emits (fun _ => True) (send_message_once env fuel msg).
Proof.
  unfold send_message_once.
  apply emits_bind; [apply emits_open_connection; intros; exact I | intros _].
  apply emits_bind; [apply emits__send_message; exact I | intros raw].
  apply emits_bind; [apply emits_lift | intros [r |]]; [| apply emits_raise].
  destruct (Py.index_m2 r); [apply emits_ret | apply emits_raise].
Qed.

(** [send_message] returns only after an attempt that wrote the
    message, and that write is the last thing it did. *)
Lemma send_message_wrote msg w v w' :
  send_message env fuel msg w = (Ok v, w') ->
  exists evs, history w' = EWrite msg :: evs ++ history w.
Proof.
  unfold send_message, retry. intros H.
  apply retry_from_inv_ok_from in H as (w0 & evs0 & H & Hh0);
    [| apply send_message_once_adds].
  unfold send_message_once in H.
  apply bind_inv_ok in H as (u & wc & Hopen & H).
  assert (emits (fun _ => True) (open_connection env fuel)) as Ho
    by (apply emits_open_connection; intros; exact I).
  destruct (Ho _ _ _ Hopen) as (evsc & Hc & _).
  apply bind_inv_ok in H as (d & w2 & Hsend & H).
  assert (history w2 = EWrite msg :: history wc) as Hw2.
  { unfold _send_message, bind, get_world, py_assert, log in Hsend.
    destruct (is_connected wc); simpl in Hsend; [| discriminate].
    destruct (env_read env (EWrite msg :: history wc)); simpl in Hsend;
      [| discriminate].
    inversion Hsend; subst. reflexivity. }
  apply bind_inv_ok in H as (parsed & w3 & Hp & H).
  unfold lift in Hp. inversion Hp as [[Hp' Hw]]. subst w3.
  destruct parsed as [r |]; [| discriminate].
  destruct (Py.index_m2 r) as [x |]; [| discriminate].
  inversion H; subst.
  exists (evsc ++ evs0). rewrite Hw2, Hc, Hh0, <- app_assoc. reflexivity.
Qed.

(** A [get_state] that returns has sent the source query: it is the
    last of the events added. *)
Lemma get_state_wrote_query w st w1 :
  get_state env fuel w = (Ok st, w1) ->
  exists evs, history w1 = EWrite COMMANDS.get_source :: evs ++ history w.
Proof.
  unfold get_state, retry. intros H.
  apply retry_from_inv_ok_from in H as (w0 & evs0 & H & Hh0).
  - apply bind_inv_ok in H as (v & wx & Hs & H).
    unfold lift in H. inversion H as [[Hd Hw]]. subst wx.
    apply send_message_wrote in Hs as (evs & Hs).
    exists (evs ++ evs0). rewrite Hs, Hh0, <- app_assoc. reflexivity.
  - apply emits_bind; [| intros r; apply emits_lift].
    unfold send_message, retry.
    apply emits_retry_from; [intros; exact I | apply send_message_once_adds].
Qed.

End StateQuery.

(** C6 (amended). [turn_on] and [turn_off] first ask the speaker for
    its state: the source query 0x47 0x30 0x80 is written to the
    speaker (it is the last thing done before the state is known), and
    no set command is.  When the speaker is already in the target
    power state they return right after that query.  Otherwise they call [set_source], with "on" and the given
    or current source, or with "off" and the current source, and then
    poll the power state: a poll that shows the target state ends the
    loop, any other is followed by a sleep of one second and the next
    poll, at most twenty times. *)
Theorem C6_turn_on_off
    (env : Env) (fuel : nat) (self : Speaker) (src : option string)
    (w w1 : World) (st : State) :
  get_state env fuel w = (Ok st, w1) ->
  (exists evs, history w1 = EWrite COMMANDS.get_source :: evs ++ history w
               /\ Forall not_a_set evs)
  /\ (is_on st = true -> turn_on env fuel self src w = (Ok tt, w1))
  /\ (is_on st = false -> turn_off env fuel self w = (Ok tt, w1))
  /\ (is_on st = false ->
      turn_on env fuel self src w
      = (set_source env fuel self (source_or src (source st)) "on" ;;;
         poll_power env fuel 20 true) w1)
  /\ (is_on st = true ->
      turn_off env fuel self w
      = (set_source env fuel self (source st) "off" ;;;
         poll_power env fuel 20 false) w1)
  /\ (forall n target wa wb,
        get_is_on env fuel wa = (Ok target, wb) ->
        poll_power env fuel (S n) target wa = (Ok tt, wb))
  /\ (forall n target wa wb,
        get_is_on env fuel wa = (Ok (negb target), wb) ->
        poll_power env fuel (S n) target wa
        = poll_power env fuel n target (push (ESleep 1000) wb))
  /\ ((forall h, env_connect env h <> ConnBlocking) ->
      forall r w',
        turn_on env fuel self src w = (r, w') \/ turn_off env fuel self w = (r, w') ->
        exists evs, history w' = evs ++ history w
                    /\ (one_second_sleeps evs <= 20)%nat).
Proof.
  intros Hst.
  split; [| split; [| split; [| split; [| split; [| split; [| split]]]]]].
  - destruct (get_state_wrote_query env fuel w st w1 Hst) as (evs & Hq).
    exists evs. split; [exact Hq |].
    assert (exists evs', history w1 = evs' ++ history w /\ Forall not_a_set evs')
      as (evs' & He & Hall).
    { apply (emits_get_state not_a_set env fuel) in Hst; [exact Hst | ..];
        try (intros m H; discriminate H).
      - intros h _ m H. discriminate H.
      - intros k m H. discriminate H.
      - intros m H. injection H as <-. discriminate. }
    rewrite Hq in He.
    change (EWrite COMMANDS.get_source :: evs ++ history w)
      with ((EWrite COMMANDS.get_source :: evs) ++ history w) in He.
    apply app_inv_tail in He. subst evs'.
    inversion Hall; subst. assumption.
  - intros Hon. unfold turn_on. rewrite (bind_ok _ _ _ _ _ Hst), Hon. reflexivity.
  - intros Hoff. unfold turn_off. rewrite (bind_ok _ _ _ _ _ Hst), Hoff. reflexivity.
  - intros Hoff. unfold turn_on. rewrite (bind_ok _ _ _ _ _ Hst), Hoff. reflexivity.
  - intros Hon. unfold turn_off. rewrite (bind_ok _ _ _ _ _ Hst), Hon. reflexivity.
  - intros n target wa wb H. simpl. rewrite (bind_ok _ _ _ _ _ H).
    rewrite Bool.eqb_reflx. reflexivity.
  - intros n target wa wb H. simpl. rewrite (bind_ok _ _ _ _ _ H).
    replace (Bool.eqb (negb target) target) with false by (destruct target; reflexivity).
    reflexivity.
  - intros Hnb r w' Hrun.
    set (Q := fun e : event => e <> ESleep 1000).
    assert (HQb : forall h, env_connect env h = ConnBlocking -> Q (ESleep 1000))
      by (intros h Hh; destruct (Hnb h Hh)).
    assert (HQg : emits Q (get_state env fuel))
      by (apply emits_get_state; try exact HQb; intros; discriminate).
    assert (HQs : forall s state, emits Q (set_source env fuel self s state))
      by (intros; apply emits_set_source; try exact HQb; intros; discriminate).
    destruct (HQg _ _ _ Hst) as (evs1 & H1 & F1).
    pose proof (not_1s_one_second_sleeps _ F1) as Z1.
    assert (forall target (m : M unit),
              emits Q m ->
              (if Bool.eqb (is_on st) target then ret tt
               else m ;;; poll_power env fuel 20 target) w1 = (r, w') ->
              exists evs, history w' = evs ++ history w
                          /\ (one_second_sleeps evs <= 20)%nat) as Hcase.
    { intros target m Hm E. destruct (Bool.eqb (is_on st) target).
      - inversion E; subst. exists evs1. split; [exact H1 | lia].
      - apply (turn_sleeps Q env fuel) in E;
          [| try exact HQb; intros; discriminate ..| | exact Hm].
        + destruct E as (evs2 & H2 & B2). exists (evs2 ++ evs1). split.
          * rewrite H2, H1. apply app_assoc.
          * rewrite one_second_sleeps_app. lia.
        + intros e He. exact He. }
    destruct Hrun as [E | E].
    + unfold turn_on in E. rewrite (bind_ok _ _ _ _ _ Hst) in E.
      apply (Hcase true (set_source env fuel self (source_or src (source st)) "on"));
        [apply HQs |].
      destruct (is_on st); exact E.
    + unfold turn_off in E. rewrite (bind_ok _ _ _ _ _ Hst) in E.
      apply (Hcase false (set_source env fuel self (source st) "off"));
        [apply HQs |].
      destruct (is_on st); exact E.
Qed.

Lemma C6_turn_on_off_witness :
  get_state (simulated 10 30) 1 init_world
    = (Ok (mkState "Aux" true (Some 20) "L/R"),
       mkWorld true true [EWrite [71; 48; 128]; EConnect])
  /\ turn_on (simulated 10 30) 1 speaker_20_LR None init_world
     = (Ok tt, mkWorld true true [EWrite [71; 48; 128]; EConnect]).
Proof.
  split; [reflexivity |].
  pose proof (C6_turn_on_off (simulated 10 30) 1 speaker_20_LR None init_world
                (mkWorld true true [EWrite [71; 48; 128]; EConnect])
                (mkState "Aux" true (Some 20) "L/R") eq_refl)
    as (_ & H & _).
  apply H. reflexivity.
Defined.

(** Turning a simulated speaker on and off: the set command carries the
    code of the current source, with 128 added for "off". *)
Example turn_on_simulated :
  turn_on (simulated 138 30) 1 speaker_20_LR None init_world
  = (Ok tt, mkWorld true true
              [EWrite [71; 48; 128]; EWrite [71; 48; 128];
               EWrite [83; 48; 129; 10]; EWrite [71; 48; 128]; EConnect]).
Proof. reflexivity. Qed.

Example turn_off_simulated :
  turn_off (simulated 10 30) 1 speaker_20_LR init_world
  = (Ok tt, mkWorld true true
              [EWrite [71; 48; 128]; EWrite [71; 48; 128];
               EWrite [83; 48; 129; 138]; EWrite [71; 48; 128]; EConnect]).
Proof. reflexivity. Qed.

(** ** C3: the paired alias as a target of [set_source] *)

(** No decoded state carries the name of the alias: the table of
    replies is filled with the suffix removed. *)
Lemma decode_state_not_paired response st :
  decode_state response = Ok st -> source st <> "Bluetooth_paired".
Proof.
  unfold decode_state.
  destruct (INPUT_SOURCES_RESPONSE !! (response mod 128)) as [[[s t] o] |] eqn:E;
    [| discriminate].
  intros H. inversion H; subst. simpl.
  assert (map_Forall (fun _ v => fst (fst v) <> "Bluetooth_paired")
                     INPUT_SOURCES_RESPONSE) as Hall.
  { apply (bool_decide_unpack _). vm_compute. exact I. }
  exact (Hall _ _ E).
Qed.

Section PairedAlias.

Variable env : Env.
Variable fuel : nat.

Lemma get_source_not_paired w s w' :
  get_source env fuel w = (Ok s, w') -> s <> "Bluetooth_paired".
Proof.
  unfold get_source. intros H.
  apply bind_inv_ok in H as (st & w1 & Hst & Hret).
  inversion Hret; subst.
  unfold get_state, retry in Hst.
  apply retry_from_inv_ok in Hst as (w0 & Hbody).
  apply bind_inv_ok in Hbody as (response & w2 & _ & Hdec).
  unfold lift in Hdec. inversion Hdec as [[Hd Hw]].
  exact (decode_state_not_paired _ _ Hd).
Qed.

Lemma poll_source_paired n w w' :
  poll_source env fuel n "Bluetooth_paired" w <> (Ok tt, w').
Proof.
  revert w. induction n as [| n IH]; intros w; simpl.
  - discriminate.
  - unfold bind at 1.
    destruct (get_source env fuel w) as [[s | e |] w1] eqn:Eg; try discriminate.
    destruct (String.eqb_spec s "Bluetooth_paired") as [-> | _].
    + exfalso. exact (get_source_not_paired _ _ _ Eg eq_refl).
    + unfold bind, sleep, log. apply IH.
Qed.

(** [set_source("Bluetooth_paired")] never returns normally: its poll
    compares the decoded name with the name of the alias. *)
Lemma set_source_paired_never_returns self state w w' :
  set_source env fuel self "Bluetooth_paired" state w <> (Ok tt, w').
Proof.
  unfold set_source, retry. intros H.
  apply retry_from_inv_ok in H as (w0 & H).
  unfold set_source_once in H.
  apply bind_inv_ok in H as (_ & w1 & _ & H).
  apply bind_inv_ok in H as (c & w2 & _ & H).
  apply bind_inv_ok in H as (msg & w3 & _ & H).
  apply bind_inv_ok in H as (response & w4 & _ & H).
  apply bind_inv_ok in H as (_ & w5 & _ & H).
  exact (poll_source_paired _ _ _ H).
Qed.

End PairedAlias.

(** The names that pass [assert source in INPUT_SOURCES]. *)
Lemma dict_get_input_sources source :
  is_Some (Py.dict_get source INPUT_SOURCES) ->
  source = "Bluetooth_paired" \/ In source decoded_names.
Proof.
  unfold INPUT_SOURCES, INPUT_SOURCES_20_MINUTES_LR, decoded_names. simpl.
  repeat (case_decide; [subst; simpl; tauto |]).
  intros [x Hx]. discriminate Hx.
Qed.

(** The assertion of [set_source] does let the alias through: code 15
    is looked up and the set command 0x53 0x30 0x81 0x0F is written.
    The call fails afterwards, when its poll never reads the name
    back. *)
Example paired_alias_is_sent :
  bool_decide (is_Some (Py.dict_get "Bluetooth_paired" INPUT_SOURCES)) = true
  /\ source_code speaker_20_LR "Bluetooth_paired" = Ok 15
  /\ (let r := set_source (simulated 10 30) 1 speaker_20_LR
                          "Bluetooth_paired" "on" init_world in
      take 2 (rev (history (snd r))) = [EConnect; EWrite [83; 48; 129; 15]]
      /\ fst r = Raise RetryError
      /\ fst (get_state (simulated 10 30) 1 (snd r))
         = Ok (mkState "Bluetooth" true (Some 20) "L/R")).
Proof. vm_compute. repeat split. Qed.

(** C3. Whatever the speaker answers, a call of [set_source] that
    returns without an error was given one of the five plain names:
    never [Bluetooth_paired], which is not among them.  Each of the
    five can be set: on a speaker that does what it is told the call
    returns. *)
Theorem C3_paired_alias_never_set
    (env : Env) (fuel : nat) (self : Speaker) (name state : string) (w w' : World) :
  set_source env fuel self name state w = (Ok tt, w') ->
  name <> "Bluetooth_paired"
  /\ In name decoded_names
  /\ ~ In "Bluetooth_paired" decoded_names
  /\ (forall n, In n decoded_names ->
        exists w1, set_source (simulated 10 30) 1 speaker_20_LR n "on" init_world
                   = (Ok tt, w1)).
Proof.
  intros H.
  assert (name <> "Bluetooth_paired") as Hn.
  { intros ->. exact (set_source_paired_never_returns env fuel self state w w' H). }
  split; [exact Hn |]. split; [| split].
  - unfold set_source, retry in H.
    apply retry_from_inv_ok in H as (w0 & H).
    unfold set_source_once in H.
    apply bind_inv_ok in H as (u & w1 & Hassert & _).
    unfold py_assert in Hassert.
    destruct (bool_decide (is_Some (Py.dict_get name INPUT_SOURCES))) eqn:E;
      [| discriminate].
    apply bool_decide_eq_true in E.
    destruct (dict_get_input_sources name E) as [-> | Hin];
      [contradiction | exact Hin].
  - unfold decoded_names. simpl. intros [Hx | [Hx | [Hx | [Hx | [Hx | []]]]]];
      discriminate Hx.
  - intros n [<- | [<- | [<- | [<- | [<- | []]]]]];
      eexists; vm_compute; reflexivity.
Qed.

Lemma C3_paired_alias_never_set_witness :
  set_source (simulated 10 30) 1 speaker_20_LR "Opt" "on" init_world
    = (Ok tt, mkWorld true true
                [EWrite [71; 48; 128]; EWrite [83; 48; 129; 11]; EConnect])
  /\ "Opt" <> "Bluetooth_paired"
  /\ In "Opt" decoded_names.
Proof.
  split; [reflexivity |].
  pose proof (C3_paired_alias_never_set (simulated 10 30) 1 speaker_20_LR
                "Opt" "on" init_world
                (mkWorld true true
                   [EWrite [71; 48; 128]; EWrite [83; 48; 129; 11]; EConnect])
                eq_refl) as (H1 & H2 & _).
  split; [exact H1 | exact H2].
Defined.


(** * Further properties of the module *)

(** ** Frames *)

Lemma split_nonempty sep b : Py.split sep b <> [].
Proof.
  destruct b as [| x b]; simpl; [discriminate |].
  destruct (x =? sep); [discriminate |].
  destruct (Py.split sep b); discriminate.
Qed.

Lemma split_pieces_no_sep sep b p :
  In p (Py.split sep b) -> Forall (fun x => x <> sep) p.
Proof.
  revert p. induction b as [| x b IH]; intros p; simpl.
  - intros [<- | []]. constructor.
  - destruct (Z.eqb_spec x sep) as [-> | Hne].
    + intros [<- | H]; [constructor | apply IH, H].
    + destruct (Py.split sep b) as [| q qs] eqn:E.
      * intros [<- | []]. repeat constructor. exact Hne.
      * intros [<- | H].
        -- constructor; [exact Hne | apply IH; left; reflexivity].
        -- apply IH. right. exact H.
Qed.

Lemma split_app_no_sep sep body rest :
  Forall (fun x => x <> sep) body ->
  Py.split sep (body ++ rest)
  = match Py.split sep rest with
    | hd :: tl => (body ++ hd) :: tl
    | [] => [body]
    end.
Proof.
  induction 1 as [| x body Hx _ IH]; simpl.
  - destruct (Py.split sep rest) eqn:E; [| reflexivity].
    exfalso. exact (split_nonempty _ _ E).
  - destruct (Z.eqb_spec x sep) as [? | _]; [contradiction |].
    rewrite IH. destruct (Py.split sep rest); reflexivity.
Qed.

Lemma split_concat_frames frames :
  Forall frame_ok frames ->
  Py.split 82 (concat frames) = [] :: map (@List.tl Z) frames.
Proof.
  induction 1 as [| r frames Hr _ IH]; simpl.
  - reflexivity.
  - destruct Hr as (b & body & -> & Hb).
    change ((82 :: b :: body) ++ concat frames)
      with (82 :: ((b :: body) ++ concat frames)).
    change (Py.split 82 (82 :: ((b :: body) ++ concat frames)))
      with ([] :: Py.split 82 ((b :: body) ++ concat frames)).
    rewrite (split_app_no_sep 82 (b :: body) (concat frames) Hb), IH.
    rewrite app_nil_r. reflexivity.
Qed.

Lemma responses_of_concat_aux (frames : list (list Z)) :
  Forall frame_ok frames -> responses_of (concat frames) = frames.
Proof.
  intros H. unfold responses_of, _R. rewrite (split_concat_frames frames H).
  simpl. induction H as [| r frames Hr _ IH]; simpl.
  - reflexivity.
  - destruct Hr as (b & body & -> & _). simpl. f_equal. exact IH.
Qed.




(** X1. A reply made of frames (each the marker [R] followed by one or
    more other bytes) is split back into exactly those frames. *)
Theorem responses_of_concat (frames : list (list Z)) :
  Forall frame_ok frames -> responses_of (concat frames) = frames.
Proof. intros H. apply responses_of_concat_aux. exact H. Qed.

Lemma frame_ok_ack : frame_ok FULL_RESPONSE_OK.
Proof. exists 17, [255]. split; [reflexivity |]. repeat constructor; discriminate. Qed.

Lemma frame_ok_query_frame field value :
  field <> 82 -> value <> 82 -> frame_ok (query_frame field value).
Proof.
  intros Hf Hv. exists field, [129; value; 0]. split; [reflexivity |].
  repeat constructor; try assumption; discriminate.
Qed.

Lemma responses_of_concat_witness :
  Forall frame_ok [FULL_RESPONSE_OK; query_frame 37 30] /\
  responses_of (FULL_RESPONSE_OK ++ query_frame 37 30 ++ [])
  = [FULL_RESPONSE_OK; query_frame 37 30].
Proof.
  assert (Forall frame_ok [FULL_RESPONSE_OK; query_frame 37 30]) as H.
  { repeat constructor; [apply frame_ok_ack |].
    apply frame_ok_query_frame; discriminate. }
  split; [exact H |].
  exact (responses_of_concat [FULL_RESPONSE_OK; query_frame 37 30] H).
Defined.

Lemma next_matching_find which frames :
  Forall frame_ok frames ->
  next_matching which frames
  = match List.find (second_is which) frames with
    | Some r => Ok r
    | None => Raise PlainException
    end.
Proof.
  induction 1 as [| r frames Hr _ IH]; simpl.
  - reflexivity.
  - destruct Hr as (b & body & -> & _). unfold second_is. simpl.
    destruct (b =? which); [reflexivity | exact IH].
Qed.

(** X2. When a reply holds several frames, a query gets the first frame
    whose second byte is the selector it asked for, and the exception
    of [_parse_response] when there is none; a set command is
    acknowledged exactly when one of the frames is [R 0x11 0xFF]. *)
Theorem parse_response_of_frames (frames : list (list Z)) (which : Z) (rest : list Z) :
  Forall frame_ok frames ->
  _parse_response (71 :: which :: rest) (concat frames)
  = match List.find (second_is which) frames with
    | Some r => Ok (Some r)
    | None => Raise PlainException
    end
  /\ _parse_response (83 :: which :: rest) (concat frames)
     = if bool_decide (FULL_RESPONSE_OK ∈ frames)
       then Ok (Some FULL_RESPONSE_OK) else Raise PlainException.
Proof.
  intros H. unfold _parse_response. rewrite (responses_of_concat_aux frames H). simpl.
  split.
  - rewrite (next_matching_find which frames H).
    destruct (List.find (second_is which) frames); reflexivity.
  - destruct (existsb (list_Z_eqb FULL_RESPONSE_OK) frames) eqn:E.
    + apply existsb_exists in E as (r & Hin & Heq).
      unfold list_Z_eqb in Heq. apply bool_decide_eq_true in Heq. subst r.
      rewrite bool_decide_eq_true_2; [reflexivity |].
      apply list_elem_of_In. exact Hin.
    + rewrite bool_decide_eq_false_2; [reflexivity |].
      intros Hin. apply list_elem_of_In in Hin.
      assert (existsb (list_Z_eqb FULL_RESPONSE_OK) frames = true) as E'.
      { apply existsb_exists. exists FULL_RESPONSE_OK. split; [exact Hin |].
        unfold list_Z_eqb. apply bool_decide_eq_true. reflexivity. }
      rewrite E in E'. discriminate.
Qed.

Lemma parse_response_of_frames_witness :
  Forall frame_ok [FULL_RESPONSE_OK; query_frame 48 10; query_frame 37 30] /\
  _parse_response COMMANDS.get_volume
    (concat [FULL_RESPONSE_OK; query_frame 48 10; query_frame 37 30])
  = Ok (Some (query_frame 37 30)).
Proof.
  assert (Forall frame_ok [FULL_RESPONSE_OK; query_frame 48 10; query_frame 37 30]) as H.
  { repeat constructor; [apply frame_ok_ack | |];
      apply frame_ok_query_frame; discriminate. }
  split; [exact H |].
  exact (proj1 (parse_response_of_frames _ 37 [128] H)).
Defined.

Lemma responses_of_shape reply r :
  In r (responses_of reply) ->
  exists b body, r = 82 :: b :: body /\ Forall (fun x => x <> 82) (b :: body).
Proof.
  unfold responses_of, _R. intros H.
  apply in_map_iff in H as (piece & <- & Hin).
  apply filter_In in Hin as (Hin & Hlen).
  pose proof (split_pieces_no_sep 82 reply piece Hin) as Hp.
  destruct piece as [| b body]; [discriminate Hlen |].
  exists b, body. split; [reflexivity | exact Hp].
Qed.

Lemma next_matching_in which responses r :
  next_matching which responses = Ok r ->
  In r responses /\ r !! 1%nat = Some which.
Proof.
  induction responses as [| r0 rest IH]; simpl; [discriminate |].
  destruct (r0 !! 1%nat) as [x |] eqn:E; [| discriminate].
  destruct (Z.eqb_spec x which) as [-> | _].
  - intros H. inversion H; subst. split; [left; reflexivity | exact E].
  - intros H. apply IH in H as (Hin & H1). split; [right; exact Hin | exact H1].
Qed.

Lemma index_m2_in x body y :
  (2 <= length body)%nat -> Py.index_m2 (x :: body) = Some y -> In y body.
Proof.
  unfold Py.index_m2. intros Hlen. simpl.
  destruct (rev body) as [| a [| b l]] eqn:E.
  - apply (f_equal (@length Z)) in E. rewrite length_rev in E. simpl in E. lia.
  - apply (f_equal (@length Z)) in E. rewrite length_rev in E. simpl in E. lia.
  - simpl. intros H. inversion H; subst.
    apply in_rev. rewrite E. right. left. reflexivity.
Qed.

(** X3. Whatever the reply, the frame that [_parse_response] hands back
    starts with the marker [R], has at least two bytes and no further
    marker; for a query its second byte is the selector of the query,
    and for a set it is the acknowledgement.  So the byte that
    [send_message] takes at index -2 of a frame of three or more bytes
    is never 82: a value equal to the marker cannot be read back. *)
Theorem parse_response_frame (message reply r : list Z) :
  _parse_response message reply = Ok (Some r) ->
  frame_ok r
  /\ (message !! 0%nat = Some 71 -> r !! 1%nat = message !! 1%nat)
  /\ (message !! 0%nat = Some 83 -> r = FULL_RESPONSE_OK)
  /\ ((3 <= length r)%nat -> Py.index_m2 r <> Some 82).
Proof.
  unfold _parse_response.
  destruct (message !! 0%nat) as [m0 |] eqn:E0; [| discriminate].
  assert (frame_ok r -> (3 <= length r)%nat -> Py.index_m2 r <> Some 82) as Hidx.
  { intros (b & body & -> & Hb) Hlen Hi.
    apply index_m2_in in Hi; [| simpl in *; lia].
    rewrite List.Forall_forall in Hb. exact (Hb 82 Hi eq_refl). }
  destruct (Z.eqb_spec m0 71) as [-> | Hne71].
  - destruct (message !! 1%nat) as [which |] eqn:E1; [| discriminate].
    destruct (next_matching which (responses_of reply)) as [r' | |] eqn:En;
      try discriminate.
    intros H. inversion H; subst r'.
    apply next_matching_in in En as (Hin & H1).
    pose proof (responses_of_shape reply r Hin) as Hshape.
    repeat split; auto. discriminate.
  - destruct (Z.eqb_spec m0 83) as [-> | Hne83].
    + destruct (existsb (list_Z_eqb FULL_RESPONSE_OK) (responses_of reply));
        [| discriminate].
      intros H. inversion H; subst r.
      repeat split; auto using frame_ok_ack. discriminate.
    + discriminate.
Qed.

Lemma parse_response_frame_witness :
  _parse_response COMMANDS.get_volume (query_frame 37 82) = Ok (Some [82; 37; 129])
  /\ frame_ok [82; 37; 129]
  /\ Py.index_m2 [82; 37; 129] = Some 37.
Proof.
  pose proof (parse_response_frame COMMANDS.get_volume (query_frame 37 82)
                [82; 37; 129] eq_refl) as (H & _).
  split; [reflexivity |]. split; [exact H | reflexivity].
Defined.


(** ** Decoding the reply to a source query *)

Lemma decode_state_code response st :
  decode_state response = Ok st ->
  INPUT_SOURCES_RESPONSE !! (response mod 128)
  = Some (source st, standby_time st, orientation st)
  /\ is_on st = (response <=? 128).
Proof.
  unfold decode_state.
  destruct (INPUT_SOURCES_RESPONSE !! (response mod 128)) as [[[s t] o] |];
    [| discriminate].
  intros H. inversion H; subst. simpl. split; reflexivity.
Qed.

(** X4. The power bit.  A code c below 128 that [get_state] can decode
    gives a state that is on, and c + 128 gives the same source,
    stand-by time and orientation with the speaker off. *)
Theorem decode_state_power_bit (c : Z) (st : State) :
  0 <= c < 128 ->
  decode_state c = Ok st ->
  is_on st = true
  /\ decode_state (c + 128)
     = Ok (mkState (source st) false (standby_time st) (orientation st)).
Proof.
  intros Hc Hd. apply decode_state_code in Hd as (Hl & Hon).
  rewrite Z.mod_small in Hl by lia.
  assert (c <> 0) as Hnz.
  { intros ->. vm_compute in Hl. discriminate Hl. }
  split.
  - rewrite Hon. apply Z.leb_le. lia.
  - unfold decode_state.
    replace ((c + 128) mod 128) with c
      by (apply (Z.mod_unique_pos _ 128 1); lia).
    rewrite Hl. f_equal. f_equal. apply Z.leb_gt. lia.
Qed.

Lemma decode_state_power_bit_witness :
  0 <= 10 < 128 /\
  decode_state 10 = Ok (mkState "Aux" true (Some 20) "L/R") /\
  decode_state 138 = Ok (mkState "Aux" false (Some 20) "L/R").
Proof.
  pose proof (decode_state_power_bit 10 (mkState "Aux" true (Some 20) "L/R")
                ltac:(lia) eq_refl) as (_ & H).
  split; [lia |]. split; [reflexivity | exact H].
Defined.

Lemma decode_state_from_table_aux (response : Z) (st : State) (step maxv : spec_float) :
  decode_state response = Ok st ->
  let self := mkSpeaker step maxv (standby_time st)
                        (String.eqb (orientation st) "R/L") in
  In (source st) decoded_names
  /\ In (standby_time st) STANDBY_OPTIONS
  /\ (orientation st = "L/R" \/ orientation st = "R/L")
  /\ (source_code self (source st) = Ok (response mod 128)
      \/ (source st = "Bluetooth"
          /\ source_code self "Bluetooth_paired" = Ok (response mod 128))).
Proof.
  intros Hd self. apply decode_state_code in Hd as (Hl & _).
  assert (map_Forall
            (fun k v =>
               (fst (fst v) ∈ decoded_names)
               /\ (snd (fst v) ∈ STANDBY_OPTIONS)
               /\ (snd v = "L/R" \/ snd v = "R/L")
               /\ (match source_code
                           (mkSpeaker step maxv (snd (fst v)) (String.eqb (snd v) "R/L"))
                           (fst (fst v)) with
                   | Ok c => c =? k | _ => false
                   end
                   || (String.eqb (fst (fst v)) "Bluetooth"
                       && match source_code
                                  (mkSpeaker step maxv (snd (fst v))
                                             (String.eqb (snd v) "R/L"))
                                  "Bluetooth_paired" with
                          | Ok c => c =? k | _ => false
                          end)) = true)
            INPUT_SOURCES_RESPONSE) as Hall.
  { apply (bool_decide_unpack _). vm_compute. exact I. }
  specialize (Hall _ _ Hl). simpl in Hall.
  destruct Hall as (H1 & H2 & H3 & H4). fold self in H4.
  split; [apply list_elem_of_In; exact H1 |].
  split; [apply list_elem_of_In; exact H2 |].
  split; [exact H3 |].
  apply orb_true_iff in H4 as [H4 | H4].
  - left. destruct (source_code self (source st)) as [c | |]; try discriminate.
    apply Z.eqb_eq in H4. subst. reflexivity.
  - right. apply andb_true_iff in H4 as (Hs & H4).
    apply String.eqb_eq in Hs. split; [exact Hs |].
    destruct (source_code self "Bluetooth_paired") as [c | |]; try discriminate.
    apply Z.eqb_eq in H4. subst. reflexivity.
Qed.

(** X5. Every decoded state is well formed and comes from the forward
    table: its source is one of the five plain names, its stand-by
    time one of [20, 60, None], its orientation "L/R" or "R/L", and the
    code of the reply is the one [INPUT_SOURCES] gives for that source,
    stand-by time and orientation, or for the alias [Bluetooth_paired]
    when the source is Bluetooth. *)
Theorem decode_state_from_table (response : Z) (st : State) (step maxv : spec_float) :
  decode_state response = Ok st ->
  let self := mkSpeaker step maxv (standby_time st)
                        (String.eqb (orientation st) "R/L") in
  In (source st) decoded_names
  /\ In (standby_time st) STANDBY_OPTIONS
  /\ (orientation st = "L/R" \/ orientation st = "R/L")
  /\ (source_code self (source st) = Ok (response mod 128)
      \/ (source st = "Bluetooth"
          /\ source_code self "Bluetooth_paired" = Ok (response mod 128))).
Proof. intros Hd. apply decode_state_from_table_aux. exact Hd. Qed.

Lemma decode_state_from_table_witness :
  decode_state (79 + 128) = Ok (mkState "Bluetooth" false (Some 20) "R/L") /\
  (79 + 128) mod 128 = 79 /\
  source_code (mkSpeaker F64.zero F64.one (Some 20) true) "Bluetooth_paired" = Ok 79.
Proof.
  pose proof (decode_state_from_table (79 + 128)
                (mkState "Bluetooth" false (Some 20) "R/L") F64.zero F64.one eq_refl)
    as (_ & _ & _ & H).
  split; [reflexivity |]. split; [reflexivity |].
  destruct H as [H | [_ H]]; [discriminate H | exact H].
Defined.

(** ** [set_source]: the code it sends *)

Lemma wire_byte_decodes self source state :
  In (cfg_standby_time self) STANDBY_OPTIONS ->
  In source decoded_names ->
  exists c,
    source_code self source = Ok c
    /\ decode_state (if String.eqb state "off" then c mod 128 + 128 else c mod 128)
       = Ok (mkState source (negb (String.eqb state "off")) (cfg_standby_time self)
                     (if inverse_speaker_mode self then "R/L" else "L/R")).
Proof.
  destruct self as [step maxv sb inv]. simpl.
  intros Hsb Hsrc.
  destruct Hsb as [<- | [<- | [<- | []]]];
    destruct Hsrc as [<- | [<- | [<- | [<- | [<- | []]]]]];
    destruct inv; destruct (String.eqb state "off");
    eexists; (split; [vm_compute; reflexivity | vm_compute; reflexivity]).
Qed.

(** The byte that [set_source] sends is the marker R = 82 for one
    combination only: Wifi, a stand-by time of 60, inverse speaker
    mode, and an intent other than "off". *)
Lemma wire_byte_marker self source state c :
  In (cfg_standby_time self) STANDBY_OPTIONS ->
  In source decoded_names ->
  source_code self source = Ok c ->
  (if String.eqb state "off" then c mod 128 + 128 else c mod 128) = 82
  <-> (source = "Wifi" /\ cfg_standby_time self = Some 60
       /\ inverse_speaker_mode self = true /\ String.eqb state "off" = false).
Proof.
  destruct self as [step maxv sb inv]. simpl.
  intros Hsb Hsrc.
  destruct Hsb as [<- | [<- | [<- | []]]];
    destruct Hsrc as [<- | [<- | [<- | [<- | [<- | []]]]]];
    destruct inv; destruct (String.eqb state "off");
    intros Hc; vm_compute in Hc; injection Hc as <-;
    (split; [intros H; try discriminate H; repeat split; reflexivity
            | intros (H1 & H2 & H3 & H4);
              first [discriminate H1 | discriminate H2 | discriminate H3
                    | discriminate H4 | reflexivity]]).
Qed.

(** X6. For a speaker object with a valid stand-by time, any of the
    five plain sources and either power intent, as long as the byte to
    send is not the marker R = 82: when the speaker acknowledges the
    set command and then reports the byte it was sent, [set_source]
    returns after one poll, and the state read next is the requested
    one: that source, off exactly when the intent was "off", with the
    configured stand-by time and orientation.  The byte is 82 for
    Wifi with stand-by 60, inverse speaker mode and an intent other
    than "off", and for nothing else.  There the report of a speaker
    that answers in five-byte frames is cut at the value and read as
    48, which is no source code, and [set_source] ends in
    [RetryError]. *)
Theorem set_source_then_get_state
    (env : Env) (fuel : nat) (self : Speaker) (source state : string) (c : Z)
    (w w1 : World) (a d1 d2 : list Z) :
  let i := if String.eqb state "off" then c mod 128 + 128 else c mod 128 in
  let set_msg := [83; 48; 129; i] in
  let get_msg := COMMANDS.get_source in
  let w2 := push (EWrite get_msg) (push (EWrite set_msg) w1) in
  In (cfg_standby_time self) STANDBY_OPTIONS ->
  In source decoded_names ->
  source_code self source = Ok c ->
  i <> 82 ->
  open_connection env fuel w = (Ok tt, w1) ->
  env_read env (EWrite set_msg :: history w1) = ReadData a ->
  ack_reply a ->
  env_read env (EWrite get_msg :: EWrite set_msg :: history w1) = ReadData d1 ->
  query_reply 48 i d1 ->
  env_read env (EWrite get_msg :: history w2) = ReadData d2 ->
  query_reply 48 i d2 ->
  set_source env fuel self source state w = (Ok tt, w2)
  /\ get_state env fuel w2
     = (Ok (mkState source (negb (String.eqb state "off")) (cfg_standby_time self)
                    (if inverse_speaker_mode self then "R/L" else "L/R")),
        push (EWrite get_msg) w2)
  /\ ~ (source = "Wifi" /\ cfg_standby_time self = Some 60
        /\ inverse_speaker_mode self = true /\ String.eqb state "off" = false)
  /\ (forall self' source' state' c',
        In (cfg_standby_time self') STANDBY_OPTIONS ->
        In source' decoded_names ->
        source_code self' source' = Ok c' ->
        (if String.eqb state' "off" then c' mod 128 + 128 else c' mod 128) = 82 ->
        source' = "Wifi" /\ cfg_standby_time self' = Some 60
        /\ inverse_speaker_mode self' = true /\ String.eqb state' "off" = false)
  /\ (let wifi_60_RL := mkSpeaker F64.zero F64.one (Some 60) true in
      source_code wifi_60_RL "Wifi" = Ok 82
      /\ _parse_response COMMANDS.get_source (query_frame 48 82) = Ok (Some [82; 48; 129])
      /\ fst (set_source (simulated 10 30) 1 wifi_60_RL "Wifi" "on" init_world)
         = Raise RetryError).
Proof.
  intros i set_msg get_msg w2 Hsb Hsrc Hc Hi Ho Ha Hack Hd1 Hq1 Hd2 Hq2.
  destruct (wire_byte_decodes self source state Hsb Hsrc) as (c' & Hc' & Hdec).
  rewrite Hc in Hc'. injection Hc' as <-. fold i in Hdec.
  pose proof (open_connection_ok env fuel w w1 Ho) as Hc1.
  assert (forall w', is_connected w' = true ->
                     open_connection env fuel w' = (Ok tt, w')) as Hopen
    by (intros w'; apply open_connection_connected).
  split; [| split; [| split; [| split]]].
  - unfold set_source, retry. apply retry_from_ok.
    rewrite (set_source_once_ack env fuel self source state c w w1 a Hc Ho Ha Hack).
    fold i. fold set_msg.
    apply poll_source_found.
    exact (get_source_query env fuel (push (EWrite set_msg) w1)
             (push (EWrite set_msg) w1) i d1 _
             (Hopen (push (EWrite set_msg) w1) Hc1) Hd1 Hq1 Hdec).
  - exact (get_state_query env fuel w2 w2 i d2 _ (Hopen w2 Hc1) Hd2 Hq2 Hdec).
  - intros Hx. apply Hi.
    exact (proj2 (wire_byte_marker self source state c Hsb Hsrc Hc) Hx).
  - intros self' source' state' c' H1 H2 H3 H4.
    exact (proj1 (wire_byte_marker self' source' state' c' H1 H2 H3) H4).
  - vm_compute. repeat split.
Qed.

Lemma set_source_then_get_state_witness :
  let self := mkSpeaker F64.zero F64.one (Some 60) true in
  In (cfg_standby_time self) STANDBY_OPTIONS /\
  In "Usb" decoded_names /\
  source_code self "Usb" = Ok 92 /\
  set_source (simulated 10 30) 1 self "Usb" "off" init_world
    = (Ok tt, mkWorld true true
                [EWrite [71; 48; 128]; EWrite [83; 48; 129; 220]; EConnect]) /\
  get_state (simulated 10 30) 1
    (mkWorld true true [EWrite [71; 48; 128]; EWrite [83; 48; 129; 220]; EConnect])
    = (Ok (mkState "Usb" false (Some 60) "R/L"),
       mkWorld true true
         [EWrite [71; 48; 128]; EWrite [71; 48; 128];
          EWrite [83; 48; 129; 220]; EConnect]).
Proof.
  intros self.
  assert (In (cfg_standby_time self) STANDBY_OPTIONS) as H1
    by (right; left; reflexivity).
  assert (In "Usb" decoded_names) as H2
    by (right; right; right; left; reflexivity).
  split; [exact H1 |]. split; [exact H2 |]. split; [reflexivity |].
  pose proof (set_source_then_get_state (simulated 10 30) 1 self "Usb" "off" 92
                init_world (mkWorld true true [EConnect])
                FULL_RESPONSE_OK (query_frame 48 220) (query_frame 48 220)
                H1 H2 eq_refl ltac:(discriminate) eq_refl eq_refl full_response_is_ack
                eq_refl (query_frame_reply 48 220 ltac:(discriminate) ltac:(discriminate))
                eq_refl (query_frame_reply 48 220 ltac:(discriminate) ltac:(discriminate)))
    as (Hs & Hg & _).
  split; [exact Hs | exact Hg].
Defined.

(** X7. The check of the constructor is what keeps the table look-ups
    of [set_source] from failing.  With a stand-by time of 20, 60 or
    None the speaker object is built, and every name of
    [INPUT_SOURCES] has a code between 2 and 111, so the command bytes
    for "on" (the code) and for "off" (the code + 128) are valid
    bytes.  With any other stand-by time the constructor raises
    [ValueError], and the look-up would raise for every source. *)
Theorem constructor_keeps_codes_valid
    (step maxv : spec_float) (sb : option Z) (inv : bool) :
  (In sb STANDBY_OPTIONS
   /\ new_speaker step maxv sb inv = Ok (mkSpeaker step maxv sb inv)
   /\ forall source,
        is_Some (Py.dict_get source INPUT_SOURCES) ->
        exists c, source_code (mkSpeaker step maxv sb inv) source = Ok c
                  /\ 2 <= c <= 111
                  /\ COMMANDS.set_source (c mod 128) = Ok [83; 48; 129; c]
                  /\ COMMANDS.set_source (c mod 128 + 128) = Ok [83; 48; 129; c + 128])
  \/ (~ In sb STANDBY_OPTIONS
      /\ new_speaker step maxv sb inv = Raise ValueError
      /\ forall source c, source_code (mkSpeaker step maxv sb inv) source <> Ok c).
Proof.
  destruct (decide (sb ∈ STANDBY_OPTIONS)) as [Hin | Hnin].
  - left. unfold new_speaker. rewrite (bool_decide_eq_true_2 _ Hin).
    apply list_elem_of_In in Hin.
    split; [exact Hin |]. split; [reflexivity |].
    intros source Hs. apply dict_get_input_sources in Hs.
    destruct Hin as [<- | [<- | [<- | []]]];
      destruct Hs as [-> | [<- | [<- | [<- | [<- | [<- | []]]]]]];
      destruct inv; eexists;
      (split; [vm_compute; reflexivity |]);
      (split; [lia |]); split; vm_compute; reflexivity.
  - right. unfold new_speaker. rewrite (bool_decide_eq_false_2 _ Hnin).
    split; [intros H; apply Hnin, list_elem_of_In, H |].
    split; [reflexivity |].
    intros source c. unfold source_code. cbn [cfg_standby_time inverse_speaker_mode].
    destruct (Py.dict_get source INPUT_SOURCES) as [mapping |] eqn:Es;
      [| discriminate].
    assert (Py.dict_get sb mapping = None) as ->; [| discriminate].
    assert (is_Some (Py.dict_get source INPUT_SOURCES)) as Hs by (rewrite Es; eauto).
    apply dict_get_input_sources in Hs.
    assert (sb <> Some 20 /\ sb <> Some 60 /\ sb <> None) as (H20 & H60 & HN).
    { repeat split; intros ->; apply Hnin; apply list_elem_of_In; simpl; auto. }
    destruct Hs as [-> | [<- | [<- | [<- | [<- | [<- | []]]]]]];
      vm_compute in Es; injection Es as <-; simpl;
      repeat (case_decide; [congruence |]); reflexivity.
Qed.

(** ** The retried operations *)

Lemma retry_from_raise_inv {A} n attempt (body : M A) w e w' :
  retry_from n attempt body w = (Raise e, w') -> e = RetryError.
Proof.
  revert attempt w. induction n as [| n IH]; intros attempt w; simpl.
  - intros H. inversion H. reflexivity.
  - destruct (body w) as [[a | e0 |] w1]; intros H; try discriminate.
    destruct n.
    + inversion H. reflexivity.
    + unfold bind, log in H. simpl in H. exact (IH _ _ H).
Qed.

Lemma bind_raise_inv {A B} (m : M A) (k : A -> M B) w e w' :
  bind m k w = (Raise e, w') ->
  m w = (Raise e, w') \/ exists a w1, m w = (Ok a, w1) /\ k a w1 = (Raise e, w').
Proof.
  unfold bind. destruct (m w) as [[a | e0 |] w1]; intros H.
  - right. exists a, w1. split; [reflexivity | exact H].
  - left. inversion H; subst. reflexivity.
  - discriminate.
Qed.

Lemma poll_power_raise_inv env fuel n target w e w' :
  poll_power env fuel n target w = (Raise e, w') -> e = RetryError.
Proof.
  revert w. induction n as [| n IH]; intros w; simpl; [discriminate |].
  intros H. apply bind_raise_inv in H as [H | (on & w1 & _ & H)].
  - unfold get_is_on in H. apply bind_raise_inv in H as [H | (st & w1 & _ & H)];
      [| discriminate].
    exact (retry_from_raise_inv _ _ _ _ _ _ H).
  - destruct (Bool.eqb on target); [discriminate |].
    apply bind_raise_inv in H as [H | (u & w2 & _ & H)]; [discriminate |].
    exact (IH _ H).
Qed.

(** X8. The only exception that leaves an operation wrapped in
    [@retry] is tenacity's [RetryError]: this holds for
    [send_message], [get_state], [set_source],
    [get_volume_and_is_muted] and [_set_volume], and so for
    [get_source], [mute], [unmute], [turn_on] and [turn_off], which
    only call those.  The [ConnectionError] of [get_state] and the
    [TimeoutError] of the loop in [set_source] never reach the
    caller. *)
Theorem only_retry_error_escapes
    (env : Env) (fuel : nat) (self : Speaker) (w w' : World) (e : exn) :
  (forall msg, send_message env fuel msg w = (Raise e, w') -> e = RetryError)
  /\ (get_state env fuel w = (Raise e, w') -> e = RetryError)
  /\ (get_source env fuel w = (Raise e, w') -> e = RetryError)
  /\ (forall source state,
        set_source env fuel self source state w = (Raise e, w') -> e = RetryError)
  /\ (forall scale,
        get_volume_and_is_muted env fuel scale w = (Raise e, w') -> e = RetryError)
  /\ (forall volume, _set_volume env fuel volume w = (Raise e, w') -> e = RetryError)
  /\ (mute env fuel w = (Raise e, w') -> e = RetryError)
  /\ (unmute env fuel w = (Raise e, w') -> e = RetryError)
  /\ (forall source, turn_on env fuel self source w = (Raise e, w') -> e = RetryError)
  /\ (turn_off env fuel self w = (Raise e, w') -> e = RetryError).
Proof.
  assert (forall w0 w1 e0, get_state env fuel w0 = (Raise e0, w1) -> e0 = RetryError)
    as Hgs by (intros w0 w1 e0; apply retry_from_raise_inv).
  assert (forall s st w0 w1 e0,
            set_source env fuel self s st w0 = (Raise e0, w1) -> e0 = RetryError)
    as Hss by (intros s st w0 w1 e0; apply retry_from_raise_inv).
  assert (forall v w0 w1 e0,
            _set_volume env fuel v w0 = (Raise e0, w1) -> e0 = RetryError)
    as Hsv by (intros v w0 w1 e0; apply retry_from_raise_inv).
  assert (forall m : Z -> M unit,
            (forall v w0 w1 e0, m v w0 = (Raise e0, w1) -> e0 = RetryError) ->
            (let* (volume, _) := get_volume_and_is_muted env fuel false in
             let* v := lift (py_int volume) in m v) w = (Raise e, w') ->
            e = RetryError) as Hmute.
  { intros m Hm H. apply bind_raise_inv in H as [H | ([vol mu] & w1 & Hget & H)].
    - exact (retry_from_raise_inv _ _ _ _ _ _ H).
    - unfold get_volume_and_is_muted, retry in Hget.
      apply retry_from_inv_ok in Hget as (w0 & Hbody).
      apply bind_inv_ok in Hbody as (x & w2 & _ & Hret).
      inversion Hret; subst. simpl in H.
      unfold bind at 1 in H. simpl in H. exact (Hm _ _ _ _ H). }
  repeat split.
  - intros msg. apply retry_from_raise_inv.
  - apply Hgs.
  - intros H. unfold get_source in H.
    apply bind_raise_inv in H as [H | (st & w1 & _ & H)]; [| discriminate].
    exact (Hgs _ _ _ H).
  - intros source state. apply Hss.
  - intros scale. apply retry_from_raise_inv.
  - intros volume. apply Hsv.
  - intros H. exact (Hmute (fun v => _set_volume env fuel (v mod 128 + 128))
                       (fun v => Hsv _) H).
  - intros H. exact (Hmute (fun v => _set_volume env fuel (v mod 128))
                       (fun v => Hsv _) H).
  - intros source H. unfold turn_on in H.
    apply bind_raise_inv in H as [H | (st & w1 & _ & H)]; [exact (Hgs _ _ _ H) |].
    destruct (is_on st); [discriminate |].
    apply bind_raise_inv in H as [H | (u & w2 & _ & H)]; [exact (Hss _ _ _ _ _ H) |].
    exact (poll_power_raise_inv _ _ _ _ _ _ _ H).
  - intros H. unfold turn_off in H.
    apply bind_raise_inv in H as [H | (st & w1 & _ & H)]; [exact (Hgs _ _ _ H) |].
    destruct (negb (is_on st)); [discriminate |].
    apply bind_raise_inv in H as [H | (u & w2 & _ & H)]; [exact (Hss _ _ _ _ _ H) |].
    exact (poll_power_raise_inv _ _ _ _ _ _ _ H).
Qed.

Lemma retry_from_pure_raise {A} (body : M A) e n :
  (forall w, body w = (Raise e, w)) ->
  forall attempt w,
    retry_from (S n) attempt body w
    = (Raise RetryError,
       {| is_connected := is_connected w; _is_online := _is_online w;
          history := map EBackoff (rev (seq attempt n)) ++ history w |}).
Proof.
  intros Hb. induction n as [| n IH]; intros attempt [c o h].
  - simpl. rewrite Hb. reflexivity.
  - change (retry_from (S (S n)) attempt body {| is_connected := c; _is_online := o; history := h |})
      with (match body {| is_connected := c; _is_online := o; history := h |} with
            | (Raise _, w') =>
                (log (EBackoff attempt) ;;; retry_from (S n) (S attempt) body) w'
            | r => r
            end).
    rewrite Hb. unfold bind, log. cbn [is_connected _is_online history].
    rewrite IH. cbn [is_connected _is_online history].
    f_equal. f_equal.
    change (seq attempt (S n)) with (attempt :: seq (S attempt) n).
    cbn [rev]. rewrite map_app, <- app_assoc. reflexivity.
Qed.

(** X9. [set_source] with a name that is not a key of [INPUT_SOURCES]
    fails its assertion in each of the ten attempts and ends in
    [RetryError], not [AssertionError]; no connection is opened and
    nothing is written: the history only gains the nine waits between
    the attempts. *)
Theorem set_source_unknown_name
    (env : Env) (fuel : nat) (self : Speaker) (source state : string) (w : World) :
  Py.dict_get source INPUT_SOURCES = None ->
  set_source env fuel self source state w
  = (Raise RetryError,
     {| is_connected := is_connected w; _is_online := _is_online w;
        history := map EBackoff [9; 8; 7; 6; 5; 4; 3; 2; 1]%nat ++ history w |}).
Proof.
  intros Hs. unfold set_source, retry.
  apply (retry_from_pure_raise _ AssertionError 9).
  intros w0. unfold set_source_once. rewrite Hs.
  rewrite bool_decide_eq_false_2; [reflexivity |].
  intros [x Hx]. discriminate Hx.
Qed.

Lemma set_source_unknown_name_witness :
  Py.dict_get "Optical" INPUT_SOURCES = None /\
  set_source (simulated 10 30) 1 speaker_20_LR "Optical" "on" init_world
  = (Raise RetryError,
     mkWorld false false (map EBackoff [9; 8; 7; 6; 5; 4; 3; 2; 1]%nat)).
Proof.
  split; [reflexivity |].
  exact (set_source_unknown_name (simulated 10 30) 1 speaker_20_LR "Optical" "on"
           init_world eq_refl).
Defined.

(** ** What a successful call tells the caller *)

Lemma _send_message_inv_ok env msg w d w' :
  _send_message env msg w = (Ok d, w') ->
  w' = push (EWrite msg) w
  /\ is_connected w = true
  /\ exists raw, env_read env (history w') = ReadData raw /\ d = take 100 raw.
Proof.
  unfold _send_message, bind, get_world, py_assert, log.
  destruct (is_connected w) eqn:Ec; simpl; [| discriminate].
  destruct (env_read env (EWrite msg :: history w)) as [raw |] eqn:Er; simpl;
    [| discriminate].
  intros H. inversion H; subst. unfold push. simpl.
  split; [reflexivity |]. split; [reflexivity |].
  exists raw. split; [exact Er | reflexivity].
Qed.

Lemma send_message_inv_ok env fuel msg w v w' :
  send_message env fuel msg w = (Ok v, w') ->
  is_connected w' = true
  /\ exists h raw r,
       history w' = EWrite msg :: h
       /\ env_read env (history w') = ReadData raw
       /\ _parse_response msg (take 100 raw) = Ok (Some r)
       /\ Py.index_m2 r = Some v.
Proof.
  unfold send_message, retry. intros H.
  apply retry_from_inv_ok in H as (w0 & H). unfold send_message_once in H.
  apply bind_inv_ok in H as (_ & w1 & _ & H).
  apply bind_inv_ok in H as (d & w2 & Hs & H).
  apply _send_message_inv_ok in Hs as (-> & Hc & raw & Hr & ->).
  apply bind_inv_ok in H as (parsed & w3 & Hp & H).
  unfold lift in Hp. inversion Hp as [[Hp' Hw]]. subst w3.
  destruct parsed as [r |]; [| discriminate].
  destruct (Py.index_m2 r) as [x |] eqn:Ei; [| discriminate].
  inversion H; subst.
  split; [exact Hc |].
  exists (history w1), raw, r. repeat split; assumption.
Qed.

Lemma get_state_inv_ok env fuel w st w' :
  get_state env fuel w = (Ok st, w') ->
  is_connected w' = true
  /\ exists h raw r v,
       history w' = EWrite COMMANDS.get_source :: h
       /\ env_read env (history w') = ReadData raw
       /\ _parse_response COMMANDS.get_source (take 100 raw) = Ok (Some r)
       /\ Py.index_m2 r = Some v
       /\ decode_state v = Ok st.
Proof.
  unfold get_state, retry. intros H.
  apply retry_from_inv_ok in H as (w0 & H).
  apply bind_inv_ok in H as (v & w1 & Hs & H).
  unfold lift in H. inversion H as [[Hd Hw]]. subst w1.
  apply send_message_inv_ok in Hs as (Hc & h & raw & r & Hh & Hr & Hp & Hi).
  split; [exact Hc |]. exists h, raw, r, v. repeat split; assumption.
Qed.

Lemma poll_source_inv_ok env fuel n name w w' :
  poll_source env fuel n name w = (Ok tt, w') ->
  exists w0 st, get_state env fuel w0 = (Ok st, w') /\ source st = name
                /\ exists evs, history w0 = evs ++ history w.
Proof.
  revert w. induction n as [| n IH]; intros w; simpl; [discriminate |].
  intros H. apply bind_inv_ok in H as (cur & w1 & Hg & H).
  destruct (String.eqb_spec cur name) as [-> | _].
  - inversion H; subst. unfold get_source in Hg.
    apply bind_inv_ok in Hg as (st & w2 & Hst & Hret). inversion Hret; subst.
    exists w, st. split; [exact Hst |]. split; [reflexivity |].
    exists []. reflexivity.
  - apply bind_inv_ok in H as (u & w2 & Hl & H).
    unfold sleep, log in Hl. inversion Hl; subst.
    apply IH in H as (w0 & st & Hst & Hs & evs & Hh).
    exists w0, st. split; [exact Hst |]. split; [exact Hs |].
    assert (emits (fun _ => True) (get_source env fuel)) as Hem
      by (apply emits_get_source; auto).
    destruct (Hem _ _ _ Hg) as (evs1 & H1 & _).
    exists (evs ++ ESleep 500 :: evs1). rewrite Hh. simpl. rewrite H1.
    rewrite <- app_assoc. reflexivity.
Qed.

(** X10. When [set_source] returns, whatever the peer did on the way:
    the name is one of the five plain sources (never the alias or an
    unknown name), the connection is open, the set command with the
    code of that source (plus 128 for "off") was written, and the
    last thing on the wire is a source query whose reply decodes to
    the requested source. *)
Theorem set_source_returns
    (env : Env) (fuel : nat) (self : Speaker) (name state : string) (w w' : World) :
  set_source env fuel self name state w = (Ok tt, w') ->
  In name decoded_names
  /\ is_connected w' = true
  /\ (exists c,
        source_code self name = Ok c
        /\ In (EWrite [83; 48; 129;
                       if String.eqb state "off" then c mod 128 + 128 else c mod 128])
              (history w'))
  /\ (exists h raw r v st,
        history w' = EWrite COMMANDS.get_source :: h
        /\ env_read env (history w') = ReadData raw
        /\ _parse_response COMMANDS.get_source (take 100 raw) = Ok (Some r)
        /\ Py.index_m2 r = Some v
        /\ decode_state v = Ok st
        /\ source st = name).
Proof.
  unfold set_source, retry. intros H.
  apply retry_from_inv_ok in H as (w0 & H). unfold set_source_once in H.
  apply bind_inv_ok in H as (_ & w1 & _ & H).
  apply bind_inv_ok in H as (c & w2 & Hc & H).
  unfold lift in Hc. inversion Hc as [[Hc' Hw2]]. subst w2.
  apply bind_inv_ok in H as (msg & w3 & Hm & H).
  unfold lift, COMMANDS.set_source, bytes in Hm.
  destruct (forallb Py.is_byte _) in Hm; [| discriminate].
  inversion Hm as [[Hmsg Hw3]]. subst w3. subst msg.
  apply bind_inv_ok in H as (response & w4 & Hs & H).
  apply send_message_inv_ok in Hs as (_ & h4 & _ & _ & Hh4 & _).
  apply bind_inv_ok in H as (u & w5 & Hresp & H).
  assert (w5 = w4) as ->.
  { destruct (negb (response =? _RESPONSE_OK)); [discriminate |].
    inversion Hresp. reflexivity. }
  apply poll_source_inv_ok in H as (wq & st & Hst & Hsrc & evs & Hevs).
  assert (emits (fun _ => True) (get_state env fuel)) as Hem
    by (apply emits_get_state; auto).
  destruct (Hem _ _ _ Hst) as (evs' & Hh' & _).
  apply get_state_inv_ok in Hst as (Hconn & h & raw & r & v & Hh & Hr & Hp & Hi & Hd).
  split.
  { rewrite <- Hsrc.
    exact (proj1 (decode_state_from_table_aux v st F64.zero F64.zero Hd)). }
  split; [exact Hconn |].
  split.
  - exists c. split; [exact Hc' |].
    rewrite Hh', Hevs, Hh4. apply in_or_app. right. apply in_or_app. right.
    left. reflexivity.
  - exists h, raw, r, v, st. repeat split; assumption.
Qed.

Lemma set_source_returns_witness :
  set_source (simulated 10 30) 1 speaker_20_LR "Opt" "on" init_world
    = (Ok tt, mkWorld true true
                [EWrite [71; 48; 128]; EWrite [83; 48; 129; 11]; EConnect]) /\
  In "Opt" decoded_names /\
  decode_state 11 = Ok (mkState "Opt" true (Some 20) "L/R").
Proof.
  pose proof (set_source_returns (simulated 10 30) 1 speaker_20_LR "Opt" "on"
                init_world _ eq_refl) as (H & _).
  split; [reflexivity |]. split; [exact H | reflexivity].
Defined.

(** ** Opening the connection *)

Section OpenConnection.

Variable env : Env.

Lemma open_connection_loop_cases fuel retries w r w' :
  is_connected w = false ->
  open_connection_loop env fuel retries w = (r, w') ->
  (r = Ok tt /\ is_connected w' = true /\ _is_online w' = true)
  \/ (r = Raise ConnectionRefusedError
      /\ is_connected w' = false /\ _is_online w' = false)
  \/ (r = Diverge /\ is_connected w' = false).
Proof.
  revert retries w. induction fuel as [| fuel IH]; intros retries w Hc; simpl.
  - intros H. inversion H; subst. right. right. auto.
  - destruct (retries <? _MAX_CONNECTION_RETRIES)%nat.
    + unfold bind at 1. unfold connect_attempt, bind, get_world, log, ret. simpl.
      destruct (env_connect env (history w)); simpl.
      * intros H. inversion H; subst. left. auto.
      * apply IH. exact Hc.
      * apply IH. exact Hc.
      * intros H. inversion H; subst. right. left. auto.
    + intros H. inversion H; subst. right. left. auto.
Qed.

Lemma open_connection_post_aux (fuel : nat) (w w' : World) (r : outcome unit) :
  flags_agree w ->
  open_connection env fuel w = (r, w') ->
  flags_agree w'
  /\ (is_connected w = true -> r = Ok tt /\ w' = w)
  /\ (r = Ok tt -> is_connected w' = true /\ _is_online w' = true)
  /\ (forall e, r = Raise e ->
        e = ConnectionRefusedError
        /\ is_connected w' = false /\ _is_online w' = false)
  /\ (exists evs, history w' = evs ++ history w
                  /\ Forall (fun e => is_write e = false) evs).
Proof.
  intros Hag Hrun.
  assert (exists evs, history w' = evs ++ history w
                      /\ Forall (fun e => is_write e = false) evs) as Hhist.
  { apply (emits_open_connection (fun e => is_write e = false) env fuel)
      in Hrun; auto. }
  unfold open_connection, bind, get_world in Hrun.
  destruct (is_connected w) eqn:Ec.
  - inversion Hrun; subst. unfold flags_agree in *.
    repeat split; auto; try discriminate.
  - apply open_connection_loop_cases in Hrun; [| exact Ec].
    unfold flags_agree.
    destruct Hrun as [(-> & H1 & H2) | [(-> & H1 & H2) | (-> & H1)]];
      (split; [intros; congruence |]);
      (split; [discriminate |]);
      (split; [intros; try discriminate; auto |]);
      (split; [| exact Hhist]);
      intros e He; inversion He; subst; auto.
Qed.

(** X11. What [open_connection] leaves behind.  With an open
    connection it does nothing.  Otherwise, when it returns the
    connection is open and the speaker is marked online; when it
    raises, the exception is [ConnectionRefusedError], there is no
    connection and the speaker is marked offline.  It never writes to
    the socket, and it keeps the two flags in agreement. *)
Theorem open_connection_post (fuel : nat) (w w' : World) (r : outcome unit) :
  flags_agree w ->
  open_connection env fuel w = (r, w') ->
  flags_agree w'
  /\ (is_connected w = true -> r = Ok tt /\ w' = w)
  /\ (r = Ok tt -> is_connected w' = true /\ _is_online w' = true)
  /\ (forall e, r = Raise e ->
        e = ConnectionRefusedError
        /\ is_connected w' = false /\ _is_online w' = false)
  /\ (exists evs, history w' = evs ++ history w
                  /\ Forall (fun e => is_write e = false) evs).
Proof. intros Hag Hrun. exact (open_connection_post_aux fuel w w' r Hag Hrun). Qed.

Lemma connects_app evs1 evs2 :
  connects (evs1 ++ evs2) = (connects evs1 + connects evs2)%nat.
Proof. unfold connects. rewrite List.filter_app, length_app. reflexivity. Qed.

Lemma open_connection_loop_bounded n :
  forall fuel retries w r w',
    (forall h, env_connect env h <> ConnBlocking) ->
    (retries + n = _MAX_CONNECTION_RETRIES)%nat ->
    (n < fuel)%nat ->
    open_connection_loop env fuel retries w = (r, w') ->
    r <> Diverge
    /\ exists evs, history w' = evs ++ history w /\ (connects evs <= n)%nat.
Proof.
  induction n as [| n IH]; intros fuel retries w r w' Hnb Hn Hf.
  - destruct fuel as [| fuel]; [lia |]. simpl.
    destruct (Nat.ltb_spec retries _MAX_CONNECTION_RETRIES) as [Hlt | _]; [lia |].
    intros H. inversion H; subst. split; [discriminate |].
    exists []. split; [reflexivity | unfold connects; simpl; lia].
  - destruct fuel as [| fuel]; [lia |]. simpl.
    destruct (Nat.ltb_spec retries _MAX_CONNECTION_RETRIES) as [_ | Hge]; [| lia].
    unfold bind at 1. unfold connect_attempt, bind, get_world, log, ret. simpl.
    destruct (env_connect env (history w)) eqn:Ec.
    + intros H. inversion H; subst. split; [discriminate |].
      exists [EConnect]. split; [reflexivity | unfold connects; simpl; lia].
    + intros H. apply IH in H; [| exact Hnb | lia | lia].
      destruct H as (Hd & evs & Hh & Hb). split; [exact Hd |].
      exists (evs ++ [ESleep 500; EConnect]). split.
      * rewrite Hh. simpl. rewrite <- app_assoc. reflexivity.
      * rewrite connects_app. unfold connects at 2. simpl. lia.
    + destruct (Hnb _ Ec).
    + intros H. inversion H; subst. split; [discriminate |].
      exists [EConnect]. split; [reflexivity | unfold connects; simpl; lia].
Qed.

(** X12. When the peer never causes a [BlockingIOError],
    [open_connection] ends (eleven rounds of the loop are enough) after
    at most ten connection attempts. *)
Theorem open_connection_bounded (fuel : nat) (w w' : World) (r : outcome unit) :
  (forall h, env_connect env h <> ConnBlocking) ->
  (_MAX_CONNECTION_RETRIES < fuel)%nat ->
  open_connection env fuel w = (r, w') ->
  r <> Diverge
  /\ exists evs, history w' = evs ++ history w
                 /\ (connects evs <= _MAX_CONNECTION_RETRIES)%nat.
Proof.
  intros Hnb Hf. unfold open_connection, bind, get_world.
  destruct (is_connected w).
  - intros H. inversion H; subst. split; [discriminate |].
    exists []. split; [reflexivity | unfold connects; simpl; lia].
  - apply (open_connection_loop_bounded _MAX_CONNECTION_RETRIES);
      [exact Hnb | reflexivity | exact Hf].
Qed.

Lemma open_connection_loop_blocking fuel :
  forall retries w,
    (forall h, env_connect env h = ConnBlocking) ->
    (retries < _MAX_CONNECTION_RETRIES)%nat ->
    fst (open_connection_loop env fuel retries w) = Diverge.
Proof.
  induction fuel as [| fuel IH]; intros retries w Hb Hr; simpl.
  - reflexivity.
  - destruct (Nat.ltb_spec retries _MAX_CONNECTION_RETRIES) as [_ | Hge]; [| lia].
    unfold bind at 1. unfold connect_attempt, bind, get_world, log, ret. simpl.
    rewrite Hb. simpl. apply IH; [exact Hb |].
    unfold _MAX_CONNECTION_RETRIES. lia.
Qed.

End OpenConnection.

Lemma open_connection_post_witness :
  flags_agree init_world /\
  open_connection host_down 1 init_world
  = (Raise ConnectionRefusedError, mkWorld false false [EConnect]) /\
  flags_agree (mkWorld false false [EConnect]).
Proof.
  assert (flags_agree init_world) as H by (intros H; discriminate H).
  split; [exact H |]. split; [reflexivity |].
  exact (proj1 (open_connection_post host_down 1 init_world _ _ H eq_refl)).
Defined.

Lemma open_connection_bounded_witness :
  (forall h, env_connect (accepts_after 3) h <> ConnBlocking) /\
  (_MAX_CONNECTION_RETRIES < 11)%nat /\
  open_connection (accepts_after 3) 11 init_world
  = (Ok tt, mkWorld true true
              [EConnect; ESleep 500; EConnect; ESleep 500; EConnect;
               ESleep 500; EConnect]) /\
  Ok tt <> @Diverge unit.
Proof.
  assert (forall h, env_connect (accepts_after 3) h <> ConnBlocking) as H.
  { intros h. simpl.
    match goal with |- (if ?c then _ else _) <> _ => destruct c end; discriminate. }
  assert (_MAX_CONNECTION_RETRIES < 11)%nat as H'
    by (unfold _MAX_CONNECTION_RETRIES; lia).
  split; [exact H |]. split; [exact H' |]. split; [reflexivity |].
  exact (proj1 (open_connection_bounded (accepts_after 3) 11 init_world _ _
                  H H' eq_refl)).
Defined.

(** X13. When every connection attempt ends in [BlockingIOError] the
    loop of [open_connection] never ends, however many rounds it is
    given: the handler sets the counter back to 0, so it never reaches
    the bound.  [is_online] and [send_message] then do not return
    either. *)
Theorem open_connection_blocking_forever
    (env : Env) (fuel : nat) (w : World) (msg : list Z) :
  (forall h, env_connect env h = ConnBlocking) ->
  is_connected w = false ->
  fst (open_connection env fuel w) = Diverge
  /\ fst (is_online env fuel w) = Diverge
  /\ fst (send_message env fuel msg w) = Diverge.
Proof.
  intros Hb Hc.
  assert (fst (open_connection env fuel w) = Diverge) as Ho.
  { unfold open_connection, bind, get_world. rewrite Hc.
    apply open_connection_loop_blocking; [exact Hb |].
    unfold _MAX_CONNECTION_RETRIES. lia. }
  split; [exact Ho |]. split.
  - unfold is_online. destruct (open_connection env fuel w) as [[[] | e |] w1];
      simpl in Ho; try discriminate. reflexivity.
  - unfold send_message, retry, _MAX_SEND_MESSAGE_TRIES. simpl.
    unfold send_message_once. unfold bind at 1.
    destruct (open_connection env fuel w) as [[[] | e |] w1];
      simpl in Ho; try discriminate. reflexivity.
Qed.

Lemma open_connection_blocking_forever_witness :
  (forall h, env_connect blocking h = ConnBlocking) /\
  is_connected init_world = false /\
  fst (is_online blocking 1000 init_world) = Diverge.
Proof.
  split; [intros h; reflexivity |]. split; [reflexivity |].
  exact (proj1 (proj2 (open_connection_blocking_forever blocking 1000 init_world []
                         (fun h => eq_refl) eq_refl))).
Defined.

(** X14. [is_online] reports whether there is an open connection when
    it returns, and keeps the flags in agreement. *)
Theorem is_online_is_connected (env : Env) (fuel : nat) (w w' : World) (b : bool) :
  flags_agree w ->
  is_online env fuel w = (Ok b, w') ->
  b = is_connected w' /\ flags_agree w'.
Proof.
  intros Hag. unfold is_online.
  destruct (open_connection env fuel w) as [r w1] eqn:Eo.
  destruct (open_connection_post_aux env fuel w w1 r Hag Eo)
    as (Hag1 & _ & Hok & Hraise & _).
  destruct r as [[] | e |].
  - intros H. inversion H; subst. destruct (Hok eq_refl) as (H1 & H2).
    split; [congruence | exact Hag1].
  - destruct (Hraise e eq_refl) as (-> & H1 & H2).
    unfold py_assert. rewrite H2. simpl.
    intros H. inversion H; subst. split; [congruence | exact Hag1].
  - discriminate.
Qed.

Lemma is_online_is_connected_witness :
  flags_agree init_world /\
  is_online (simulated 10 30) 1 init_world = (Ok true, mkWorld true true [EConnect]) /\
  flags_agree (mkWorld true true [EConnect]).
Proof.
  assert (flags_agree init_world) as H by (intros H; discriminate H).
  split; [exact H |]. split; [reflexivity |].
  exact (proj2 (is_online_is_connected (simulated 10 30) 1 init_world _ _ H eq_refl)).
Defined.

(** ** A speaker that does not answer *)

Lemma retry_from_raise_count {A} (body : M A) (Inv : World -> Prop) (k : nat) :
  (forall w, Inv w ->
     exists e w1, body w = (Raise e, w1) /\ Inv w1
                  /\ writes (history w1) = (writes (history w) + k)%nat) ->
  (forall w a, Inv w -> Inv (push (EBackoff a) w)) ->
  forall n attempt w,
    Inv w ->
    exists w', retry_from (S n) attempt body w = (Raise RetryError, w')
               /\ Inv w'
               /\ writes (history w') = (writes (history w) + S n * k)%nat.
Proof.
  intros Hbody Hpush. induction n as [| n IH]; intros attempt w Hw.
  - destruct (Hbody w Hw) as (e & w1 & Hb & H1 & Hk). simpl. rewrite Hb.
    exists w1. split; [reflexivity |]. split; [exact H1 | lia].
  - destruct (Hbody w Hw) as (e & w1 & Hb & H1 & Hk).
    change (retry_from (S (S n)) attempt body w)
      with (match body w with
            | (Raise _, w') =>
                (log (EBackoff attempt) ;;; retry_from (S n) (S attempt) body) w'
            | r => r
            end).
    rewrite Hb. unfold bind, log.
    destruct (IH (S attempt) (push (EBackoff attempt) w1) (Hpush _ _ H1))
      as (w' & Hr & H' & Hk').
    unfold push in Hr. rewrite Hr.
    exists w'. split; [reflexivity |]. split; [exact H' |].
    rewrite Hk'. unfold push. simpl history. unfold writes at 1. simpl.
    fold (writes (history w1)). rewrite Hk. lia.
Qed.

(** X15. On an open connection to a speaker that never answers, every
    read times out, every attempt fails, and the retries multiply:
    [send_message] writes its message 5 times before it raises
    [RetryError], and [get_state] and [get_volume_and_is_muted] each
    write their query 50 times (10 attempts of 5). *)
Theorem silent_speaker_traffic (env : Env) (fuel : nat) (w : World) :
  is_connected w = true ->
  (forall h, env_read env h = ReadTimeout) ->
  (forall msg, exists w',
      send_message env fuel msg w = (Raise RetryError, w')
      /\ writes (history w') = (writes (history w) + 5)%nat)
  /\ (exists w',
        get_state env fuel w = (Raise RetryError, w')
        /\ writes (history w') = (writes (history w) + 50)%nat)
  /\ (forall scale, exists w',
        get_volume_and_is_muted env fuel scale w = (Raise RetryError, w')
        /\ writes (history w') = (writes (history w) + 50)%nat).
Proof.
  intros Hc Hsilent.
  set (Inv := fun w0 : World => is_connected w0 = true).
  assert (forall w0 a, Inv w0 -> Inv (push (EBackoff a) w0)) as Hpush
    by (intros w0 a H; exact H).
  assert (forall msg w0, Inv w0 ->
            exists e w1, send_message_once env fuel msg w0 = (Raise e, w1)
                         /\ Inv w1
                         /\ writes (history w1) = (writes (history w0) + 1)%nat)
    as Honce.
  { intros msg w0 H0. exists UnboundLocalError, (push (EWrite msg) w0).
    split; [| split; [exact H0 |]].
    - unfold send_message_once.
      rewrite (bind_ok _ _ _ _ _ (open_connection_connected env fuel w0 H0)).
      rewrite (bind_raise _ _ _ _ _
                 (_send_message_timeout env msg w0 H0 (Hsilent _))).
      reflexivity.
    - unfold push, writes. simpl. lia. }
  assert (forall msg w0, Inv w0 ->
            exists w1, send_message env fuel msg w0 = (Raise RetryError, w1)
                       /\ Inv w1
                       /\ writes (history w1) = (writes (history w0) + 5)%nat)
    as Hsend.
  { intros msg w0 H0. unfold send_message, retry, _MAX_SEND_MESSAGE_TRIES.
    exact (retry_from_raise_count _ Inv 1 (Honce msg) Hpush 4 1%nat w0 H0). }
  assert (forall {A} msg (k : Z -> M A) w0, Inv w0 ->
            exists w1,
              retry _MAX_ATTEMPT_TILL_SUCCESS
                (bind (send_message env fuel msg) k) w0 = (Raise RetryError, w1)
              /\ writes (history w1) = (writes (history w0) + 50)%nat) as Hten.
  { intros A msg k w0 H0. unfold retry, _MAX_ATTEMPT_TILL_SUCCESS.
    destruct (retry_from_raise_count (bind (send_message env fuel msg) k) Inv 5)
      with (n := 9%nat) (attempt := 1%nat) (w := w0) as (w1 & Hr & _ & Hk);
      [| exact Hpush | exact H0 |].
    - intros w2 H2. destruct (Hsend msg w2 H2) as (w3 & Hs & H3 & Hk).
      exists RetryError, w3. split; [| split; assumption].
      apply bind_raise. exact Hs.
    - exists w1. split; [exact Hr | exact Hk]. }
  split; [| split].
  - intros msg. destruct (Hsend msg w Hc) as (w' & Hs & _ & Hk). eauto.
  - apply Hten. exact Hc.
  - intros scale. apply Hten. exact Hc.
Qed.

Lemma silent_speaker_traffic_witness :
  is_connected (mkWorld true true []) = true /\
  (forall h, env_read silent h = ReadTimeout) /\
  exists w', get_state silent 1 (mkWorld true true []) = (Raise RetryError, w')
             /\ writes (history w') = 50%nat.
Proof.
  split; [reflexivity |]. split; [intros h; reflexivity |].
  exact (proj1 (proj2 (silent_speaker_traffic silent 1 (mkWorld true true [])
                         eq_refl (fun h => eq_refl)))).
Defined.

(** ** Closing and reopening *)

(** X16. [_disconnect] drops the connection and leaves [_is_online]
    and the history alone; the next [get_state] opens a connection
    again before it sends its query, and succeeds when the peer
    accepts and answers. *)
Theorem disconnect_then_get_state
    (env : Env) (fuel : nat) (w : World) (v : Z) (d : list Z) (st : State) :
  env_connect env (history w) = ConnOk ->
  env_read env (EWrite COMMANDS.get_source :: EConnect :: history w) = ReadData d ->
  query_reply 48 v d ->
  decode_state v = Ok st ->
  _disconnect w
    = (Ok tt, {| is_connected := false; _is_online := _is_online w;
                 history := history w |})
  /\ (_disconnect ;;; get_state env (S fuel)) w
     = (Ok st, {| is_connected := true; _is_online := true;
                  history := EWrite COMMANDS.get_source :: EConnect :: history w |}).
Proof.
  intros Hc Hr Hq Hd.
  assert (_disconnect w
          = (Ok tt, {| is_connected := false; _is_online := _is_online w;
                       history := history w |})) as Hdis.
  { unfold _disconnect, bind, get_world, set_connected, ret.
    destruct w as [c o h]. destruct c; reflexivity. }
  split; [exact Hdis |].
  rewrite (bind_ok _ _ _ _ _ Hdis).
  set (wd := {| is_connected := false; _is_online := _is_online w;
                history := history w |}).
  exact (get_state_query env (S fuel) wd _ v d st
           (open_connection_accept env fuel wd eq_refl Hc) Hr Hq Hd).
Qed.

Lemma disconnect_then_get_state_witness :
  (_disconnect ;;; get_state (simulated 10 30) 1)
    (mkWorld true true [EWrite [71; 48; 128]; EConnect])
  = (Ok (mkState "Aux" true (Some 20) "L/R"),
     mkWorld true true
       [EWrite [71; 48; 128]; EConnect; EWrite [71; 48; 128]; EConnect]).
Proof.
  exact (proj2 (disconnect_then_get_state (simulated 10 30) 0
                  (mkWorld true true [EWrite [71; 48; 128]; EConnect])
                  10 (query_frame 48 10) (mkState "Aux" true (Some 20) "L/R")
                  eq_refl eq_refl
                  (query_frame_reply 48 10 ltac:(discriminate) ltac:(discriminate))
                  eq_refl)).
Defined.

(** ** Changing the volume of a speaker that is not muted *)

Section Volume.

Variable env : Env.
Variable fuel : nat.
Variable self : Speaker.

Lemma set_volume_ack value w w1 level a :
  let volume := F64.max F64.zero (F64.min (maximum_volume self) value) in
  F64.to_int (F64.mul volume _VOLUME_SCALE) = Ok level ->
  Py.is_byte level = true ->
  open_connection env fuel w = (Ok tt, w1) ->
  env_read env (EWrite [83; 37; 129; level] :: history w1) = ReadData a ->
  ack_reply a ->
  set_volume env fuel self value w
  = (Ok volume, push (EWrite [83; 37; 129; level]) w1).
Proof.
  intros volume Hl Hb Ho Hr Ha. unfold set_volume. fold volume.
  unfold bind at 1. unfold lift. rewrite Hl.
  rewrite (bind_ok _ _ _ _ _ (_set_volume_ack env fuel level w w1 a Hb Ho Hr Ha)).
  reflexivity.
Qed.

Lemma change_volume_unmuted_aux
    (up : bool) (w w1 : World) (v v2 level : Z) (d1 d2 a : list Z) :
  let step := if up then volume_step self else F64.neg (volume_step self) in
  let target := F64.add (F64.div (F64.of_int v) _VOLUME_SCALE) step in
  let volume := F64.max F64.zero (F64.min (maximum_volume self) target) in
  let w2 := push (EWrite COMMANDS.get_volume) (push (EWrite COMMANDS.get_volume) w1) in
  v < 128 -> v2 < 128 ->
  open_connection env fuel w = (Ok tt, w1) ->
  env_read env (EWrite COMMANDS.get_volume :: history w1) = ReadData d1 ->
  query_reply 37 v d1 ->
  env_read env (EWrite COMMANDS.get_volume :: EWrite COMMANDS.get_volume :: history w1)
    = ReadData d2 ->
  query_reply 37 v2 d2 ->
  F64.to_int (F64.mul volume _VOLUME_SCALE) = Ok level ->
  Py.is_byte level = true ->
  env_read env (EWrite [83; 37; 129; level] :: history w2) = ReadData a ->
  ack_reply a ->
  (if up then increase_volume env fuel self w else decrease_volume env fuel self w)
  = (Ok volume, push (EWrite [83; 37; 129; level]) w2).
Proof.
  intros step target volume w2 Hv Hv2 Ho Hd1 Hq1 Hd2 Hq2 Hl Hb Ha Hack.
  pose proof (open_connection_ok env fuel w w1 Ho) as Hc1.
  assert (forall w', is_connected w' = true ->
                     open_connection env fuel w' = (Ok tt, w')) as Hopen
    by (intros w'; apply open_connection_connected).
  set (wa := push (EWrite COMMANDS.get_volume) w1).
  assert (_change_volume env fuel self step w
          = (Ok volume, push (EWrite [83; 37; 129; level]) w2)) as Hch.
  { assert (get_volume env fuel w
            = (Ok (Some (PFloat (F64.div (F64.of_int v) _VOLUME_SCALE))), wa)) as Hgv.
    { unfold get_volume.
      rewrite (bind_ok _ _ _ _ _
                 (get_volume_and_is_muted_query env fuel true w w1 v d1 Ho Hd1 Hq1)).
      replace (128 <=? v) with false by (symmetry; apply Z.leb_gt; lia).
      reflexivity. }
    assert (is_muted env fuel wa = (Ok false, w2)) as Hmu.
    { unfold is_muted.
      rewrite (bind_ok _ _ _ _ _
                 (get_volume_and_is_muted_query env fuel false wa wa v2 d2
                    (Hopen wa Hc1) Hd2 Hq2)).
      replace (128 <=? v2) with false by (symmetry; apply Z.leb_gt; lia).
      reflexivity. }
    unfold _change_volume.
    rewrite (bind_ok _ _ _ _ _ Hgv), (bind_ok _ _ _ _ _ Hmu).
    unfold bind at 1. unfold ret at 1. cbn [to_float].
    exact (set_volume_ack target w2 w2 level a Hl Hb (Hopen w2 Hc1) Ha Hack). }
  destruct up; exact Hch.
Qed.

(** X17. On a speaker that is not muted, [increase_volume] and
    [decrease_volume] ask for the volume twice (once for the level,
    once for the mute flag), do not unmute, and set the volume to the
    first level read plus or minus [volume_step], clamped to
    [0, maximum_volume]; the clamped volume is returned. *)
Theorem change_volume_unmuted
    (up : bool) (w w1 : World) (v v2 level : Z) (d1 d2 a : list Z) :
  let step := if up then volume_step self else F64.neg (volume_step self) in
  let target := F64.add (F64.div (F64.of_int v) _VOLUME_SCALE) step in
  let volume := F64.max F64.zero (F64.min (maximum_volume self) target) in
  let w2 := push (EWrite COMMANDS.get_volume) (push (EWrite COMMANDS.get_volume) w1) in
  v < 128 -> v2 < 128 ->
  open_connection env fuel w = (Ok tt, w1) ->
  env_read env (EWrite COMMANDS.get_volume :: history w1) = ReadData d1 ->
  query_reply 37 v d1 ->
  env_read env (EWrite COMMANDS.get_volume :: EWrite COMMANDS.get_volume :: history w1)
    = ReadData d2 ->
  query_reply 37 v2 d2 ->
  F64.to_int (F64.mul volume _VOLUME_SCALE) = Ok level ->
  Py.is_byte level = true ->
  env_read env (EWrite [83; 37; 129; level] :: history w2) = ReadData a ->
  ack_reply a ->
  (if up then increase_volume env fuel self w else decrease_volume env fuel self w)
  = (Ok volume, push (EWrite [83; 37; 129; level]) w2).
Proof. intros step target volume w2. apply change_volume_unmuted_aux. Qed.

End Volume.

Lemma change_volume_unmuted_witness :
  open_connection (simulated 10 60) 1 init_world
    = (Ok tt, mkWorld true true [EConnect]) /\
  query_reply 37 60 (query_frame 37 60) /\
  ack_reply FULL_RESPONSE_OK /\
  decrease_volume (simulated 10 60) 1 speaker_20_LR init_world
  = (Ok (F64.max F64.zero
           (F64.min F64.one
              (F64.add (F64.div (F64.of_int 60) _VOLUME_SCALE)
                       (F64.neg (volume_step speaker_20_LR))))),
     mkWorld true true
       [EWrite [83; 37; 129; 54]; EWrite [71; 37; 128]; EWrite [71; 37; 128];
        EConnect]).
Proof.
  split; [reflexivity |].
  split; [apply query_frame_reply; discriminate |].
  split; [apply full_response_is_ack |].
  apply (change_volume_unmuted (simulated 10 60) 1 speaker_20_LR false
           init_world (mkWorld true true [EConnect]) 60 60 54
           (query_frame 37 60) (query_frame 37 60) FULL_RESPONSE_OK);
    try reflexivity; try lia;
    first [apply query_frame_reply; discriminate | apply full_response_is_ack].
Defined.

Lemma in_Z_range v n :
  0 <= v < Z.of_nat n -> In v (map Z.of_nat (seq 0 n)).
Proof.
  intros H. apply in_map_iff. exists (Z.to_nat v).
  split; [lia |]. apply in_seq. lia.
Qed.

(** X18. With the default step 0.05 and maximum 1.0, on a speaker that
    reports the level v (0..100 but not 82, not muted) and
    acknowledges the set command: [increase_volume] writes a level
    between v + 4 and v + 5 (at most 100), and [decrease_volume] one
    between v - 6 and v - 5 (at least 0).  The float arithmetic and
    the truncation of [int] make the step uneven: from 60,
    [decrease_volume] goes to 54.  The level 82 is the marker R: the
    report of a speaker that answers in five-byte frames is cut at the
    value and read as 37, so from 82 [increase_volume] writes 42 and
    [decrease_volume] writes 32. *)
Theorem default_step_levels
    (env : Env) (fuel : nat) (self : Speaker) (up : bool)
    (w w1 : World) (v : Z) (d1 d2 a : list Z) :
  let w2 := push (EWrite COMMANDS.get_volume) (push (EWrite COMMANDS.get_volume) w1) in
  volume_step self = F64.div (F64.of_int 5) (F64.of_int 100) ->
  maximum_volume self = F64.one ->
  0 <= v <= 100 ->
  v <> 82 ->
  open_connection env fuel w = (Ok tt, w1) ->
  env_read env (EWrite COMMANDS.get_volume :: history w1) = ReadData d1 ->
  query_reply 37 v d1 ->
  env_read env (EWrite COMMANDS.get_volume :: EWrite COMMANDS.get_volume :: history w1)
    = ReadData d2 ->
  query_reply 37 v d2 ->
  (forall L, env_read env (EWrite [83; 37; 129; L] :: history w2) = ReadData a) ->
  ack_reply a ->
  (exists L x,
     (if up then increase_volume env fuel self w else decrease_volume env fuel self w)
     = (Ok x, push (EWrite [83; 37; 129; L]) w2)
     /\ (if up then Z.min (v + 4) 100 <= L <= Z.min (v + 5) 100
         else Z.max (v - 6) 0 <= L <= Z.max (v - 5) 0))
  /\ fst (get_volume (simulated 10 82) 1 init_world)
     = Ok (Some (PFloat (F64.div (F64.of_int 37) _VOLUME_SCALE)))
  /\ history (snd (increase_volume (simulated 10 82) 1 speaker_20_LR init_world))
     = [EWrite [83; 37; 129; 42]; EWrite [71; 37; 128]; EWrite [71; 37; 128]; EConnect]
  /\ history (snd (decrease_volume (simulated 10 82) 1 speaker_20_LR init_world))
     = [EWrite [83; 37; 129; 32]; EWrite [71; 37; 128]; EWrite [71; 37; 128]; EConnect].
Proof.
  intros w2 Hstep Hmax Hv Hv82 Ho Hd1 Hq1 Hd2 Hq2 Ha Hack.
  split; [| vm_compute; repeat split].
  pose (s := F64.div (F64.of_int 5) (F64.of_int 100)).
  pose (lev := fun (u : bool) (x : Z) =>
                 F64.to_int
                   (F64.mul
                      (F64.max F64.zero
                         (F64.min F64.one
                            (F64.add (F64.div (F64.of_int x) _VOLUME_SCALE)
                                     (if u then s else F64.neg s))))
                      _VOLUME_SCALE)).
  pose (chk := fun (u : bool) (x : Z) =>
                 match lev u x with
                 | Ok L =>
                     Py.is_byte L
                     && (if u
                         then (Z.min (x + 4) 100 <=? L) && (L <=? Z.min (x + 5) 100)
                         else (Z.max (x - 6) 0 <=? L) && (L <=? Z.max (x - 5) 0))
                 | _ => false
                 end).
  assert (forallb (fun x => chk true x && chk false x)
                  (map Z.of_nat (seq 0 101)) = true) as Hall
    by (vm_compute; reflexivity).
  rewrite forallb_forall in Hall.
  specialize (Hall v (in_Z_range v 101 ltac:(lia))).
  apply andb_true_iff in Hall as (Hup & Hdown).
  assert (chk up v = true) as Hchk by (destruct up; assumption).
  unfold chk in Hchk. destruct (lev up v) as [L | |] eqn:EL; try discriminate.
  apply andb_true_iff in Hchk as (Hbyte & Hbounds).
  exists L. eexists. split.
  - apply (change_volume_unmuted_aux env fuel self up w w1 v v L d1 d2 a);
      try assumption; try lia; [| apply Ha].
    rewrite Hstep, Hmax. destruct up; exact EL.
  - destruct up; apply andb_true_iff in Hbounds as (H1 & H2);
      apply Z.leb_le in H1; apply Z.leb_le in H2; lia.
Qed.

Lemma default_step_levels_witness :
  volume_step speaker_20_LR = F64.div (F64.of_int 5) (F64.of_int 100) /\
  maximum_volume speaker_20_LR = F64.one /\
  0 <= 24 <= 100 /\
  24 <> 82 /\
  query_reply 37 24 (query_frame 37 24) /\
  ack_reply FULL_RESPONSE_OK /\
  exists L x,
    increase_volume (simulated 10 24) 1 speaker_20_LR init_world
    = (Ok x, mkWorld true true
               [EWrite [83; 37; 129; L]; EWrite [71; 37; 128];
                EWrite [71; 37; 128]; EConnect])
    /\ Z.min (24 + 4) 100 <= L <= Z.min (24 + 5) 100.
Proof.
  split; [reflexivity |]. split; [reflexivity |]. split; [lia |].
  split; [lia |].
  split; [apply query_frame_reply; discriminate |].
  split; [apply full_response_is_ack |].
  exact (proj1
           (default_step_levels (simulated 10 24) 1 speaker_20_LR true
              init_world (mkWorld true true [EConnect]) 24
              (query_frame 37 24) (query_frame 37 24) FULL_RESPONSE_OK
              eq_refl eq_refl ltac:(lia) ltac:(discriminate) eq_refl
              eq_refl (query_frame_reply 37 24 ltac:(discriminate) ltac:(discriminate))
              eq_refl (query_frame_reply 37 24 ltac:(discriminate) ltac:(discriminate))
              (fun _ => eq_refl) full_response_is_ack)).
Defined.

(** X19. The ends of the clamp in [set_volume], for a maximum above 0.
    A negative value (also minus infinity) is set as 0.0, wire level 0.
    A value that is not a number is set as the maximum volume: every
    comparison with it is false, so [min] keeps the maximum. *)
Theorem set_volume_negative_or_nan
    (env : Env) (fuel : nat) (self : Speaker) (value : spec_float)
    (w w1 : World) (level : Z) (a : list Z) :
  let volume := match value with
                | S754_nan => maximum_volume self
                | _ => F64.zero
                end in
  SFltb F64.zero (maximum_volume self) = true ->
  value = S754_nan \/ SFltb value F64.zero = true ->
  F64.to_int (F64.mul volume _VOLUME_SCALE) = Ok level ->
  Py.is_byte level = true ->
  open_connection env fuel w = (Ok tt, w1) ->
  env_read env (EWrite [83; 37; 129; level] :: history w1) = ReadData a ->
  ack_reply a ->
  set_volume env fuel self value w
  = (Ok volume, push (EWrite [83; 37; 129; level]) w1)
  /\ (value <> S754_nan -> level = 0).
Proof.
  intros volume Hmax Hval Hl Hb Ho Hr Ha.
  assert (F64.max F64.zero (F64.min (maximum_volume self) value) = volume) as Hclamp.
  { unfold volume, F64.max, F64.min.
    destruct Hval as [-> | Hneg].
    - simpl. rewrite Hmax. reflexivity.
    - destruct (maximum_volume self) as [sm | sm | | sm mm em];
        try discriminate Hmax;
        destruct value as [sv | sv | | sv mv ev]; try discriminate Hneg;
        try (destruct sm; try discriminate Hmax);
        try (destruct sv; try discriminate Hneg);
        reflexivity. }
  split.
  - rewrite <- Hclamp in Hl |- *.
    exact (set_volume_ack env fuel self value w w1 level a Hl Hb Ho Hr Ha).
  - intros Hnn. unfold volume in Hl. destruct value; try contradiction;
      vm_compute in Hl; injection Hl as <-; reflexivity.
Qed.

Lemma set_volume_negative_or_nan_witness :
  SFltb F64.zero (maximum_volume speaker_20_LR) = true /\
  F64.to_int (F64.mul F64.one _VOLUME_SCALE) = Ok 100 /\
  ack_reply FULL_RESPONSE_OK /\
  set_volume (simulated 10 30) 1 speaker_20_LR S754_nan init_world
  = (Ok F64.one, mkWorld true true [EWrite [83; 37; 129; 100]; EConnect]).
Proof.
  split; [reflexivity |]. split; [reflexivity |].
  split; [apply full_response_is_ack |].
  exact (proj1 (set_volume_negative_or_nan (simulated 10 30) 1 speaker_20_LR S754_nan
                  init_world (mkWorld true true [EConnect]) 100 FULL_RESPONSE_OK
                  eq_refl (or_introl eq_refl) eq_refl eq_refl eq_refl eq_refl
                  full_response_is_ack)).
Defined.


(** ** Muting and unmuting in a row *)

Section MuteUnmute.

Variable env : Env.
Variable fuel : nat.

Lemma mod_128_byte v : Py.is_byte (v mod 128) = true /\ Py.is_byte (v mod 128 + 128) = true.
Proof.
  pose proof (Z.mod_pos_bound v 128 ltac:(lia)) as Hv.
  unfold Py.is_byte. split; apply andb_true_intro; split;
    first [apply Z.leb_le | apply Z.ltb_lt]; lia.
Qed.

Lemma mute_run w w1 v d a :
  open_connection env fuel w = (Ok tt, w1) ->
  env_read env (EWrite COMMANDS.get_volume :: history w1) = ReadData d ->
  query_reply 37 v d ->
  env_read env (EWrite [83; 37; 129; v mod 128 + 128]
                  :: EWrite COMMANDS.get_volume :: history w1) = ReadData a ->
  ack_reply a ->
  mute env fuel w
  = (Ok tt, push (EWrite [83; 37; 129; v mod 128 + 128])
              (push (EWrite COMMANDS.get_volume) w1)).
Proof.
  intros Ho Hd Hq Ha Hack. unfold mute.
  rewrite (bind_ok _ _ _ _ _
             (get_volume_and_is_muted_query env fuel false w w1 v d Ho Hd Hq)).
  simpl. unfold bind at 1. simpl.
  apply (_set_volume_ack env fuel _ _ _ a (proj2 (mod_128_byte v))); try assumption.
  apply open_connection_connected. exact (open_connection_ok env fuel w w1 Ho).
Qed.

Lemma unmute_run w w1 v d a :
  open_connection env fuel w = (Ok tt, w1) ->
  env_read env (EWrite COMMANDS.get_volume :: history w1) = ReadData d ->
  query_reply 37 v d ->
  env_read env (EWrite [83; 37; 129; v mod 128]
                  :: EWrite COMMANDS.get_volume :: history w1) = ReadData a ->
  ack_reply a ->
  unmute env fuel w
  = (Ok tt, push (EWrite [83; 37; 129; v mod 128])
              (push (EWrite COMMANDS.get_volume) w1)).
Proof.
  intros Ho Hd Hq Ha Hack. unfold unmute.
  rewrite (bind_ok _ _ _ _ _
             (get_volume_and_is_muted_query env fuel false w w1 v d Ho Hd Hq)).
  simpl. unfold bind at 1. simpl.
  apply (_set_volume_ack env fuel _ _ _ a (proj1 (mod_128_byte v))); try assumption.
  apply open_connection_connected. exact (open_connection_ok env fuel w w1 Ho).
Qed.

(** X20. [mute()] followed by [unmute()] on a speaker that keeps what it
    is sent and starts at a byte v other than 82: the first writes
    v mod 128 + 128, the second reads that byte back and writes
    v mod 128, which is the byte v the speaker started with when it
    was not muted (0 <= v < 128).  The byte 82 is the marker R: the
    report of a speaker that answers in five-byte frames is cut at the
    value and read as 37, so from 82 [mute] writes 165 and [unmute]
    then writes 37. *)
Theorem mute_then_unmute
    (w w1 : World) (v : Z) (d1 a1 d2 a2 : list Z) :
  let get_msg := COMMANDS.get_volume in
  let wa := push (EWrite [83; 37; 129; v mod 128 + 128]) (push (EWrite get_msg) w1) in
  let wb := push (EWrite [83; 37; 129; v mod 128]) (push (EWrite get_msg) wa) in
  v <> 82 ->
  open_connection env fuel w = (Ok tt, w1) ->
  env_read env (EWrite get_msg :: history w1) = ReadData d1 ->
  query_reply 37 v d1 ->
  env_read env (history wa) = ReadData a1 ->
  ack_reply a1 ->
  env_read env (EWrite get_msg :: history wa) = ReadData d2 ->
  query_reply 37 (v mod 128 + 128) d2 ->
  env_read env (history wb) = ReadData a2 ->
  ack_reply a2 ->
  (mute env fuel ;;; unmute env fuel) w = (Ok tt, wb)
  /\ (0 <= v < 128 -> v mod 128 = v)
  /\ (mute (simulated 10 82) 1 ;;; unmute (simulated 10 82) 1) init_world
     = (Ok tt, mkWorld true true
                 [EWrite [83; 37; 129; 37]; EWrite [71; 37; 128];
                  EWrite [83; 37; 129; 165]; EWrite [71; 37; 128]; EConnect]).
Proof.
  intros get_msg wa wb Hv82 Ho Hd1 Hq1 Ha1 Hack1 Hd2 Hq2 Ha2 Hack2.
  split; [| split; [intros Hv; apply Z.mod_small; exact Hv | vm_compute; reflexivity]].
  rewrite (bind_ok _ _ _ _ _ (mute_run w w1 v d1 a1 Ho Hd1 Hq1 Ha1 Hack1)).
  fold wa.
  assert ((v mod 128 + 128) mod 128 = v mod 128) as Hm.
  { pose proof (Z.mod_pos_bound v 128 ltac:(lia)).
    symmetry. apply (Z.mod_unique_pos _ 128 1); lia. }
  assert (open_connection env fuel wa = (Ok tt, wa)) as Hoa.
  { apply open_connection_connected. exact (open_connection_ok env fuel w w1 Ho). }
  pose proof (unmute_run wa wa (v mod 128 + 128) d2 a2 Hoa Hd2 Hq2) as Hu.
  rewrite Hm in Hu. exact (Hu Ha2 Hack2).
Qed.

End MuteUnmute.

Lemma mute_then_unmute_witness :
  open_connection (simulated 10 50) 1 init_world
    = (Ok tt, mkWorld true true [EConnect]) /\
  query_reply 37 50 (query_frame 37 50) /\
  query_reply 37 178 (query_frame 37 178) /\
  ack_reply FULL_RESPONSE_OK /\
  (mute (simulated 10 50) 1 ;;; unmute (simulated 10 50) 1) init_world
  = (Ok tt, mkWorld true true
              [EWrite [83; 37; 129; 50]; EWrite [71; 37; 128];
               EWrite [83; 37; 129; 178]; EWrite [71; 37; 128]; EConnect]).
Proof.
  split; [reflexivity |].
  split; [apply query_frame_reply; discriminate |].
  split; [apply query_frame_reply; discriminate |].
  split; [apply full_response_is_ack |].
  exact (proj1 (mute_then_unmute (simulated 10 50) 1 init_world
                  (mkWorld true true [EConnect]) 50
                  (query_frame 37 50) FULL_RESPONSE_OK
                  (query_frame 37 178) FULL_RESPONSE_OK
                  ltac:(discriminate) eq_refl eq_refl
                  (query_frame_reply 37 50 ltac:(discriminate) ltac:(discriminate))
                  eq_refl full_response_is_ack eq_refl
                  (query_frame_reply 37 178 ltac:(discriminate) ltac:(discriminate))
                  eq_refl full_response_is_ack)).
Defined.

(** ** Turning a speaker on and off that does what it is told *)

Section TurnObeyed.

Variable env : Env.
Variable fuel : nat.
Variable self : Speaker.

Lemma poll_power_found n target w w' :
  get_is_on env fuel w = (Ok target, w') ->
  poll_power env fuel (S n) target w = (Ok tt, w').
Proof.
  intros H. simpl. rewrite (bind_ok _ _ _ _ _ H), Bool.eqb_reflx. reflexivity.
Qed.

Lemma set_source_obeyed name state c w w1 a d st :
  let i := if String.eqb state "off" then c mod 128 + 128 else c mod 128 in
  source_code self name = Ok c ->
  decode_state i = Ok st ->
  source st = name ->
  open_connection env fuel w = (Ok tt, w1) ->
  env_read env (EWrite [83; 48; 129; i] :: history w1) = ReadData a ->
  ack_reply a ->
  env_read env (EWrite COMMANDS.get_source :: EWrite [83; 48; 129; i] :: history w1)
    = ReadData d ->
  query_reply 48 i d ->
  set_source env fuel self name state w
  = (Ok tt, push (EWrite COMMANDS.get_source) (push (EWrite [83; 48; 129; i]) w1)).
Proof.
  intros i Hc Hdec Hname Ho Ha Hack Hd Hq.
  unfold set_source, retry. apply retry_from_ok.
  rewrite (set_source_once_ack env fuel self name state c w w1 a Hc Ho Ha Hack).
  fold i. apply poll_source_found. rewrite <- Hname.
  apply (get_source_query env fuel (push (EWrite [83; 48; 129; i]) w1)
           (push (EWrite [83; 48; 129; i]) w1) i d st); try assumption.
  apply open_connection_connected. exact (open_connection_ok env fuel w w1 Ho).
Qed.

(** X21. A full power transition.  The speaker reports a state whose
    power differs from the target; [turn_on] (with the given source,
    or the current one) or [turn_off] (with the current source) sends
    the set command with the code of that source for the configured
    stand-by time and orientation, plus 128 for off.  When the speaker
    acknowledges and from then on reports that byte, and neither the
    byte reported at first nor the byte sent is the marker R = 82, the
    call returns after four messages: state query, set command, one
    source poll, one power poll.  The byte 82 is the code of Wifi with
    stand-by 60 in inverse speaker mode, switched on.  The report of a
    speaker that answers in five-byte frames is then cut at the value
    and not decoded: [turn_on] towards that state sends the command
    and ends in [RetryError], and so does [turn_off] from that state,
    before any command is sent. *)
Theorem turn_on_off_obeyed
    (target : bool) (src : option string) (w w1 : World)
    (r0 c : Z) (st0 : State) (d0 a d1 d2 : list Z) :
  let name := if target then source_or src (source st0) else source st0 in
  let i := if target then c mod 128 else c mod 128 + 128 in
  let get_msg := COMMANDS.get_source in
  let set_msg := [83; 48; 129; i] in
  let wa := push (EWrite get_msg) w1 in
  let wb := push (EWrite get_msg) (push (EWrite set_msg) wa) in
  In (cfg_standby_time self) STANDBY_OPTIONS ->
  In name decoded_names ->
  source_code self name = Ok c ->
  r0 <> 82 ->
  i <> 82 ->
  open_connection env fuel w = (Ok tt, w1) ->
  env_read env (EWrite get_msg :: history w1) = ReadData d0 ->
  query_reply 48 r0 d0 ->
  decode_state r0 = Ok st0 ->
  is_on st0 = negb target ->
  env_read env (EWrite set_msg :: history wa) = ReadData a ->
  ack_reply a ->
  env_read env (EWrite get_msg :: EWrite set_msg :: history wa) = ReadData d1 ->
  query_reply 48 i d1 ->
  env_read env (EWrite get_msg :: history wb) = ReadData d2 ->
  query_reply 48 i d2 ->
  (if target then turn_on env fuel self src w else turn_off env fuel self w)
  = (Ok tt, push (EWrite get_msg) wb)
  /\ (let wifi_60_RL := mkSpeaker F64.zero F64.one (Some 60) true in
      let on := turn_on (simulated 138 30) 1 wifi_60_RL (Some "Wifi") init_world in
      let off := turn_off (simulated 82 30) 1 wifi_60_RL init_world in
      decode_state 82 = Ok (mkState "Wifi" true (Some 60) "R/L")
      /\ fst on = Raise RetryError
      /\ take 3 (rev (history (snd on)))
         = [EConnect; EWrite [71; 48; 128]; EWrite [83; 48; 129; 82]]
      /\ fst off = Raise RetryError
      /\ forallb (fun e => match e with EWrite (83 :: _) => false | _ => true end)
                 (history (snd off)) = true).
Proof.
  intros name i get_msg set_msg wa wb Hsb Hname Hc Hr82 Hi82 Ho Hd0 Hq0 Hdec0 Hon
         Ha Hack Hd1 Hq1 Hd2 Hq2.
  split; [| vm_compute; repeat split].
  pose proof (open_connection_ok env fuel w w1 Ho) as Hc1.
  assert (forall w', is_connected w' = true ->
                     open_connection env fuel w' = (Ok tt, w')) as Hopen
    by (intros w'; apply open_connection_connected).
  pose proof (get_state_query env fuel w w1 r0 d0 st0 Ho Hd0 Hq0 Hdec0) as Hst.
  fold get_msg in Hst. fold wa in Hst.
  set (state := if target then "on" else "off").
  destruct (wire_byte_decodes self name state Hsb Hname) as (c' & Hc' & Hdec).
  rewrite Hc in Hc'. injection Hc' as <-.
  assert ((if String.eqb state "off" then c mod 128 + 128 else c mod 128) = i) as Hi
    by (unfold state, i; destruct target; reflexivity).
  rewrite Hi in Hdec.
  assert (negb (String.eqb state "off") = target) as Htarget
    by (unfold state; destruct target; reflexivity).
  rewrite Htarget in Hdec.
  pose proof (set_source_obeyed name state c wa wa a d1
                (mkState name target (cfg_standby_time self)
                         (if inverse_speaker_mode self then "R/L" else "L/R"))) as Hset.
  cbv zeta in Hset. rewrite Hi in Hset.
  specialize (Hset Hc Hdec eq_refl (Hopen wa Hc1) Ha Hack Hd1 Hq1).
  fold get_msg set_msg in Hset. fold wb in Hset.
  assert (poll_power env fuel 20 target wb = (Ok tt, push (EWrite get_msg) wb)) as Hpoll.
  { apply poll_power_found. unfold get_is_on.
    rewrite (bind_ok _ _ _ _ _
               (get_state_query env fuel wb wb i d2 _ (Hopen wb Hc1) Hd2 Hq2 Hdec)).
    reflexivity. }
  destruct target; simpl in Hon.
  - unfold turn_on. rewrite (bind_ok _ _ _ _ _ Hst), Hon.
    rewrite (bind_ok _ _ _ _ _ Hset). exact Hpoll.
  - unfold turn_off. rewrite (bind_ok _ _ _ _ _ Hst), Hon. cbn [negb].
    rewrite (bind_ok _ _ _ _ _ Hset). exact Hpoll.
Qed.

End TurnObeyed.

Lemma turn_on_off_obeyed_witness :
  let self := mkSpeaker F64.zero F64.one (Some 60) true in
  In (cfg_standby_time self) STANDBY_OPTIONS /\
  In "Usb" decoded_names /\
  source_code self "Usb" = Ok 92 /\
  decode_state 138 = Ok (mkState "Aux" false (Some 20) "L/R") /\
  turn_on (simulated 138 30) 1 self (Some "Usb") init_world
  = (Ok tt, mkWorld true true
              [EWrite [71; 48; 128]; EWrite [71; 48; 128];
               EWrite [83; 48; 129; 92]; EWrite [71; 48; 128]; EConnect]).
Proof.
  intros self.
  assert (In (cfg_standby_time self) STANDBY_OPTIONS) as H1
    by (right; left; reflexivity).
  assert (In "Usb" decoded_names) as H2
    by (right; right; right; left; reflexivity).
  split; [exact H1 |]. split; [exact H2 |]. split; [reflexivity |].
  split; [reflexivity |].
  exact (proj1
           (turn_on_off_obeyed (simulated 138 30) 1 self true (Some "Usb")
              init_world (mkWorld true true [EConnect]) 138 92
              (mkState "Aux" false (Some 20) "L/R")
              (query_frame 48 138) FULL_RESPONSE_OK (query_frame 48 92) (query_frame 48 92)
              H1 H2 eq_refl ltac:(discriminate) ltac:(discriminate) eq_refl eq_refl
              (query_frame_reply 48 138 ltac:(discriminate) ltac:(discriminate))
              eq_refl eq_refl eq_refl full_response_is_ack
              eq_refl (query_frame_reply 48 92 ltac:(discriminate) ltac:(discriminate))
              eq_refl (query_frame_reply 48 92 ltac:(discriminate) ltac:(discriminate)))).
Defined.
